(** * An embedding of the experiment orchestrator of ml-course-project

    The development follows the Python modules that carry the
    orchestration logic, and one of the model adapters:

    - [utils/training.py]: tuning results, evaluation of one model, the
      overwrite policy of [save_evaluation_results], the orchestrator loop
      and the results aggregator;
    - [classification/datasets/__init__.py]: the dataset providers with
      their download-on-first-use cache;
    - [regression/models/adaboost.py]: the adapter of the AdaBoost
      regressor.

    Python code is embedded as functions in a state-and-exception monad
    over a [World] (file system, clock, console, network log, object
    store).  Library calls the repository does not define (the JSON codec,
    the table parsers, the estimators, the network) are the fields of
    type classes, which the sections that use them take as context. *)

From Stdlib Require Import ZArith String Ascii List Floats.SpecFloat.
From stdpp Require Import base option list gmap strings pretty sorting.

Set Warnings "-register-all".

Local Open Scope Z_scope.
Local Open Scope string_scope.

(** ** Exceptions and results *)

(** The exception classes the modelled code raises or catches.
    [TimeoutError] is the class exported by [utils/timeout.py], which
    shadows the builtin of the same name inside [training.py]. *)
Inductive exn : Type :=
| FileNotFoundError
| TimeoutError
| MemoryError
| KeyError (key : string)
| TypeError
| ValueError
| AttributeError
| OverflowError
| IndexError
| JSONDecodeError
| URLError
| ParserError
| LibraryError (tag : string).

Global Instance exn_eq_dec : EqDecision exn.
Proof. solve_decision. Defined.

Inductive Res (A : Type) : Type :=
| Ok (a : A)
| Raise (e : exn).
Arguments Ok {A} a.
Arguments Raise {A} e.

Definition is_ok {A} (r : Res A) : bool :=
  match r with Ok _ => true | Raise _ => false end.

(** ** Python numbers and JSON values *)

(** A Python [float] is an IEEE binary64 value. *)
Definition prec : Z := 53.
Definition emax : Z := 1024.

Inductive number : Type :=
| NInt (z : Z)
| NFloat (f : spec_float).

(** What [json.load] builds: [None], [bool], [int]/[float], [str], [list]
    and [dict] (insertion-ordered, hence an association list). *)
Inductive json : Type :=
| JNull
| JBool (b : bool)
| JNum (n : number)
| JStr (s : string)
| JArr (items : list json)
| JObj (fields : list (string * json)).

(** The value a number denotes: not-a-number, an infinity, or the dyadic
    rational [m * 2^e]. *)
Inductive extended : Type :=
| XNan
| XNegInf
| XPosInf
| XFin (m e : Z).

Definition extended_of_float (f : spec_float) : extended :=
  match f with
  | S754_zero _ => XFin 0 0
  | S754_infinity s => if s then XNegInf else XPosInf
  | S754_nan => XNan
  | S754_finite s m e => XFin (cond_Zopp s (Zpos m)) e
  end.

Definition extended_of_number (n : number) : extended :=
  match n with
  | NInt z => XFin z 0
  | NFloat f => extended_of_float f
  end.

(** Exact comparison of [m1 * 2^e1] with [m2 * 2^e2]. *)
Definition dyadic_compare (m1 e1 m2 e2 : Z) : comparison :=
  let e := Z.min e1 e2 in
  Z.compare (m1 * 2 ^ (e1 - e)) (m2 * 2 ^ (e2 - e)).

(** Python compares [int] and [float] operands by value, exactly; every
    ordered comparison with a NaN is false ([None] here). *)
Definition extended_compare (a b : extended) : option comparison :=
  match a, b with
  | XNan, _ | _, XNan => None
  | XNegInf, XNegInf => Some Eq
  | XNegInf, _ => Some Lt
  | _, XNegInf => Some Gt
  | XPosInf, XPosInf => Some Eq
  | XPosInf, _ => Some Gt
  | _, XPosInf => Some Lt
  | XFin m1 e1, XFin m2 e2 => Some (dyadic_compare m1 e1 m2 e2)
  end.

Definition num_compare (a b : number) : option comparison :=
  extended_compare (extended_of_number a) (extended_of_number b).

Definition num_gtb (a b : number) : bool :=
  match num_compare a b with Some Gt => true | _ => false end.
Definition num_ltb (a b : number) : bool :=
  match num_compare a b with Some Lt => true | _ => false end.
Definition num_eqb (a b : number) : bool :=
  match num_compare a b with Some Eq => true | _ => false end.

(** [bool] is a subclass of [int]. *)
Definition number_of_bool (b : bool) : number := NInt (if b then 1 else 0).

Definition as_number (v : json) : option number :=
  match v with
  | JNum n => Some n
  | JBool b => Some (number_of_bool b)
  | _ => None
  end.

(** [d[k]] on a loaded value: only a [dict] can be indexed by a string. *)
Fixpoint assoc {A} (k : string) (l : list (string * A)) : option A :=
  match l with
  | [] => None
  | (k', v) :: l' => if String.eqb k k' then Some v else assoc k l'
  end.

Definition getitem (d : json) (k : string) : Res json :=
  match d with
  | JObj fields =>
      match assoc k fields with
      | Some v => Ok v
      | None => Raise (KeyError k)
      end
  | _ => Raise TypeError
  end.

(** [a == b].  (The identity shortcut that container comparison takes
    before calling [==] only matters for a NaN compared with itself and is
    not modelled.) *)
Fixpoint py_eq (a b : json) {struct a} : bool :=
  match a, b with
  | JNull, JNull => true
  | JStr s, JStr t => String.eqb s t
  | JArr l, JArr m =>
      (fix go (l m : list json) {struct l} : bool :=
         match l, m with
         | [], [] => true
         | x :: l', y :: m' => py_eq x y && go l' m'
         | _, _ => false
         end) l m
  | JObj l, JObj m =>
      Nat.eqb (length l) (length m) &&
      (fix go (l : list (string * json)) {struct l} : bool :=
         match l with
         | [] => true
         | (k, v) :: l' =>
             match assoc k m with
             | Some w => py_eq v w
             | None => false
             end && go l'
         end) l
  | (JNum _ | JBool _), (JNum _ | JBool _) =>
      match as_number a, as_number b with
      | Some x, Some y => num_eqb x y
      | _, _ => false
      end
  | _, _ => false
  end.

(** The two ordered comparisons the code uses. *)
Inductive cmpop : Type := OpLt | OpGt.

Definition cmpop_holds (op : cmpop) (c : comparison) : bool :=
  match op, c with
  | OpLt, Lt | OpGt, Gt => true
  | _, _ => false
  end.

(** [a < b] and [a > b].  Numbers (and booleans) are ordered by value,
    strings by code point (which is the byte order of their UTF-8
    encoding), lists lexicographically; every other pair of operands is a
    [TypeError]. *)
Fixpoint py_richcmp (op : cmpop) (a b : json) {struct a} : Res bool :=
  match a, b with
  | JStr s, JStr t => Ok (cmpop_holds op (String.compare s t))
  | JArr l, JArr m =>
      (fix go (l m : list json) {struct l} : Res bool :=
         match l, m with
         | [], [] => Ok false
         | [], _ :: _ => Ok (cmpop_holds op Lt)
         | _ :: _, [] => Ok (cmpop_holds op Gt)
         | x :: l', y :: m' =>
             if py_eq x y then go l' m' else py_richcmp op x y
         end) l m
  | (JNum _ | JBool _), (JNum _ | JBool _) =>
      match as_number a, as_number b with
      | Some x, Some y =>
          Ok (match num_compare x y with
              | Some c => cmpop_holds op c
              | None => false
              end)
      | _, _ => Raise TypeError
      end
  | _, _ => Raise TypeError
  end.

Definition py_gt : json -> json -> Res bool := py_richcmp OpGt.
Definition py_lt : json -> json -> Res bool := py_richcmp OpLt.

(** ** String formatting *)

Definition number_neg (n : number) : number :=
  match n with
  | NInt z => NInt (- z)
  | NFloat f => NFloat (SFopp f)
  end.

(** [float(z)]: round to nearest, ties to even; too large is an error. *)
Definition float_of_int (z : Z) : Res spec_float :=
  match binary_normalize prec emax z 0 false with
  | S754_infinity _ => Raise OverflowError
  | f => Ok f
  end.

(** The integer nearest to [n / 2^k] for [0 <= n], [0 <= k], ties to
    even. *)
Definition round_half_even (n k : Z) : Z :=
  let q := n / 2 ^ k in
  let r := n mod 2 ^ k in
  match Z.compare (2 * r) (2 ^ k) with
  | Lt => q
  | Gt => q + 1
  | Eq => if Z.even q then q else q + 1
  end.

(** The integer nearest to [m * 2^e * 10^d]. *)
Definition scaled_round (d : nat) (m : positive) (e : Z) : Z :=
  let n := Zpos m * 10 ^ Z.of_nat d in
  if Z.leb 0 e then n * 2 ^ e else round_half_even n (- e).

Fixpoint zeros (n : nat) : string :=
  match n with
  | O => ""
  | S n' => "0" +:+ zeros n'
  end.

Definition pad_zeros (d : nat) (s : string) : string :=
  zeros (d - String.length s) +:+ s.

(** The digits of [n / 10^d] with [d] places after the point. *)
Definition fixed_digits (d : nat) (n : Z) : string :=
  let p := 10 ^ Z.of_nat d in
  pretty (n / p) +:+
  match d with
  | O => ""
  | S _ => "." +:+ pad_zeros d (pretty (n mod p))
  end.

Definition sign_string (s : bool) : string := if s then "-" else "".

(** [format(f, '.df')] for a float: the exact binary value, correctly
    rounded to [d] decimals. *)
Definition format_float (d : nat) (f : spec_float) : string :=
  match f with
  | S754_nan => "nan"
  | S754_infinity s => sign_string s +:+ "inf"
  | S754_zero s => sign_string s +:+ fixed_digits d 0
  | S754_finite s m e => sign_string s +:+ fixed_digits d (scaled_round d m e)
  end.

(** [f"{v:.df}"] on a loaded value.  An [int] (and so a [bool]) is
    converted to [float] first; [str] rejects the format code; [None],
    [list] and [dict] do not support format strings. *)
Definition format_f (d : nat) (v : json) : Res string :=
  match v with
  | JNum (NFloat f) => Ok (format_float d f)
  | JNum (NInt z) =>
      match float_of_int z with
      | Ok f => Ok (format_float d f)
      | Raise e => Raise e
      end
  | JBool b =>
      match float_of_int (if b then 1 else 0) with
      | Ok f => Ok (format_float d f)
      | Raise e => Raise e
      end
  | JStr _ => Raise ValueError
  | JNull | JArr _ | JObj _ => Raise TypeError
  end.

Definition join (sep : string) (l : list string) : string := String.concat sep l.

(** ** Tables and other Python objects *)

(** A pandas [DataFrame]: column labels (strings, integers, or tuples for
    a two-level header, written as [JArr]) and rows, each with its index
    label.  A missing cell is the float NaN, as in pandas. *)
Record DataFrame : Type := mkFrame {
  columns : list json;
  rows : list (Z * list json)
}.

Record Series : Type := mkSeries {
  s_name : json;
  s_rows : list (Z * json)
}.

Inductive pyobj : Type :=
| PFrame (df : DataFrame)
| PSeries (s : Series)
| PArray (a : list json)
| PTuple (items : list pyobj)
| PValue (v : json).

Definition nan : json := JNum (NFloat S754_nan).

Definition chars (s : string) : list string :=
  map (fun c => String c EmptyString) (list_ascii_of_string s).

(** What iterating over an object yields: a frame iterates over its
    column labels, a series or array over its values, a [dict] over its
    keys, a [str] over its characters (one byte each here). *)
Definition py_iter (o : pyobj) : Res (list pyobj) :=
  match o with
  | PTuple items => Ok items
  | PFrame df => Ok (map PValue (columns df))
  | PSeries s => Ok (map (fun r => PValue (snd r)) (s_rows s))
  | PArray a => Ok (map PValue a)
  | PValue (JArr l) => Ok (map PValue l)
  | PValue (JObj kvs) => Ok (map (fun kv => PValue (JStr (fst kv))) kvs)
  | PValue (JStr s) => Ok (map (fun c => PValue (JStr c)) (chars s))
  | PValue _ => Raise TypeError
  end.

(** [a, b = o] *)
Definition unpack2 (o : pyobj) : Res (pyobj * pyobj) :=
  match py_iter o with
  | Ok [a; b] => Ok (a, b)
  | Ok _ => Raise ValueError
  | Raise e => Raise e
  end.

(** [a, b, *_ = o] *)
Definition unpack2_star (o : pyobj) : Res (pyobj * pyobj) :=
  match py_iter o with
  | Ok (a :: b :: _) => Ok (a, b)
  | Ok _ => Raise ValueError
  | Raise e => Raise e
  end.

(** ** The world *)

Inductive event : Type :=
| Printed (line : string)
| Wrote (path : string)
| Fetched (url path : string).

Global Instance event_eq_dec : EqDecision event.
Proof. solve_decision. Defined.

(** [files] holds the regular files by path.  Directories are implicit:
    every write in the modelled code is preceded by a [makedirs] of the
    parent with [exist_ok=True].  [clock] is what [time.time()] reads;
    [alarm] is the pending deadline of the timeout wrapper; [trace] lists
    the observable actions, oldest first; [store] holds the tables that
    are passed by reference; [draws] counts the random numbers the global
    generator has handed out. *)
Record World : Type := mkWorld {
  files : gmap string string;
  clock : spec_float;
  alarm : option spec_float;
  trace : list event;
  store : gmap nat DataFrame;
  draws : nat
}.

Definition set_files (f : gmap string string) (w : World) : World :=
  mkWorld f (clock w) (alarm w) (trace w) (store w) (draws w).
Definition set_clock (t : spec_float) (w : World) : World :=
  mkWorld (files w) t (alarm w) (trace w) (store w) (draws w).
Definition set_alarm (a : option spec_float) (w : World) : World :=
  mkWorld (files w) (clock w) a (trace w) (store w) (draws w).
Definition emit (e : event) (w : World) : World :=
  mkWorld (files w) (clock w) (alarm w) (trace w ++ [e])%list (store w) (draws w).
Definition set_store (s : gmap nat DataFrame) (w : World) : World :=
  mkWorld (files w) (clock w) (alarm w) (trace w) s (draws w).
Definition set_draws (n : nat) (w : World) : World :=
  mkWorld (files w) (clock w) (alarm w) (trace w) (store w) n.

(** ** The monad of Python statements *)

Definition M (A : Type) : Type := World -> Res A * World.

Definition ret {A} (a : A) : M A := fun w => (Ok a, w).
Definition raise {A} (e : exn) : M A := fun w => (Raise e, w).
Definition bind {A B} (c : M A) (k : A -> M B) : M B :=
  fun w =>
    match c w with
    | (Ok a, w') => k a w'
    | (Raise e, w') => (Raise e, w')
    end.
Definition lift {A} (r : Res A) : M A := fun w => (r, w).

(** [try: c except E: h], where [handles] recognises the class [E]. *)
Definition try_except {A} (c : M A) (handles : exn -> bool) (h : M A) : M A :=
  fun w =>
    match c w with
    | (Ok a, w') => (Ok a, w')
    | (Raise e, w') => if handles e then h w' else (Raise e, w')
    end.

Declare Scope py_scope.
Delimit Scope py_scope with py.
Notation "x <- c ;; k" := (bind c (fun x => k))
  (at level 100, c at next level, right associativity) : py_scope.
Notation "c ;;; k" := (bind c (fun _ => k))
  (at level 100, right associativity) : py_scope.
Local Open Scope py_scope.

Definition is_FileNotFoundError (e : exn) : bool :=
  bool_decide (e = FileNotFoundError).
Definition is_TimeoutError (e : exn) : bool := bool_decide (e = TimeoutError).
Definition is_MemoryError (e : exn) : bool := bool_decide (e = MemoryError).

(** [print(line)] *)
Definition print (line : string) : M unit :=
  fun w => (Ok tt, emit (Printed line) w).

(** [time.time()] *)
Definition time_time : M spec_float := fun w => (Ok (clock w), w).

(** [os.path.isfile(path)] *)
Definition isfile (path : string) : M bool :=
  fun w => (Ok (bool_decide (is_Some (files w !! path))), w).

(** [os.makedirs(path, exist_ok=True)] *)
Definition makedirs (path : string) : M unit := ret tt.

(** [open(path, 'r').read()] *)
Definition read_file (path : string) : M string :=
  fun w =>
    match files w !! path with
    | Some content => (Ok content, w)
    | None => (Raise FileNotFoundError, w)
    end.

(** [open(path, 'w').write(content)] *)
Definition write_file (path content : string) : M unit :=
  fun w => (Ok tt, emit (Wrote path) (set_files (<[path := content]> (files w)) w)).

(** [os.path.join(a, *p)] (POSIX). *)
Definition ends_with_sep (s : string) : bool :=
  match rev (list_ascii_of_string s) with
  | c :: _ => Ascii.eqb c "/"%char
  | [] => false
  end.

Definition starts_with_sep (s : string) : bool :=
  match s with
  | String c _ => Ascii.eqb c "/"%char
  | EmptyString => false
  end.

Definition join2 (path b : string) : string :=
  if starts_with_sep b then b
  else if String.eqb path "" || ends_with_sep path then path +:+ b
  else path +:+ "/" +:+ b.

Definition joinpath (a : string) (p : list string) : string :=
  fold_left join2 p a.

(** [for x in l: body(x)] *)
Fixpoint for_each {A} (l : list A) (body : A -> M unit) : M unit :=
  match l with
  | [] => ret tt
  | x :: l' => body x ;;; for_each l' body
  end.

(** Attribute access on a class that may not declare the attribute. *)
Definition attr {A} (a : option A) : M A :=
  match a with
  | Some v => ret v
  | None => raise AttributeError
  end.

(** ** Library calls and the timeout wrapper *)

(** A call into a numerical library: from the clock reading at the call
    to a result and the clock reading at the return.  Such calls touch
    nothing else in the world. *)
Definition Ext (A : Type) : Type := spec_float -> Res A * spec_float.

(** Modelled from the spec: [utils/timeout.py] ([set_timeout],
    [TimeoutError]) is not among the sources.  The spec describes a
    signal-based wrapper that runs the call under a wall-clock deadline
    and raises a timeout condition into it when the deadline elapses.  A
    signal handler runs when control is back in the interpreter, so the
    condition surfaces at the return of the library call during which
    the deadline passed. *)
Definition call {A} (c : Ext A) : M A :=
  fun w =>
    let (r, t) := c (clock w) in
    let w' := set_clock t w in
    match alarm w with
    | Some deadline =>
        if SFltb deadline t then (Raise TimeoutError, set_alarm None w')
        else (r, w')
    | None => (r, w')
    end.

Definition float_of_seconds (seconds : Z) : spec_float :=
  binary_normalize prec emax seconds 0 false.

(** Modelled from the spec: [set_timeout(f, seconds)] applied to the
    arguments of [f]; each call gets a deadline of its own, [seconds]
    after it starts, and the alarm is cleared when the call ends. *)
Definition set_timeout {A} (f : M A) (seconds : Z) : M A :=
  fun w =>
    let deadline := SFadd prec emax (clock w) (float_of_seconds seconds) in
    let (r, w') := f (set_alarm (Some deadline) w) in
    (r, set_alarm None w').

(** * utils/training.py *)

(** [config.RESULTS_DIR] *)
Class Config : Type := {
  RESULTS_DIR : string
}.

(** [json.load] and [json.dump(..., ensure_ascii=False, indent=4)] *)
Class JsonCodec : Type := {
  json_loads : string -> Res json;
  json_dumps : json -> string
}.

(** [utils.compute_metric], [utils.compute_loss] and the estimator
    objects that [build_estimator] returns, with the methods the orchestrator
    calls on them. *)
Class Learning : Type := {
  compute_metric : pyobj -> pyobj -> string -> Ext number;
  compute_loss : string -> list number -> Ext number;
  Estimator : Type;
  est_fit : Estimator -> pyobj -> pyobj -> Ext Estimator;
  est_predict : Estimator -> pyobj -> Ext pyobj;
  est_initialize : Estimator -> Ext Estimator;
  est_load_params : Estimator -> string -> Ext Estimator;
  est_save_params : Estimator -> Ext string
}.

Section Training.

Context `{Config} `{JsonCodec} `{Learning}.

(** A model class: its [__name__] and its two static methods. *)
Record Model : Type := mkModel {
  md_name : string;
  prepare_dataset : pyobj -> pyobj -> list string -> Ext pyobj;
  build_estimator : json -> pyobj -> Ext Estimator
}.

(** A dataset class: its [__name__], its [get] and the class attributes
    the orchestrator reads, which a class may lack. *)
Record Dataset : Type := mkDataset {
  ds_name : string;
  ds_get : M pyobj;
  ds_metric : option string;
  ds_is_metric_maximized : option bool;
  ds_categorical_features : option (list string)
}.

Definition cifar_model_weights_path : string :=
  joinpath RESULTS_DIR ["Cifar10CustomModel-weights.pkl"].

Definition elapsed (now start : spec_float) : number :=
  NFloat (SFsub prec emax now start).

Definition evaluate_model (model : Model) (dataset : Dataset)
    (train test : pyobj) (hyperparams : json) : M (number * number * number) :=
  let is_cifar_model := String.eqb (md_name model) "Cifar10CustomModel" in
  start_time <- time_time ;;
  cats <- attr (ds_categorical_features dataset) ;;
  prepared <- call (prepare_dataset model train test cats) ;;
  datas <- lift (unpack2 prepared) ;;
  let train_data := fst datas in
  let test_data := snd datas in
  estimator <- call (build_estimator model hyperparams train_data) ;;
  restore <- (if is_cifar_model then isfile cifar_model_weights_path
              else ret false) ;;
  trained <-
    (if restore : bool then
       estimator <- call (est_initialize estimator) ;;
       params <- read_file cifar_model_weights_path ;;
       estimator <- call (est_load_params estimator params) ;;
       ret (estimator, NInt (-1))
     else
       Xy <- lift (unpack2_star train_data) ;;
       estimator <- call (est_fit estimator (fst Xy) (snd Xy)) ;;
       now <- time_time ;;
       let train_time := elapsed now start_time in
       (if is_cifar_model then
          params <- call (est_save_params estimator) ;;
          write_file cifar_model_weights_path params
        else ret tt) ;;;
       ret (estimator, train_time)) ;;
  let estimator := fst trained in
  let train_time := snd trained in
  start_time <- time_time ;;
  Xy_test <- lift (unpack2 test_data) ;;
  predictions <- call (est_predict estimator (fst Xy_test)) ;;
  metric <- attr (ds_metric dataset) ;;
  metric_value <- call (compute_metric (snd Xy_test) predictions metric) ;;
  metric <- attr (ds_metric dataset) ;;
  loss <- call (compute_loss metric [metric_value]) ;;
  let score := number_neg loss in
  now <- time_time ;;
  let evaluation_time := elapsed now start_time in
  ret (score, train_time, evaluation_time).

Definition results_dir (dataset : Dataset) (model : Model) : string :=
  joinpath RESULTS_DIR [ds_name dataset; md_name model].

Definition tuning_path (dataset : Dataset) (model : Model) : string :=
  joinpath (results_dir dataset model) ["tuning.json"].

Definition evaluation_path (dataset : Dataset) (model : Model) : string :=
  joinpath (results_dir dataset model) ["evaluation.json"].

Definition get_tuning_results (dataset : Dataset) (model : Model) : M json :=
  file <- read_file (tuning_path dataset model) ;;
  prev_results <- lift (json_loads file) ;;
  ret prev_results.

Definition save_evaluation_results (dataset : Dataset) (model : Model)
    (tuning_results : json) (score train_time evaluation_time : number)
    : M unit :=
  makedirs (results_dir dataset model) ;;;
  better_val_results <-
    try_except
      (file <- read_file (evaluation_path dataset model) ;;
       prev_results <- lift (json_loads file) ;;
       maximized <- attr (ds_is_metric_maximized dataset) ;;
       new_score <- lift (getitem tuning_results "score") ;;
       old_score <- lift (getitem prev_results "val_score") ;;
       if maximized : bool then lift (py_gt new_score old_score)
       else lift (py_lt new_score old_score))
      is_FileNotFoundError
      (ret true) ;;
  if better_val_results : bool then
    hp <- lift (getitem tuning_results "hp") ;;
    n_trials <- lift (getitem tuning_results "n_trials") ;;
    val_score <- lift (getitem tuning_results "score") ;;
    metric <- attr (ds_metric dataset) ;;
    let results :=
      JObj [("hp", hp);
            ("score", JNum score);
            ("tuning_n_trials", n_trials);
            ("val_score", val_score);
            ("train_time", JNum train_time);
            ("evaluation_time", JNum evaluation_time);
            ("metric_used", JStr metric)] in
    write_file (evaluation_path dataset model) (json_dumps results)
  else ret tt.

Definition evaluate_model_with_timeout (max_training_time : Z)
    (model : Model) (dataset : Dataset) (train test : pyobj)
    (hyperparams : json) : M (number * number * number) :=
  set_timeout (evaluate_model model dataset train test hyperparams)
              max_training_time.

Definition msg_no_tuning : string :=
  "No hyper-parameters saved for this dataset and model".
Definition msg_timeout (max_training_time : Z) : string :=
  "Model training and testing exceeded allowed time (" +:+
  pretty max_training_time +:+ "s)".
Definition msg_memory : string :=
  "Memory requirements for this model with this dataset are too high".

(** The three prints that close a successful pair. *)
Definition report (dataset : Dataset) (tuning_results : json)
    (score train_time evaluation_time : number) : M unit :=
  metric <- attr (ds_metric dataset) ;;
  s_score <- lift (format_f 2 (JNum score)) ;;
  val_score <- lift (getitem tuning_results "score") ;;
  s_val <- lift (format_f 2 val_score) ;;
  print ("Results on test set: " +:+ metric +:+ "=" +:+ s_score +:+
         " (" +:+ s_val +:+ " during validation)") ;;;
  s_train <- lift (format_f 1 (JNum train_time)) ;;
  print ("Training time: " +:+ s_train +:+ "s") ;;;
  s_eval <- lift (format_f 1 (JNum evaluation_time)) ;;
  print ("Evaluation time: " +:+ s_eval +:+ "s").

(** The body of the inner loop, for one model.  [None] stands for the
    [continue] taken in a handler. *)
Definition train_model (max_training_time : Z) (dataset : Dataset)
    (train test : pyobj) (model : Model) : M unit :=
  print ("Model: " +:+ md_name model) ;;;
  try_except
    (tuned <-
       try_except
         (tuning_results <- get_tuning_results dataset model ;;
          ret (Some tuning_results))
         is_FileNotFoundError
         (print msg_no_tuning ;;; ret None) ;;
     match tuned with
     | None => ret tt
     | Some tuning_results =>
         evaluated <-
           try_except
             (hyperparams <- lift (getitem tuning_results "hp") ;;
              r <- evaluate_model_with_timeout max_training_time
                     model dataset train test hyperparams ;;
              ret (Some r))
             is_TimeoutError
             (print (msg_timeout max_training_time) ;;; ret None) ;;
         match evaluated with
         | None => ret tt
         | Some (score, train_time, evaluation_time) =>
             save_evaluation_results dataset model tuning_results
               score train_time evaluation_time ;;;
             report dataset tuning_results score train_time evaluation_time
         end
     end)
    is_MemoryError
    (print msg_memory).

Definition train_dataset (max_training_time : Z) (models : list Model)
    (dataset : Dataset) : M unit :=
  print ("Dataset: " +:+ ds_name dataset) ;;;
  got <- ds_get dataset ;;
  split <- lift (unpack2 got) ;;
  for_each models
    (train_model max_training_time dataset (fst split) (snd split)).

Definition train_all_models_on_all_datasets (datasets : list Dataset)
    (models : list Model) (max_training_time : Z) : M unit :=
  for_each datasets (train_dataset max_training_time models).

Definition default_max_training_time : Z := 180.

End Training.

(** ** The results aggregator *)

(** [repr] of a float (the shortest string that reads back as the same
    float) and of a string (quoted and escaped) are left to the runtime. *)
Class Builtins : Type := {
  repr_float : spec_float -> string;
  repr_str : string -> string
}.

Fixpoint py_repr `{Builtins} (v : json) : string :=
  match v with
  | JNull => "None"
  | JBool b => if b then "True" else "False"
  | JNum (NInt z) => pretty z
  | JNum (NFloat f) => repr_float f
  | JStr s => repr_str s
  | JArr l => "[" +:+ join ", " (map py_repr l) +:+ "]"
  | JObj kvs =>
      "{" +:+
      join ", " (map (fun kv => match kv with
                                | (k, x) => repr_str k +:+ ": " +:+ py_repr x
                                end) kvs) +:+
      "}"
  end.

(** [str(v)], which is what [f"{v}"] inserts. *)
Definition py_str `{Builtins} (v : json) : string :=
  match v with
  | JStr s => s
  | _ => py_repr v
  end.

Fixpoint map_res {A B} (f : A -> Res B) (l : list A) : Res (list B) :=
  match l with
  | [] => Ok []
  | x :: l' =>
      match f x with
      | Raise e => Raise e
      | Ok y =>
          match map_res f l' with
          | Raise e => Raise e
          | Ok ys => Ok (y :: ys)
          end
      end
  end.

Fixpoint map_m {A B} (f : A -> M B) (l : list A) : M (list B) :=
  match l with
  | [] => ret []
  | x :: l' => y <- f x ;; ys <- map_m f l' ;; ret (y :: ys)
  end.

(** [d[k] = v] on a [dict]: an existing key keeps its position. *)
Fixpoint dict_set (k : string) (v : json) (fields : list (string * json))
    : list (string * json) :=
  match fields with
  | [] => [(k, v)]
  | (k', v') :: rest =>
      if String.eqb k k' then (k, v) :: rest
      else (k', v') :: dict_set k v rest
  end.

Fixpoint split_on (sep : ascii) (s : string) : list string :=
  match s with
  | EmptyString => [EmptyString]
  | String c s' =>
      if Ascii.eqb c sep then EmptyString :: split_on sep s'
      else match split_on sep s' with
           | [] => [String c EmptyString]
           | seg :: segs => String c seg :: segs
           end
  end.

(** What a [*] of a glob pattern matches: a file name that does not start
    with a dot. *)
Definition glob_star (name : string) : bool :=
  match name with
  | EmptyString => false
  | String c _ => negb (Ascii.eqb c "."%char)
  end.

(** Membership in [glob('results/*/*/evaluation.json')]. *)
Definition glob_matches (path : string) : bool :=
  match split_on "/"%char path with
  | [root; d; m; name] =>
      String.eqb root "results" && glob_star d && glob_star m &&
      String.eqb name "evaluation.json"
  | _ => false
  end.

(** The files the glob returns; their order is that of the directory
    listing, here the order in which the file map enumerates its keys. *)
Definition matched_files (w : World) : list string :=
  filter (fun p => Is_true (glob_matches p)) (map fst (map_to_list (files w))).

Definition glob_results : M (list string) :=
  fun w => (Ok (matched_files w), w).

Definition is_alnum (c : ascii) : bool :=
  let n := nat_of_ascii c in
  ((48 <=? n) && (n <=? 57) || (65 <=? n) && (n <=? 90) ||
   (97 <=? n) && (n <=? 122))%nat.

Fixpoint span (p : ascii -> bool) (s : string) : string * string :=
  match s with
  | EmptyString => (EmptyString, EmptyString)
  | String c s' =>
      if p c then let (a, b) := span p s' in (String c a, b)
      else (EmptyString, s)
  end.

Fixpoint strip_prefix (p s : string) : option string :=
  match p, s with
  | EmptyString, _ => Some s
  | String a p', String b s' =>
      if Ascii.eqb a b then strip_prefix p' s' else None
  | String _ _, EmptyString => None
  end.

(** The regular expression [.]: any character but a newline. *)
Definition strip_dot (s : string) : option string :=
  match s with
  | EmptyString => None
  | String c s' => if Ascii.eqb c "010"%char then None else Some s'
  end.

(** One or more of [[a-zA-Z0-9]], greedily. *)
Definition strip_alnums (s : string) : option (string * string) :=
  match span is_alnum s with
  | (EmptyString, _) => None
  | (name, rest) => Some (name, rest)
  end.

Section Aggregator.

Context `{Config} `{JsonCodec} `{Builtins}.

(** [pattern.match(path)] for the pattern
    [RESULTS_DIR + r'/([a-zA-Z0-9]+)/([a-zA-Z0-9]+)/evaluation.json'],
    with its two groups.  [RESULTS_DIR] is read as a literal, which it
    is when it holds no regular-expression metacharacter. *)
Definition pattern_match (path : string) : option (string * string) :=
  rest ← strip_prefix RESULTS_DIR path;
  rest ← strip_prefix "/" rest;
  '(dataset, rest) ← strip_alnums rest;
  rest ← strip_prefix "/" rest;
  '(model, rest) ← strip_alnums rest;
  rest ← strip_prefix "/evaluation" rest;
  rest ← strip_dot rest;
  _ ← strip_prefix "json" rest;
  Some (dataset, model).

Definition stringified (v : json) : bool :=
  match v with
  | JStr _ | JArr _ | JNull => true
  | _ => false
  end.

(** One element of the comprehension over [results['hp'].items()]. *)
Definition format_hp_item (kv : string * json) : Res string :=
  let (k, v) := kv in
  if stringified v then Ok (k +:+ "=" +:+ py_str v)
  else match format_f 2 v with
       | Ok s => Ok (k +:+ "=" +:+ s)
       | Raise e => Raise e
       end.

Definition flatten_hp (hp : json) : Res string :=
  match hp with
  | JObj kvs =>
      match map_res format_hp_item kvs with
      | Ok items => Ok (join "," items)
      | Raise e => Raise e
      end
  | _ => Raise AttributeError
  end.

(** The body of the loop over the result files: the row of one file. *)
Definition load_result (result_file : string) : M (list (string * json)) :=
  match pattern_match result_file with
  | None => raise AttributeError
  | Some (dataset, model) =>
      file <- read_file result_file ;;
      results <- lift (json_loads file) ;;
      hp <- lift (getitem results "hp") ;;
      flat <- lift (flatten_hp hp) ;;
      match results with
      | JObj fields =>
          ret (dict_set "model" (JStr model)
                 (dict_set "dataset" (JStr dataset)
                    (dict_set "hp" (JStr flat) fields)))
      | _ => raise TypeError
      end
  end.

End Aggregator.

(** *** Tables *)

Definition add_keys (cols : list string) (record : list (string * json))
    : list string :=
  fold_left (fun acc kv =>
               if existsb (String.eqb (fst kv)) acc then acc
               else (acc ++ [fst kv])%list)
            record cols.

(** [pd.DataFrame(records)] on a list of dicts: the columns are the keys
    in order of first appearance, the index is [0, 1, ...], and a key a
    record lacks gives a missing cell.  (The conversions pandas applies to
    the values of a column are not modelled.) *)
Definition frame_of_records (records : list (list (string * json)))
    : DataFrame :=
  let cols := fold_left add_keys records [] in
  mkFrame (map JStr cols)
          (imap (fun i r =>
                   (Z.of_nat i,
                    map (fun c => default nan (assoc c r)) cols))
                records).

Fixpoint find_index {A} (p : A -> bool) (l : list A) : option nat :=
  match l with
  | [] => None
  | x :: l' => if p x then Some O else S <$> find_index p l'
  end.

Definition column_index (label : string) (df : DataFrame) : option nat :=
  find_index (py_eq (JStr label)) (columns df).

Definition column_position (df : DataFrame) (label : string) : Res nat :=
  match column_index label df with
  | Some i => Ok i
  | None => Raise (KeyError label)
  end.

(** [df[label]], the values of one column. *)
Definition get_column (label : string) (df : DataFrame) : Res (list json) :=
  match column_position df label with
  | Ok i => Ok (map (fun r => nth i (snd r) nan) (rows df))
  | Raise e => Raise e
  end.

(** [df[[l1, ..., ln]]], a new table. *)
Definition select_columns (labels : list string) (df : DataFrame)
    : Res DataFrame :=
  match map_res (column_position df) labels with
  | Ok positions =>
      Ok (mkFrame (map JStr labels)
            (map (fun r => (fst r, map (fun i => nth i (snd r) nan) positions))
                 (rows df)))
  | Raise e => Raise e
  end.

(** [df[label] = values], in place: an existing column keeps its position,
    a new one is added last. *)
Definition set_column (label : string) (values : list json) (df : DataFrame)
    : DataFrame :=
  match column_index label df with
  | Some i =>
      mkFrame (columns df)
              (zip_with (fun r v => (fst r, <[i := v]> (snd r))) (rows df) values)
  | None =>
      mkFrame (columns df ++ [JStr label])%list
              (zip_with (fun r v => (fst r, (snd r ++ [v])%list)) (rows df) values)
  end.

(** *** Ranking *)

Definition is_missing (v : json) : bool :=
  match v with
  | JNull | JNum (NFloat S754_nan) => true
  | _ => false
  end.

(** The float [k / 2]. *)
Definition half (k : Z) : spec_float := binary_normalize prec emax k (-1) false.

(** The scores of the rows whose group key equals [key]. *)
Fixpoint group_scores (key : json) (keys scores : list json) : list number :=
  match keys, scores with
  | k :: keys', s :: scores' =>
      match s with
      | JNum n =>
          if py_eq k key && negb (is_missing s)
          then n :: group_scores key keys' scores'
          else group_scores key keys' scores'
      | _ => group_scores key keys' scores'
      end
  | _, _ => []
  end.

Definition count_if {A} (p : A -> bool) (l : list A) : Z :=
  Z.of_nat (length (filter (fun x => Is_true (p x)) l)).

(** Twice the rank of score [s] among [group], ranking in descending
    order with ties sharing the average of their positions: as many
    positions as there are greater scores come first, and the tied scores
    share the next ones. *)
Definition rank2 (group : list number) (s : number) : Z :=
  2 * count_if (fun x => num_gtb x s) group +
  count_if (fun x => num_eqb x s) group + 1.

(** [groupby(key)[score].rank(ascending=False)] for one row: a row with a
    missing key or a missing score has no rank. *)
Definition rank_cell (keys scores : list json) (key score : json) : json :=
  match score with
  | JNum s =>
      if is_missing key || is_missing score then nan
      else JNum (NFloat (half (rank2 (group_scores key keys scores) s)))
  | _ => nan
  end.

Definition numeric_cell (v : json) : bool :=
  match v with
  | JNum _ | JNull => true
  | _ => false
  end.

(** The ranks of a whole column; a column that is not numeric is not
    ranked. *)
Definition group_rank (keys scores : list json) : Res (list json) :=
  if forallb numeric_cell scores
  then Ok (zip_with (rank_cell keys scores) keys scores)
  else Raise TypeError.

Fixpoint insert_sorted {A} (leb : A -> A -> bool) (x : A) (l : list A) : list A :=
  match l with
  | [] => [x]
  | y :: l' => if leb x y then x :: l else y :: insert_sorted leb x l'
  end.

Definition sort_by {A} (leb : A -> A -> bool) (l : list A) : list A :=
  fold_right (insert_sorted leb) [] l.

Definition key_leb (a b : json) : bool :=
  match py_lt b a with
  | Ok true => false
  | _ => true
  end.

(** The distinct keys of a column that are not missing, sorted. *)
Definition group_keys (keys : list json) : list json :=
  sort_by key_leb
    (fold_left (fun acc k =>
                  if is_missing k || existsb (py_eq k) acc then acc
                  else (acc ++ [k])%list)
               keys []).

Definition float_cells (key : json) (keys values : list json) : list spec_float :=
  flat_map (fun kv => match kv with
                      | (k, JNum (NFloat f)) =>
                          if py_eq k key && negb (is_missing (JNum (NFloat f)))
                          then [f] else []
                      | _ => []
                      end)
           (zip keys values).

(** The mean of the values present; NaN when there is none. *)
Definition mean (l : list spec_float) : spec_float :=
  match l with
  | [] => S754_nan
  | _ =>
      SFdiv prec emax
        (fold_left (SFadd prec emax) l (S754_zero false))
        (binary_normalize prec emax (Z.of_nat (length l)) 0 false)
  end.

(** Ascending order of [sort_values], missing values last. *)
Definition value_leb (a b : spec_float) : bool :=
  match a, b with
  | S754_nan, S754_nan => true
  | S754_nan, _ => false
  | _, S754_nan => true
  | _, _ => negb (num_ltb (NFloat b) (NFloat a))
  end.

(** [groupby(key)[value].mean().sort_values()].  (pandas sorts with an
    unstable algorithm; equal means are kept here in key order.) *)
Definition group_mean_sorted (keys values : list json)
    : list (json * spec_float) :=
  sort_by (fun a b => value_leb (snd a) (snd b))
    (map (fun k => (k, mean (float_cells k keys values))) (group_keys keys)).

Section Ranking.

Context `{Config} `{JsonCodec} `{Builtins}.

Definition result_columns : list string :=
  ["dataset"; "model"; "score"; "val_score"; "train_time";
   "evaluation_time"; "tuning_n_trials"; "hp"].

Definition get_results_table : M DataFrame :=
  result_files <- glob_results ;;
  result_table <- map_m load_result result_files ;;
  lift (select_columns result_columns (frame_of_records result_table)).

(** A table held by a variable is a reference into the store. *)
Definition deref (r : nat) : M DataFrame :=
  fun w =>
    match store w !! r with
    | Some df => (Ok df, w)
    | None => (Raise (LibraryError "unbound reference"), w)
    end.

Definition assign (r : nat) (df : DataFrame) : M unit :=
  fun w => (Ok tt, set_store (<[r := df]> (store w)) w).

Definition get_model_ranking (results : nat) : M (list (json * spec_float)) :=
  df <- deref results ;;
  datasets <- lift (get_column "dataset" df) ;;
  scores <- lift (get_column "score" df) ;;
  ranks <- lift (group_rank datasets scores) ;;
  assign results (set_column "model_rank" ranks df) ;;;
  df <- deref results ;;
  _ <- lift (select_columns ["score"; "model_rank"; "model"] df) ;;
  models <- lift (get_column "model" df) ;;
  model_rank <- lift (get_column "model_rank" df) ;;
  ret (group_mean_sorted models model_rank).

End Ranking.


(** ** The two printing functions *)

(** [NameError], which is none of the classes the module handles. *)
Definition NameError : exn := LibraryError "NameError".

(** The names [training.py] binds at module level, by its imports and its
    definitions.  The imports of [clf_ds] and [reg_ds] are commented
    out. *)
Definition module_names : list string :=
  ["glob"; "json"; "re"; "time"; "warnings"; "makedirs"; "joinpath"; "isfile";
   "pd"; "ConvergenceWarning"; "RESULTS_DIR"; "compute_loss"; "compute_metric";
   "set_timeout"; "TimeoutError"; "train_all_models_on_all_datasets";
   "evaluate_model"; "get_tuning_results"; "save_evaluation_results";
   "get_results_table"; "get_model_ranking"; "split_resultsby_task";
   "print_results"].

(** The table a name stands for, where the name is not a local variable
    of the function: the module binds functions, modules and one string,
    none of which can be indexed as a table, and a name it does not bind
    (nor the builtins) is a [NameError]. *)
Definition global_table (name : string) : M nat :=
  if existsb (String.eqb name) module_names then raise TypeError
  else raise NameError.

Section Printing.

Context `{Config} `{JsonCodec} `{Builtins}.

(** [split_resultsby_task(results)] and [print_results()].  Both use the
    name [result], which is neither a parameter nor assigned in the
    function.  [rest] stands for everything the function does with the
    value of [result] once it has it: the tagging of the rows by task
    and, in [print_results], the [print] of the table. *)
Definition split_resultsby_task (rest : nat -> M unit) (results : nat) : M unit :=
  result <- global_table "result" ;;
  rest result.

Definition print_results (rest : nat -> DataFrame -> M unit) : M unit :=
  results <- get_results_table ;;
  result <- global_table "result" ;;
  rest result results.

End Printing.

(** * classification/datasets/__init__.py *)

(** [os.getcwd()] *)
Class Environment : Type := {
  getcwd : string
}.

(** What [urllib.request.urlretrieve] fetches from a URL. *)
Class Network : Type := {
  url_content : string -> Res string
}.

(** The table readers, applied to the content of a file:
    [pd.read_excel(_, header=[0, 1])], [pd.read_csv(_, header=None,
    sep=..., skiprows=...)], and [arff.loadarff] followed by the
    conversions of [SeismicBumps.get]. *)
Class Parsers : Type := {
  read_excel : string -> Res DataFrame;
  read_csv : string -> nat -> string -> Res DataFrame;
  load_arff : string -> Res DataFrame
}.

(** The global random generator: its [k]-th draw. *)
Class Random : Type := {
  random_draw : nat -> nat
}.

Fixpoint replace_spaces (s : string) : string :=
  match s with
  | EmptyString => EmptyString
  | String c s' =>
      if Ascii.eqb c " "%char then "%20" +:+ replace_spaces s'
      else String c (replace_spaces s')
  end.

(** The class attributes [Dataset.download] looks at. *)
Record DatasetClass : Type := mkClass {
  cls_name : string;
  url : option string;
  filename : option string;
  urls : option (list string);
  filenames : option (list string)
}.

(** Rows by position, [df.iloc[positions]]. *)
Definition iloc (positions : list nat) (df : DataFrame) : DataFrame :=
  mkFrame (columns df) (omap (fun i => rows df !! i) positions).

Definition iloc_series (positions : list nat) (s : Series) : Series :=
  mkSeries (s_name s) (omap (fun i => s_rows s !! i) positions).

(** Columns by position.  (The parsers number or name the columns without
    repetition, so selecting by label is selecting by position.) *)
Definition column_at (i : nat) (df : DataFrame) : Res Series :=
  match columns df !! i with
  | Some label =>
      Ok (mkSeries label (map (fun r => (fst r, nth i (snd r) nan)) (rows df)))
  | None => Raise IndexError
  end.

Definition first_columns (k : nat) (df : DataFrame) : DataFrame :=
  mkFrame (take k (columns df)) (map (fun r => (fst r, take k (snd r))) (rows df)).

Definition columns_at (positions : list nat) (df : DataFrame) : DataFrame :=
  mkFrame (omap (fun i => columns df !! i) positions)
          (map (fun r => (fst r, omap (fun i => snd r !! i) positions)) (rows df)).

(** Two-level column labels are pairs, written [JArr [l0; l1]]. *)
Definition level0_is (name : string) (label : json) : bool :=
  match label with
  | JArr (l0 :: _) => py_eq l0 (JStr name)
  | _ => false
  end.

Fixpoint positions_from (i : nat) (p : json -> bool) (labels : list json)
    : list nat :=
  match labels with
  | [] => []
  | l :: labels' =>
      if p l then i :: positions_from (S i) p labels'
      else positions_from (S i) p labels'
  end.

(** [df[names]] on a table with a two-level header: for each name, the
    columns whose first-level label it is. *)
Definition select_level0 (names : list string) (df : DataFrame)
    : Res DataFrame :=
  match map_res (fun name =>
                   match positions_from 0 (level0_is name) (columns df) with
                   | [] => Raise (KeyError name)
                   | ps => Ok ps
                   end) names with
  | Ok pss => Ok (columns_at (concat pss) df)
  | Raise e => Raise e
  end.

(** [columns.droplevel()] *)
Definition drop_level0 (df : DataFrame) : DataFrame :=
  mkFrame (map (fun label => match label with
                             | JArr [_; l1] => l1
                             | JArr (_ :: rest) => JArr rest
                             | l => l
                             end) (columns df))
          (rows df).

(** [LabelEncoder().fit(y).classes_]: the distinct labels, sorted. *)
Definition label_classes (values : list json) : list json :=
  sort_by key_leb
    (fold_left (fun acc v => if existsb (py_eq v) acc then acc
                             else (acc ++ [v])%list)
               values []).

(** [le.transform(y)]: the position of each label among the classes; a
    label not seen by [fit] is an error. *)
Definition label_transform (classes values : list json) : Res (list json) :=
  map_res (fun v => match find_index (py_eq v) classes with
                    | Some i => Ok (JNum (NInt (Z.of_nat i)))
                    | None => Raise ValueError
                    end) values.

(** A continuation byte of the UTF-8 encoding, [10xxxxxx]. *)
Definition is_continuation (c : ascii) : bool :=
  match c with
  | Ascii _ _ _ _ _ _ b6 b7 => b7 && negb b6
  end.

Fixpoint all_continuation (s : string) : bool :=
  match s with
  | EmptyString => true
  | String c s' => is_continuation c && all_continuation s'
  end.

(** [s[:-1]], the string without its last character.  A string is held
    in its UTF-8 encoding, in which the last character starts at the last
    byte that is not a continuation byte. *)
Fixpoint drop_last_char (s : string) : string :=
  match s with
  | EmptyString => EmptyString
  | String c s' =>
      if all_continuation s' then EmptyString else String c (drop_last_char s')
  end.

(** [s.str[:-1]] on one cell: a string loses its last character, anything
    else becomes missing. *)
Definition str_drop_last (v : json) : json :=
  match v with
  | JStr s => JStr (drop_last_char s)
  | _ => nan
  end.

(** [ceil(0.25 * n)]; the product is exact in binary64 for every row
    count below [2^53]. *)
Definition n_test_of (n : nat) : nat := ((n + 3) / 4)%nat.

Section Datasets.

Context `{Environment} `{Network} `{Parsers} `{Random}.

Definition workdir : string := joinpath getcwd ["data"].

Definition urlretrieve (u path : string) : M unit :=
  fun w =>
    match url_content u with
    | Ok content =>
        (Ok tt, emit (Fetched u path) (set_files (<[path := content]> (files w)) w))
    | Raise e => (Raise e, w)
    end.

Definition download_file (u name : string) : M unit :=
  let u := replace_spaces u in
  urlretrieve u (joinpath workdir [name]).

Definition download (cls : DatasetClass) : M unit :=
  makedirs workdir ;;;
  match url cls with
  | Some u =>
      name <- attr (filename cls) ;;
      download_file u name
  | None =>
      match urls cls with
      | Some us =>
          names <- attr (filenames cls) ;;
          for_each (zip us names) (fun p => download_file (fst p) (snd p))
      | None => raise ValueError
      end
  end.

(** [rng.permutation(n)]: a permutation of [range(n)] fixed by the next
    [n] draws of the generator, each draw choosing one of the numbers
    still to be placed. *)
Fixpoint shuffle (k fuel : nat) (pool : list nat) : list nat :=
  match fuel with
  | O => []
  | S fuel' =>
      let j := (random_draw k mod length pool)%nat in
      match pool !! j with
      | Some x => x :: shuffle (S k) fuel' (delete j pool)
      | None => []
      end
  end.

Definition permutation (n : nat) : M (list nat) :=
  fun w => (Ok (shuffle (draws w) n (seq 0 n)), set_draws (draws w + n)%nat w).

(** [train_test_split(X, y, test_size=0.25)] *)
Definition train_test_split (X : DataFrame) (y : Series)
    : M (DataFrame * DataFrame * Series * Series) :=
  let n := length (rows X) in
  if negb (Nat.eqb (length (s_rows y)) n) then raise ValueError
  else
    let n_test := n_test_of n in
    let n_train := (n - n_test)%nat in
    if Nat.eqb n_train 0 then raise ValueError
    else
      perm <- permutation n ;;
      let ind_test := take n_test perm in
      let ind_train := take n_train (drop n_test perm) in
      ret (iloc ind_train X, iloc ind_test X,
           iloc_series ind_train y, iloc_series ind_test y).

Definition split_result (s : DataFrame * DataFrame * Series * Series) : pyobj :=
  match s with
  | (X_train, X_test, y_train, y_test) =>
      PTuple [PTuple [PFrame X_train; PSeries y_train];
              PTuple [PFrame X_test; PSeries y_test]]
  end.

(** [cls.filenames[i]] *)
Definition filenames_at (cls : DatasetClass) (i : nat) : M string :=
  names <- attr (filenames cls) ;;
  match names !! i with
  | Some name => ret name
  | None => raise IndexError
  end.

(** *** DefaultCreditCardDataset *)

Definition DefaultCreditCardDataset : DatasetClass :=
  mkClass "DefaultCreditCardDataset"
    (Some "https://archive.ics.uci.edu/ml/machine-learning-databases/00350/default of credit card clients.xls")
    (Some "default of credit card clients.xls")
    None None.

(** The lines of [get] between the cache check and the split: the file
    read as a table, then [y = df['Y'][df['Y'].columns[0]]] and
    [X = df[['X1', ..., 'X23']]] with the first header level dropped. *)
Definition DefaultCreditCardDataset_table (file : string)
    : Res (DataFrame * Series) :=
  match read_excel file with
  | Raise e => Raise e
  | Ok df =>
      match select_level0 ["Y"] df with
      | Raise e => Raise e
      | Ok Y =>
          match column_at 0 (drop_level0 Y) with
          | Raise e => Raise e
          | Ok y =>
              match select_level0
                      (map (fun i : nat => "X" +:+ pretty i) (seq 1 23)) df with
              | Raise e => Raise e
              | Ok X => Ok (drop_level0 X, y)
              end
          end
      end
  end.

Definition DefaultCreditCardDataset_get : M pyobj :=
  let cls := DefaultCreditCardDataset in
  name <- attr (filename cls) ;;
  let dataset_path := joinpath workdir [name] in
  present <- isfile dataset_path ;;
  (if present : bool then ret tt else download cls) ;;;
  file <- read_file dataset_path ;;
  Xy <- lift (DefaultCreditCardDataset_table file) ;;
  split <- train_test_split (fst Xy) (snd Xy) ;;
  ret (split_result split).

(** *** StatlogAustralianDataset and StatlogGermanDataset *)

Definition StatlogAustralianDataset : DatasetClass :=
  mkClass "StatlogAustralianDataset"
    (Some "http://archive.ics.uci.edu/ml/machine-learning-databases/statlog/australian/australian.dat")
    (Some "australian.dat")
    None None.

Definition StatlogGermanDataset : DatasetClass :=
  mkClass "StatlogGermanDataset"
    (Some "https://archive.ics.uci.edu/ml/machine-learning-databases/statlog/german/german.data-numeric")
    (Some "german.data-numeric")
    None None.

(** The lines of the two Statlog [get] methods between the cache check
    and the split: the file read as a table, then
    [y = df[df.columns[-1]]] and [X = df[df.columns[:-1]]]. *)
Definition Statlog_table (sep file : string) : Res (DataFrame * Series) :=
  match read_csv sep 0 file with
  | Raise e => Raise e
  | Ok df =>
      match column_at (length (columns df) - 1) df with
      | Raise e => Raise e
      | Ok y => Ok (first_columns (length (columns df) - 1) df, y)
      end
  end.

(** The two [get] methods differ only in the class and the separator. *)
Definition Statlog_get (cls : DatasetClass) (sep : string) : M pyobj :=
  name <- attr (filename cls) ;;
  let dataset_path := joinpath workdir [name] in
  present <- isfile dataset_path ;;
  (if present : bool then ret tt else download cls) ;;;
  file <- read_file dataset_path ;;
  Xy <- lift (Statlog_table sep file) ;;
  split <- train_test_split (fst Xy) (snd Xy) ;;
  ret (split_result split).

Definition StatlogAustralianDataset_get : M pyobj :=
  Statlog_get StatlogAustralianDataset " ".

Definition StatlogGermanDataset_get : M pyobj :=
  Statlog_get StatlogGermanDataset "\s+".

(** *** AdultDataset *)

Definition AdultDataset : DatasetClass :=
  mkClass "AdultDataset" None None
    (Some ["https://archive.ics.uci.edu/ml/machine-learning-databases/adult/adult.data";
           "https://archive.ics.uci.edu/ml/machine-learning-databases/adult/adult.test"])
    (Some ["adult.data"; "adult.test"]).

Definition feature_names : list string :=
  ["age"; "workclass"; "fnlwgt"; "education"; "education-num";
   "marital-status"; "occupation"; "relationship"; "race"; "sex";
   "capital-gain"; "capital-loss"; "hours-per-week"; "native-country"].

Definition categorical_features : list string := ["workclass"; "education"].

Definition AdultDataset_get_raw : M (DataFrame * DataFrame) :=
  let cls := AdultDataset in
  name <- filenames_at cls 0 ;;
  let dataset_path := joinpath workdir [name] in
  present <- isfile dataset_path ;;
  (if present : bool then ret tt else download cls) ;;;
  file <- read_file dataset_path ;;
  df_train <- lift (read_csv ", " 0 file) ;;
  name <- filenames_at cls 1 ;;
  file <- read_file (joinpath workdir [name]) ;;
  df_test <- lift (read_csv ", " 1 file) ;;
  ret (df_train, df_test).

Definition parse_dataset (df : DataFrame) : Res (DataFrame * Series) :=
  let X := first_columns 14 df in
  match column_at 14 df with
  | Raise e => Raise e
  | Ok y =>
      if Nat.eqb (length (columns X)) (length feature_names)
      then Ok (mkFrame (map JStr feature_names) (rows X), y)
      else Raise ValueError
  end.

Definition AdultDataset_get : M pyobj :=
  raw <- AdultDataset_get_raw ;;
  train <- lift (parse_dataset (fst raw)) ;;
  test <- lift (parse_dataset (snd raw)) ;;
  let le := label_classes (map snd (s_rows (snd train))) in
  y_train <- lift (label_transform le (map snd (s_rows (snd train)))) ;;
  let y_test := map (fun r => str_drop_last (snd r)) (s_rows (snd test)) in
  y_test <- lift (label_transform le y_test) ;;
  ret (PTuple [PTuple [PFrame (fst train); PArray y_train];
               PTuple [PFrame (fst test); PArray y_test]]).

(** *** SteelPlatesFaultsDataset *)

Definition SteelPlatesFaultsDataset : DatasetClass :=
  mkClass "SteelPlatesFaultsDataset" None None
    (Some ["https://archive.ics.uci.edu/ml/machine-learning-databases/00198/Faults.NNA";
           "https://archive.ics.uci.edu/ml/machine-learning-databases/00198/Faults27x7_var"])
    (Some ["Faults.NNA"; "Faults27x7_var"]).

(** The names read from the second file are stored in a class attribute
    that nothing modelled here reads; only the read itself is kept. *)
Definition SteelPlatesFaultsDataset_get : M pyobj :=
  let cls := SteelPlatesFaultsDataset in
  name <- filenames_at cls 0 ;;
  let dataset_path := joinpath workdir [name] in
  present <- isfile dataset_path ;;
  (if present : bool then ret tt else download cls) ;;;
  file <- read_file dataset_path ;;
  df <- lift (read_csv "\t" 0 file) ;;
  name <- filenames_at cls 1 ;;
  _ <- read_file (joinpath workdir [name]) ;;
  ret (PFrame df).

(** *** SeismicBumps *)

Definition SeismicBumps : DatasetClass :=
  mkClass "SeismicBumps"
    (Some "https://archive.ics.uci.edu/ml/machine-learning-databases/00266/seismic-bumps.arff")
    (Some "seismic-bumps.arff")
    None None.

Definition SeismicBumps_get : M pyobj :=
  let cls := SeismicBumps in
  name <- attr (filename cls) ;;
  let dataset_path := joinpath workdir [name] in
  present <- isfile dataset_path ;;
  (if present : bool then ret tt else download cls) ;;;
  file <- read_file dataset_path ;;
  df <- lift (load_arff file) ;;
  ret (PFrame df).

(** *** The providers together *)

Inductive provider : Type :=
| DefaultCreditCard
| StatlogAustralian
| StatlogGerman
| Adult
| SteelPlatesFaults
| Seismic.

Definition class_of (p : provider) : DatasetClass :=
  match p with
  | DefaultCreditCard => DefaultCreditCardDataset
  | StatlogAustralian => StatlogAustralianDataset
  | StatlogGerman => StatlogGermanDataset
  | Adult => AdultDataset
  | SteelPlatesFaults => SteelPlatesFaultsDataset
  | Seismic => SeismicBumps
  end.

Definition get (p : provider) : M pyobj :=
  match p with
  | DefaultCreditCard => DefaultCreditCardDataset_get
  | StatlogAustralian => StatlogAustralianDataset_get
  | StatlogGerman => StatlogGermanDataset_get
  | Adult => AdultDataset_get
  | SteelPlatesFaults => SteelPlatesFaultsDataset_get
  | Seismic => SeismicBumps_get
  end.

(** The files a class declares, in order. *)
Definition declared_files (cls : DatasetClass) : list string :=
  match filename cls, filenames cls with
  | Some name, _ => [name]
  | None, Some names => names
  | None, None => []
  end.

(** The URLs a class declares, in order. *)
Definition declared_urls (cls : DatasetClass) : list string :=
  match url cls, urls cls with
  | Some u, _ => [u]
  | None, Some us => us
  | None, None => []
  end.

(** The path whose presence the cache check of [get] tests. *)
Definition checked_path (p : provider) : string :=
  joinpath workdir [default "" (head (declared_files (class_of p)))].

(** What a complete download of a class leaves in the trace. *)
Definition fetch_events (cls : DatasetClass) : list event :=
  zip_with (fun u name => Fetched (replace_spaces u) (joinpath workdir [name]))
           (declared_urls cls) (declared_files cls).

(** The providers whose [get] splits one table at random, and the table
    each of them splits. *)
Definition splits (p : provider) : bool :=
  match p with
  | DefaultCreditCard | StatlogAustralian | StatlogGerman => true
  | Adult | SteelPlatesFaults | Seismic => false
  end.

Definition table_of (p : provider) (file : string) : Res (DataFrame * Series) :=
  match p with
  | DefaultCreditCard => DefaultCreditCardDataset_table file
  | StatlogAustralian => Statlog_table " " file
  | StatlogGerman => Statlog_table "\s+" file
  | Adult | SteelPlatesFaults | Seismic => Raise ValueError
  end.

(** The orchestrator's view of a provider: the classes of this module declare
    neither [metric] nor [is_metric_maximized], and only [AdultDataset]
    declares [categorical_features]. *)
Definition as_dataset (p : provider) : Dataset :=
  mkDataset (cls_name (class_of p)) (get p) None None
    (match p with Adult => Some categorical_features | _ => None end).

End Datasets.


(** * regression/models/adaboost.py *)

(** [config.random_state], and the constructor
    [sklearn.ensemble.AdaBoostRegressor] applied to keyword arguments. *)
Class Ensemble `{Learning} : Type := {
  random_state : json;
  AdaBoostRegressor : list (string * pyobj) -> Ext Estimator
}.

(** A call that raises at once. *)
Definition fails {A} (e : exn) : Ext A := fun t => (Raise e, t).

(** What [**o] passes in a call: the items of a mapping whose keys are
    strings.  A [dict] is one; a table is one when its column labels are
    strings, its values being the columns; a series is keyed by its index
    labels, which are integers here; nothing else is a mapping. *)
Definition keywords (o : pyobj) : Res (list (string * pyobj)) :=
  match o with
  | PValue (JObj kvs) => Ok (map (fun kv => (fst kv, PValue (snd kv))) kvs)
  | PFrame df =>
      map_res (fun i => match columns df !! i, column_at i df with
                        | Some (JStr label), Ok col => Ok (label, PSeries col)
                        | _, _ => Raise TypeError
                        end)
              (seq 0 (length (columns df)))
  | PSeries s =>
      match s_rows s with
      | [] => Ok []
      | _ :: _ => Raise TypeError
      end
  | _ => Raise TypeError
  end.

(** The arguments of the hyperopt expressions, which this module only
    builds: [np.log] of a literal. *)
Inductive real_expr : Type :=
| np_log (literal : string).

Inductive hyperopt_expr : Type :=
| hp_choice (label : string) (options : list json)
| hp_qloguniform (label : string) (low high : real_expr) (q : Z)
| hp_lognormal (label : string) (mu sigma : real_expr)
| scope_int (e : hyperopt_expr).

Section AdaBoost.

Context `{Ensemble}.

(** [AdaBoostModel.build_estimator], a static method declared with the
    one parameter [args], applied to its positional arguments; its body is
    [AdaBoostRegressor(random_state=random_state, **args)], in which a
    key of [args] that repeats the keyword is an error of the call. *)
Definition AdaBoostModel_build_estimator (positional : list pyobj)
    : Ext Estimator :=
  match positional with
  | [args] =>
      match keywords args with
      | Ok kwargs =>
          if existsb (fun kv => String.eqb (fst kv) "random_state") kwargs
          then fails TypeError
          else AdaBoostRegressor (("random_state", PValue random_state) :: kwargs)
      | Raise e => fails e
      end
  | _ => fails TypeError
  end.

Definition hp_space : list (string * hyperopt_expr) :=
  [("loss", hp_choice "loss" [JStr "linear"; JStr "square"; JStr "exponential"]);
   ("n_estimators",
    scope_int (hp_qloguniform "n_estimators" (np_log "10.5") (np_log "1000.5") 1));
   ("learning_rate", hp_lognormal "learning_rate" (np_log "0.01") (np_log "10.0"))].

(** The class as the orchestrator uses it:
    [model.build_estimator(hyperparams, train_data)].  [prepare_dataset]
    is inherited from [utils.TreeBasedModel], which is not among the
    sources. *)
Definition AdaBoostModel (prepare : pyobj -> pyobj -> list string -> Ext pyobj)
    : Model :=
  mkModel "AdaBoostModel" prepare
    (fun hyperparams train_data =>
       AdaBoostModel_build_estimator [PValue hyperparams; train_data]).

End AdaBoost.

(** * What the claims are stated with *)

(** "Strictly better": strictly greater when the metric is maximized,
    strictly less when it is minimized, on the values of the scores. *)
Definition strictly_better (maximized : bool) (candidate stored : number) : bool :=
  if maximized then num_gtb candidate stored else num_ltb candidate stored.

(** Whether a candidate must replace what is stored, if anything is. *)
Definition replaces (maximized : bool) (candidate : number)
    (stored : option number) : bool :=
  match stored with
  | None => true
  | Some v => strictly_better maximized candidate v
  end.

(** A statement that, run where the files are [fs] and the trace is [tr],
    leaves both as they are: it writes nothing and fetches nothing. *)
Definition stable {A} (fs : gmap string string) (tr : list event) (c : M A)
    : Prop :=
  forall w, files w = fs -> trace w = tr ->
            files (snd (c w)) = fs /\ trace (snd (c w)) = tr.

(** Every row of a table has one cell per column. *)
Definition well_formed (df : DataFrame) : Prop :=
  Forall (fun r => length (snd r) = length (columns df)) (rows df).

(** A directory name the pattern of [get_results_table] accepts. *)
Definition alnum_name (s : string) : bool :=
  negb (String.eqb s "") && forallb is_alnum (list_ascii_of_string s).

Definition result_path (dataset model : string) : string :=
  "results" +:+ "/" +:+ dataset +:+ "/" +:+ model +:+ "/evaluation.json".

(** What one [evaluation.json] holds and where: the two directory names,
    the fields of the stored object, the items of its [hp] mapping and
    the text each of their values is shown as. *)
Record entry : Type := mkEntry {
  e_dataset : string;
  e_model : string;
  e_fields : list (string * json);
  e_hp : list (string * json);
  e_texts : list string
}.

Definition hp_text (e : entry) : string :=
  join "," (zip_with (fun kv text => fst kv +:+ "=" +:+ text)
                     (e_hp e) (e_texts e)).

Definition entry_cell (e : entry) (k : string) : json :=
  default nan (assoc k (e_fields e)).

(** The row of an entry, in the order of the columns of the table. *)
Definition entry_row (e : entry) : list json :=
  [JStr (e_dataset e); JStr (e_model e);
   entry_cell e "score"; entry_cell e "val_score";
   entry_cell e "train_time"; entry_cell e "evaluation_time";
   entry_cell e "tuning_n_trials"; JStr (hp_text e)].

(** The columns that are copied from the stored object. *)
Definition passed_columns : list string :=
  ["score"; "val_score"; "train_time"; "evaluation_time"; "tuning_n_trials"].

(** The record [load_result] builds for an entry. *)
Definition record_of (e : entry) : list (string * json) :=
  dict_set "model" (JStr (e_model e))
    (dict_set "dataset" (JStr (e_dataset e))
       (dict_set "hp" (JStr (hp_text e)) (e_fields e))).

Section AggregatorConditions.

Context `{Config} `{JsonCodec} `{Builtins}.

(** How the value of a hyperparameter is shown: a string, a list and
    [None] as [str] gives them, anything else with two decimals. *)
Definition describe_value (v : json) : Res string :=
  if stringified v then Ok (py_str v) else format_f 2 v.

(** The file at [path] is the [evaluation.json] of entry [e]. *)
Definition stored_entry (w : World) (path : string) (e : entry) : Prop :=
  path = result_path (e_dataset e) (e_model e) /\
  alnum_name (e_dataset e) = true /\
  alnum_name (e_model e) = true /\
  exists content,
    files w !! path = Some content /\
    json_loads content = Ok (JObj (e_fields e)) /\
    assoc "hp" (e_fields e) = Some (JObj (e_hp e)) /\
    map_res describe_value (map snd (e_hp e)) = Ok (e_texts e).

End AggregatorConditions.

Section Conditions.

Context `{Config} `{JsonCodec} `{Learning}.

(** The processing of one pair, started in [w] (after the model's name
    has been printed), ends in world [w'] with an error [e] that neither
    of the two inner handlers takes: an error of the tuning lookup that is
    not "file not found", an error of the evaluation that is not a
    timeout, or any error of the saving or of the final report. *)
Inductive pair_raises (T : Z) (dataset : Dataset) (train test : pyobj)
    (model : Model) (w : World) : exn -> World -> Prop :=
| raises_tuning e w' :
    get_tuning_results dataset model w = (Raise e, w') ->
    e <> FileNotFoundError ->
    pair_raises T dataset train test model w e w'
| raises_evaluating tuning_results wa e w' :
    get_tuning_results dataset model w = (Ok tuning_results, wa) ->
    (hyperparams <- lift (getitem tuning_results "hp") ;;
     evaluate_model_with_timeout T model dataset train test hyperparams) wa
      = (Raise e, w') ->
    e <> TimeoutError ->
    pair_raises T dataset train test model w e w'
| raises_saving tuning_results wa score train_time evaluation_time wb e w' :
    get_tuning_results dataset model w = (Ok tuning_results, wa) ->
    (hyperparams <- lift (getitem tuning_results "hp") ;;
     evaluate_model_with_timeout T model dataset train test hyperparams) wa
      = (Ok (score, train_time, evaluation_time), wb) ->
    save_evaluation_results dataset model tuning_results
      score train_time evaluation_time wb = (Raise e, w') ->
    pair_raises T dataset train test model w e w'
| raises_reporting tuning_results wa score train_time evaluation_time wb wc e w' :
    get_tuning_results dataset model w = (Ok tuning_results, wa) ->
    (hyperparams <- lift (getitem tuning_results "hp") ;;
     evaluate_model_with_timeout T model dataset train test hyperparams) wa
      = (Ok (score, train_time, evaluation_time), wb) ->
    save_evaluation_results dataset model tuning_results
      score train_time evaluation_time wb = (Ok tt, wc) ->
    report dataset tuning_results score train_time evaluation_time wc
      = (Raise e, w') ->
    pair_raises T dataset train test model w e w'.

End Conditions.


(** * What the further properties are stated with *)

(** A statement that changes no file outside [allowed] and removes none. *)
Definition writes_within {A} (allowed : string -> Prop) (c : M A) : Prop :=
  forall w,
    (forall p, ~ allowed p -> files (snd (c w)) !! p = files w !! p) /\
    (forall p, is_Some (files w !! p) -> is_Some (files (snd (c w)) !! p)).

(** The record [save_evaluation_results] writes. *)
Definition evaluation_record (hp n_trials val_score : json)
    (score train_time evaluation_time : number) (metric : string) : json :=
  JObj [("hp", hp); ("score", JNum score); ("tuning_n_trials", n_trials);
        ("val_score", val_score); ("train_time", JNum train_time);
        ("evaluation_time", JNum evaluation_time); ("metric_used", JStr metric)].

(** A code of the label encoder and the label it stands for. *)
Definition decodes (classes : list json) (label : string) (code : json) : Prop :=
  exists c : nat, code = JNum (NInt (Z.of_nat c)) /\ classes !! c = Some (JStr label).

Definition is_str (v : json) : Prop := exists s, v = JStr s.

(** One character in its UTF-8 encoding: a byte that is not a continuation
    byte, followed by continuation bytes only. *)
Definition one_char (ch : string) : bool :=
  match ch with
  | EmptyString => false
  | String c rest => negb (is_continuation c) && all_continuation rest
  end.

(** The order of two strings. *)
Definition str_le (a b : json) : Prop :=
  exists s t, a = JStr s /\ b = JStr t /\ String.leb s t = true.

Section DownloadConditions.

Context `{Environment}.

(** A request a download made for one of the [declared] URLs: its URL has
    no space, and is the declared URL itself when that one has none. *)
Definition escaped_request (declared : list string) (ev : event) : Prop :=
  exists u name,
    u ∈ declared /\
    ev = Fetched (replace_spaces u) (joinpath workdir [name]) /\
    (" "%char ∉ list_ascii_of_string (replace_spaces u)) /\
    (" "%char ∉ list_ascii_of_string u -> replace_spaces u = u).

End DownloadConditions.

(** * A small concrete instance

    A results directory named [results], a JSON codec that knows a few
    file contents, and a learning library whose estimators are trivial
    and whose calls take a fixed amount of time. *)

Definition f_of_Z (z : Z) : spec_float := binary_normalize prec emax z 0 false.

Definition demo_config : Config := {| RESULTS_DIR := "results" |}.

Definition demo_tuning : json :=
  JObj [("hp", JObj [("n_estimators", JNum (NInt 50))]);
        ("score", JNum (NInt 3));
        ("n_trials", JNum (NInt 10))].

Definition demo_stored (val_score : Z) : json :=
  JObj [("hp", JObj [("n_estimators", JNum (NInt 20))]);
        ("score", JNum (NInt 1));
        ("tuning_n_trials", JNum (NInt 10));
        ("val_score", JNum (NInt val_score));
        ("train_time", JNum (NInt 1));
        ("evaluation_time", JNum (NInt 1));
        ("metric_used", JStr "accuracy")].

(** A stored record whose [hp] is the given mapping. *)
Definition demo_stored_hp (hp : list (string * json)) : json :=
  JObj [("hp", JObj hp);
        ("score", JNum (NInt 1));
        ("tuning_n_trials", JNum (NInt 10));
        ("val_score", JNum (NInt 2));
        ("train_time", JNum (NInt 1));
        ("evaluation_time", JNum (NInt 1));
        ("metric_used", JStr "accuracy")].

Definition demo_codec : JsonCodec := {|
  json_loads s :=
    if String.eqb s "tuning" then Ok demo_tuning
    else if String.eqb s "stored 2" then Ok (demo_stored 2)
    else if String.eqb s "stored 5" then Ok (demo_stored 5)
    else if String.eqb s "nested"
    then Ok (demo_stored_hp [("booster", JObj [("depth", JNum (NInt 3))])])
    else if String.eqb s "flagged"
    then Ok (demo_stored_hp [("bootstrap", JBool true); ("loss", JStr "linear")])
    else Raise JSONDecodeError;
  json_dumps v :=
    match getitem v "val_score" with
    | Ok (JNum (NInt z)) => "stored " +:+ pretty z
    | _ => "other"
    end
|}.

(** Every call of the demo library takes [seconds] seconds. *)
Definition after (seconds : Z) {A} (a : A) : Ext A :=
  fun t => (Ok a, SFadd prec emax t (f_of_Z seconds)).

Definition demo_learning (seconds : Z) : Learning := {|
  compute_metric _ _ _ := after 0 (NInt 1);
  compute_loss _ _ := after 0 (NInt (-1));
  Estimator := unit;
  est_fit e _ _ := after seconds e;
  est_predict _ _ := after 0 (PArray []);
  est_initialize e := after 0 e;
  est_load_params e _ := after 0 e;
  est_save_params _ := after 0 "weights"
|}.

Definition demo_world (fs : list (string * string)) : World :=
  mkWorld (list_to_map fs) (S754_zero false) None [] ∅ 0.

Definition demo_split : pyobj :=
  PTuple [PTuple [PArray [JNum (NInt 1)]; PArray [JNum (NInt 0)]];
          PTuple [PArray [JNum (NInt 2)]; PArray [JNum (NInt 1)]]].

Definition demo_dataset : Dataset :=
  mkDataset "DemoData" (ret demo_split) (Some "accuracy") (Some true) (Some []).

Definition demo_model (seconds : Z) (name : string)
    : @Model (demo_learning seconds) :=
  @mkModel (demo_learning seconds) name
    (fun train test _ => after 0 (PTuple [train; test]))
    (fun _ _ => after 0 tt).

Definition demo_train : pyobj :=
  PTuple [PArray [JNum (NInt 1)]; PArray [JNum (NInt 0)]].
Definition demo_test : pyobj :=
  PTuple [PArray [JNum (NInt 2)]; PArray [JNum (NInt 1)]].

(** A working directory, a network that answers, parsers that know a few
    file contents and give tables of fifteen columns (fourteen features
    and a label), and a generator whose draws are [0, 1, 2, ...]. *)
Definition demo_env : Environment := {| getcwd := "/home/user" |}.

Definition demo_network : Network :=
  {| url_content u := Ok ("content of " +:+ u) |}.

Definition demo_features (i : nat) : list json :=
  replicate 14 (JNum (NInt (Z.of_nat i))).

Definition demo_table (labels : list string) : DataFrame :=
  mkFrame (map (fun i : nat => JNum (NInt (Z.of_nat i))) (seq 0 15))
          (imap (fun i label =>
                   (Z.of_nat i, (demo_features i ++ [JStr label])%list))
                labels).

(** The letter e with an acute accent, two bytes in UTF-8. *)
Definition e_acute : string := String "195" (String "169" "").

Definition demo_parsers : Parsers := {|
  read_excel _ := Raise ParserError;
  read_csv _ _ file :=
    if String.eqb file "adult train" then Ok (demo_table ["<=50K"])
    else if String.eqb file "adult test"
    then Ok (demo_table ["<=50K."; "<=50K."; "<=50K."])
    else if String.eqb file "faults" then Ok (demo_table ["a"; "b"])
    else if String.eqb file "eight rows"
    then Ok (demo_table ["0"; "1"; "0"; "1"; "0"; "1"; "0"; "1"])
    else if String.eqb file "adult test, accented"
    then Ok (demo_table ["<=50K" +:+ e_acute; "<=50K."])
    else Raise ParserError;
  load_arff file :=
    if String.eqb file "bumps" then Ok (demo_table ["0"; "1"])
    else Raise ParserError
|}.

Definition demo_random : Random := {| random_draw k := k |}.

Definition demo_data_world : World :=
  demo_world [("/home/user/data/adult.data", "adult train");
              ("/home/user/data/adult.test", "adult test");
              ("/home/user/data/Faults.NNA", "faults");
              ("/home/user/data/Faults27x7_var", "names");
              ("/home/user/data/seismic-bumps.arff", "bumps");
              ("/home/user/data/australian.dat", "eight rows")].

(** What [AdultDataset.get] makes of the two demo files: one training row
    and three test rows. *)
Definition demo_adult_result : pyobj :=
  PTuple
    [PTuple [PFrame (mkFrame (map JStr feature_names) [(0, demo_features 0)]);
             PArray [JNum (NInt 0)]];
     PTuple [PFrame (mkFrame (map JStr feature_names)
                       [(0, demo_features 0); (1, demo_features 1);
                        (2, demo_features 2)]);
             PArray [JNum (NInt 0); JNum (NInt 0); JNum (NInt 0)]]].

Definition demo_builtins : Builtins := {|
  repr_float f := format_float 1 f;
  repr_str s := "'" +:+ s +:+ "'"
|}.

(** The entry of the file [results/DemoData/DemoModel/evaluation.json]
    when it holds ["stored 2"]. *)
Definition demo_entry : entry :=
  mkEntry "DemoData" "DemoModel"
    [("hp", JObj [("n_estimators", JNum (NInt 20))]);
     ("score", JNum (NInt 1));
     ("tuning_n_trials", JNum (NInt 10));
     ("val_score", JNum (NInt 2));
     ("train_time", JNum (NInt 1));
     ("evaluation_time", JNum (NInt 1));
     ("metric_used", JStr "accuracy")]
    [("n_estimators", JNum (NInt 20))]
    ["20.00"].

(** A results table of three rows, two datasets. *)
Definition demo_results : DataFrame :=
  mkFrame [JStr "dataset"; JStr "model"; JStr "score"]
    [(0, [JStr "D1"; JStr "A"; JNum (NInt 3)]);
     (1, [JStr "D1"; JStr "B"; JNum (NInt 5)]);
     (2, [JStr "D2"; JStr "A"; JNum (NInt 1)])].

(** The table after ranking; the ranks are the floats 2.0, 1.0 and 1.0. *)
Definition demo_ranked : DataFrame :=
  mkFrame [JStr "dataset"; JStr "model"; JStr "score"; JStr "model_rank"]
    [(0, [JStr "D1"; JStr "A"; JNum (NInt 3);
          JNum (NFloat (S754_finite false 4503599627370496 (-51)))]);
     (1, [JStr "D1"; JStr "B"; JNum (NInt 5);
          JNum (NFloat (S754_finite false 4503599627370496 (-52)))]);
     (2, [JStr "D2"; JStr "A"; JNum (NInt 1);
          JNum (NFloat (S754_finite false 4503599627370496 (-52)))])].

Definition demo_store_world : World :=
  mkWorld ∅ (S754_zero false) None [] {[ 0%nat := demo_results ]} 0.


(** A regressor library for the demo estimators, a network that answers
    for [adult.data] only, a dataset whose [get] fails, and tuning
    results whose record is the stored one of validation score 2. *)
Definition demo_ensemble : @Ensemble (demo_learning 1) :=
  @Build_Ensemble (demo_learning 1) (JNum (NInt 0)) (fun _ => after 0 tt).


Definition demo_failing_dataset : Dataset :=
  mkDataset "Broken" (raise MemoryError) (Some "accuracy") (Some true) (Some []).

Definition demo_tuning_2 : json :=
  JObj [("hp", JObj [("n_estimators", JNum (NInt 20))]);
        ("score", JNum (NInt 2));
        ("n_trials", JNum (NInt 10))].

(** * Running statements *)

Lemma run_bind {A B} (c : M A) (k : A -> M B) (w : World) :
  bind c k w = match c w with
               | (Ok a, w') => k a w'
               | (Raise e, w') => (Raise e, w')
               end.
Proof. reflexivity. Qed.

Lemma run_ret {A} (a : A) (w : World) : ret a w = (Ok a, w).
Proof. reflexivity. Qed.

Lemma run_raise {A} (e : exn) (w : World) : @raise A e w = (Raise e, w).
Proof. reflexivity. Qed.

Lemma run_lift {A} (r : Res A) (w : World) : lift r w = (r, w).
Proof. reflexivity. Qed.

Lemma run_attr {A} (a : A) (w : World) : attr (Some a) w = (Ok a, w).
Proof. reflexivity. Qed.

Lemma run_attr_none {A} (w : World) : @attr A None w = (Raise AttributeError, w).
Proof. reflexivity. Qed.

Lemma run_time (w : World) : time_time w = (Ok (clock w), w).
Proof. reflexivity. Qed.

Lemma run_isfile (p : string) (w : World) :
  isfile p w = (Ok (bool_decide (is_Some (files w !! p))), w).
Proof. reflexivity. Qed.

Lemma run_print (s : string) (w : World) : print s w = (Ok tt, emit (Printed s) w).
Proof. reflexivity. Qed.

Lemma run_makedirs (p : string) (w : World) : makedirs p w = (Ok tt, w).
Proof. reflexivity. Qed.

Lemma run_read (p c : string) (w : World) :
  files w !! p = Some c -> read_file p w = (Ok c, w).
Proof. intros Hf. unfold read_file. rewrite Hf. reflexivity. Qed.

Lemma run_read_none (p : string) (w : World) :
  files w !! p = None -> read_file p w = (Raise FileNotFoundError, w).
Proof. intros Hf. unfold read_file. rewrite Hf. reflexivity. Qed.

Lemma run_try {A} (c : M A) (handles : exn -> bool) (h : M A) (w : World) :
  try_except c handles h w =
  match c w with
  | (Ok a, w') => (Ok a, w')
  | (Raise e, w') => if handles e then h w' else (Raise e, w')
  end.
Proof. reflexivity. Qed.

Ltac py_step :=
  first [ rewrite run_bind | rewrite run_ret | rewrite run_raise
        | rewrite run_lift | rewrite run_attr | rewrite run_attr_none
        | rewrite run_time | rewrite run_isfile | rewrite run_print
        | rewrite run_makedirs | rewrite run_try ];
  cbv beta iota zeta.

Ltac py := cbv beta iota zeta; repeat py_step.

Ltac world_simpl :=
  cbn [files clock alarm trace store draws
       set_files set_clock set_alarm emit set_store set_draws fst snd].

Lemma for_each_cons {A} (x : A) (l : list A) (body : A -> M unit) (w : World) :
  for_each (x :: l) body w =
  match body x w with
  | (Ok _, w') => for_each l body w'
  | (Raise e, w') => (Raise e, w')
  end.
Proof. reflexivity. Qed.

Lemma for_each_app {A} (l1 l2 : list A) (body : A -> M unit) (w : World) :
  for_each (l1 ++ l2) body w =
  match for_each l1 body w with
  | (Ok _, w') => for_each l2 body w'
  | (Raise e, w') => (Raise e, w')
  end.
Proof.
  revert w. induction l1 as [|x l1 IH]; intros w; simpl.
  - reflexivity.
  - unfold bind. destruct (body x w) as [[[]|e] w']; [apply IH | reflexivity].
Qed.

(** * Numbers as Python shows and compares them *)

(** [0.125] and [0.375] lie halfway between two decimals and go to the
    even one; an [int] passes through [float]; [True] is the number 1. *)
Example format_f_samples :
  format_f 2 (JNum (NFloat (S754_finite false 4503599627370496 (-55)))) = Ok "0.12" /\
  format_f 2 (JNum (NFloat (S754_finite false 6755399441055744 (-54)))) = Ok "0.38" /\
  format_f 1 (JNum (NFloat (S754_finite true 4503599627370496 (-53)))) = Ok "-0.5" /\
  format_f 2 (JNum (NInt (-12345))) = Ok "-12345.00" /\
  format_f 2 (JNum (NInt (2 ^ 53 + 1))) = Ok "9007199254740992.00" /\
  format_f 2 (JBool true) = Ok "1.00" /\
  format_f 2 (JStr "linear") = Raise ValueError /\
  format_f 2 (JObj []) = Raise TypeError.
Proof. repeat split; vm_compute; reflexivity. Qed.

(** [0.5 > 0], [[1, 'a'] > [True, 'B']], and nothing is below a NaN. *)
Example py_richcmp_samples :
  py_gt (JNum (NFloat (S754_finite false 4503599627370496 (-53)))) (JNum (NInt 0))
    = Ok true /\
  py_gt (JArr [JNum (NInt 1); JStr "a"]) (JArr [JBool true; JStr "B"]) = Ok true /\
  py_lt (JNum (NInt 0)) (JNum (NFloat S754_nan)) = Ok false /\
  py_lt (JStr "a") (JNum (NInt 0)) = Raise TypeError.
Proof. repeat split; vm_compute; reflexivity. Qed.

Example joinpath_samples :
  joinpath "results" ["Data"; "Model"] = "results/Data/Model" /\
  joinpath "results/" ["Data"] = "results/Data" /\
  joinpath "results" ["/tmp"; "x"] = "/tmp/x".
Proof. repeat split; reflexivity. Qed.

(** * The overwrite policy of [save_evaluation_results] *)

Lemma py_gt_num (a b : number) : py_gt (JNum a) (JNum b) = Ok (num_gtb a b).
Proof.
  unfold py_gt, num_gtb. simpl.
  destruct (num_compare a b) as [[]|]; reflexivity.
Qed.

Lemma py_lt_num (a b : number) : py_lt (JNum a) (JNum b) = Ok (num_ltb a b).
Proof.
  unfold py_lt, num_ltb. simpl.
  destruct (num_compare a b) as [[]|]; reflexivity.
Qed.

(** On integers the order of the scores is the order of [Z]. *)
Lemma num_gtb_int (a b : Z) : num_gtb (NInt a) (NInt b) = Z.ltb b a.
Proof.
  unfold num_gtb, num_compare, extended_compare, dyadic_compare. simpl.
  rewrite !Z.mul_1_r, Z.ltb_antisym, Z.leb_compare.
  destruct (Z.compare a b); reflexivity.
Qed.

Lemma num_ltb_int (a b : Z) : num_ltb (NInt a) (NInt b) = Z.ltb a b.
Proof.
  unfold num_ltb, num_compare, extended_compare, dyadic_compare. simpl.
  rewrite !Z.mul_1_r. unfold Z.ltb. destruct (Z.compare a b); reflexivity.
Qed.

(** A NaN is never strictly better, and nothing is strictly better than a
    stored NaN. *)
Lemma strictly_better_nan (maximized : bool) (v : number) :
  strictly_better maximized (NFloat S754_nan) v = false /\
  strictly_better maximized v (NFloat S754_nan) = false.
Proof.
  unfold strictly_better, num_gtb, num_ltb, num_compare.
  destruct maximized, v as [z|[]]; simpl; try destruct s; auto.
Qed.

Section SavePolicy.

Context `{Config} `{JsonCodec} `{Learning}.

(** C1.  With a tuning result holding [hp], [n_trials] and a score [V2],
    for a dataset that declares its metric: [save_evaluation_results]
    succeeds; it writes the new record to [evaluation.json] when no such
    file exists, and, when the file holds a record with validation score
    [V1], exactly when [V2] is strictly better than [V1] in the direction
    of the dataset's flag; otherwise the world, and so the file, is left
    as it was. *)
Theorem save_evaluation_results_overwrite
    (dataset : Dataset) (model : Model) (tuning_results hp n_trials : json)
    (V2 score train_time evaluation_time : number) (metric : string)
    (stored : option number) (maximized : bool) (w : World)
    (Hhp : getitem tuning_results "hp" = Ok hp)
    (Hn : getitem tuning_results "n_trials" = Ok n_trials)
    (Hscore : getitem tuning_results "score" = Ok (JNum V2))
    (Hmetric : ds_metric dataset = Some metric)
    (Hstored :
       match stored with
       | None => files w !! evaluation_path dataset model = None
       | Some V1 =>
           ds_is_metric_maximized dataset = Some maximized /\
           exists old prev,
             files w !! evaluation_path dataset model = Some old /\
             json_loads old = Ok prev /\
             getitem prev "val_score" = Ok (JNum V1)
       end) :
  save_evaluation_results dataset model tuning_results
    score train_time evaluation_time w =
  (Ok tt,
   if replaces maximized V2 stored
   then emit (Wrote (evaluation_path dataset model))
          (set_files
             (<[evaluation_path dataset model :=
                  json_dumps (JObj [("hp", hp); ("score", JNum score);
                                    ("tuning_n_trials", n_trials);
                                    ("val_score", JNum V2);
                                    ("train_time", JNum train_time);
                                    ("evaluation_time", JNum evaluation_time);
                                    ("metric_used", JStr metric)])]>
                (files w)) w)
   else w).
Proof.
  unfold save_evaluation_results. py.
  destruct stored as [V1|]; simpl in Hstored.
  - destruct Hstored as (Hmax & old & prev & Hold & Hprev & Hval).
    rewrite (run_read _ _ _ Hold). py.
    rewrite Hprev, Hmax. py. rewrite Hscore. py. rewrite Hval. py.
    unfold replaces, strictly_better.
    destruct maximized; py; [rewrite py_gt_num | rewrite py_lt_num];
      (match goal with
       | |- context [num_gtb ?a ?b] => destruct (num_gtb a b)
       | |- context [num_ltb ?a ?b] => destruct (num_ltb a b)
       end);
      py; rewrite ?Hhp, ?Hn, ?Hscore, ?Hmetric; py; reflexivity.
  - rewrite (run_read_none _ _ Hstored). py. simpl.
    rewrite Hhp, Hn, Hscore, Hmetric. py. reflexivity.
Qed.

End SavePolicy.

Lemma save_evaluation_results_overwrite_witness :
  exists w',
    @save_evaluation_results demo_config demo_codec (demo_learning 1)
      demo_dataset (demo_model 1 "DemoModel") demo_tuning
      (NInt 1) (NInt 1) (NInt 1)
      (demo_world [("results/DemoData/DemoModel/evaluation.json", "stored 2")])
    = (Ok tt, w') /\
    files w' !! "results/DemoData/DemoModel/evaluation.json" = Some "stored 3".
Proof.
  eexists. split.
  - eapply (@save_evaluation_results_overwrite demo_config demo_codec
             (demo_learning 1) demo_dataset (demo_model 1 "DemoModel")
             demo_tuning _ _ (NInt 3) (NInt 1) (NInt 1) (NInt 1) "accuracy"
             (Some (NInt 2)) true).
    + reflexivity.
    + reflexivity.
    + reflexivity.
    + reflexivity.
    + split; [reflexivity|].
      exists "stored 2", (demo_stored 2). repeat split; reflexivity.
  - vm_compute. reflexivity.
Defined.

(** * The orchestrator *)

Lemma call_alarm {A} (c : Ext A) (w : World) (d : spec_float)
    (r : Res A) (t : spec_float) :
  alarm w = Some d -> c (clock w) = (r, t) ->
  call c w = if SFltb d t
             then (Raise TimeoutError, set_alarm None (set_clock t w))
             else (r, set_clock t w).
Proof. intros Ha Hc. unfold call. rewrite Hc, Ha. reflexivity. Qed.

Lemma call_free {A} (c : Ext A) (w : World) (r : Res A) (t : spec_float) :
  alarm w = None -> c (clock w) = (r, t) -> call c w = (r, set_clock t w).
Proof. intros Ha Hc. unfold call. rewrite Hc, Ha. reflexivity. Qed.

(** The deadline of a wrapped call is counted from the clock at its own
    start: whatever alarm an earlier call may have left plays no part. *)
Lemma set_timeout_own_deadline {A} (f : M A) (seconds : Z)
    (a : option spec_float) (w : World) :
  set_timeout f seconds (set_alarm a w) = set_timeout f seconds w.
Proof. reflexivity. Qed.

Section Orchestrator.

Context `{Config} `{JsonCodec} `{Learning}.

Lemma get_tuning_results_present (dataset : Dataset) (model : Model)
    (c : string) (tuning_results : json) (w : World) :
  files w !! tuning_path dataset model = Some c ->
  json_loads c = Ok tuning_results ->
  get_tuning_results dataset model w = (Ok tuning_results, w).
Proof.
  intros Hf Hj. unfold get_tuning_results. py.
  rewrite (run_read _ _ _ Hf). py. rewrite Hj. py. reflexivity.
Qed.

(** C6.  When [tuning.json] of the pair is absent, [get_tuning_results]
    raises "file not found" and leaves the world alone; the orchestrator
    prints its message, and the loop over the models goes on with the
    next model in a world whose files are those it started with. *)
Theorem tuning_results_missing_skips
    (T : Z) (dataset : Dataset) (train test : pyobj)
    (model : Model) (models : list Model) (w : World)
    (Habsent : files w !! tuning_path dataset model = None) :
  let w' := emit (Printed msg_no_tuning)
              (emit (Printed ("Model: " +:+ md_name model)) w) in
  get_tuning_results dataset model w = (Raise FileNotFoundError, w) /\
  train_model T dataset train test model w = (Ok tt, w') /\
  for_each (model :: models) (train_model T dataset train test) w =
    for_each models (train_model T dataset train test) w' /\
  files w' = files w /\
  trace w' = (trace w ++ [Printed ("Model: " +:+ md_name model);
                          Printed msg_no_tuning])%list.
Proof.
  intros w'.
  assert (Hget : forall w0, files w0 = files w ->
            get_tuning_results dataset model w0 = (Raise FileNotFoundError, w0)).
  { intros w0 Hw0. unfold get_tuning_results. py.
    rewrite run_read_none by (rewrite Hw0; exact Habsent). reflexivity. }
  assert (Hmodel : train_model T dataset train test model w = (Ok tt, w')).
  { unfold train_model. py. rewrite Hget by reflexivity. reflexivity. }
  repeat split; try done.
  - apply Hget. reflexivity.
  - rewrite for_each_cons, Hmodel. reflexivity.
  - simpl. rewrite <- app_assoc. reflexivity.
Qed.

Lemma train_model_raises (T : Z) (dataset : Dataset) (train test : pyobj)
    (model : Model) (w : World) (e : exn) (w' : World) :
  pair_raises T dataset train test model
    (emit (Printed ("Model: " +:+ md_name model)) w) e w' ->
  train_model T dataset train test model w =
  if bool_decide (e = MemoryError)
  then (Ok tt, emit (Printed msg_memory) w')
  else (Raise e, w').
Proof.
  intros Herr. unfold train_model.
  cbv beta delta [bind ret try_except print] iota.
  unfold is_FileNotFoundError, is_TimeoutError, is_MemoryError.
  inversion Herr as [e0 w0 Hget Hne | tr wa e0 w0 Hget Hev Hne
                    | tr wa s tt et wb e0 w0 Hget Hev Hsave
                    | tr wa s tt et wb wc e0 w0 Hget Hev Hsave Hrep]; subst.
  - rewrite Hget. rewrite bool_decide_eq_false_2 by done. reflexivity.
  - rewrite Hget.
    cbv beta delta [bind ret] iota in Hev |- *.
    destruct (lift (getitem tr "hp") wa) as [[hp|e1] w1] eqn:Hhp.
    + rewrite Hev. rewrite (bool_decide_eq_false_2 (e = TimeoutError)) by done.
      reflexivity.
    + inversion Hev; subst.
      rewrite (bool_decide_eq_false_2 (e = TimeoutError)) by done. reflexivity.
  - rewrite Hget.
    cbv beta delta [bind ret] iota in Hev |- *.
    destruct (lift (getitem tr "hp") wa) as [[hp|e1] w1] eqn:Hhp; [|discriminate].
    rewrite Hev, Hsave. reflexivity.
  - rewrite Hget.
    cbv beta delta [bind ret] iota in Hev |- *.
    destruct (lift (getitem tr "hp") wa) as [[hp|e1] w1] eqn:Hhp; [|discriminate].
    rewrite Hev, Hsave, Hrep. reflexivity.
Qed.

(** C5.  In a run that has reached the pair [(dataset, model)], let the
    processing of the pair end with an error [e] that is neither the
    missing tuning file nor the timeout of the evaluation.  If [e] is the
    out-of-memory error, the orchestrator prints its message and the run
    goes on with the remaining models and datasets; any other [e] leaves
    the orchestrator, and the run ends with it, the remaining pairs
    untouched. *)
Theorem only_memory_errors_are_absorbed
    (T : Z) (ds1 ds2 : list Dataset) (dataset : Dataset)
    (ms1 ms2 : list Model) (model : Model)
    (got train test : pyobj) (w0 wa wb w w' : World) (e : exn)
    (Hdatasets :
       for_each ds1 (train_dataset T (ms1 ++ model :: ms2)) w0 = (Ok tt, wa))
    (Hget : ds_get dataset (emit (Printed ("Dataset: " +:+ ds_name dataset)) wa)
            = (Ok got, wb))
    (Hsplit : unpack2 got = Ok (train, test))
    (Hmodels : for_each ms1 (train_model T dataset train test) wb = (Ok tt, w))
    (Herr : pair_raises T dataset train test model
              (emit (Printed ("Model: " +:+ md_name model)) w) e w') :
  train_all_models_on_all_datasets
    (ds1 ++ dataset :: ds2) (ms1 ++ model :: ms2) T w0 =
  if bool_decide (e = MemoryError)
  then (for_each ms2 (train_model T dataset train test) ;;;
        for_each ds2 (train_dataset T (ms1 ++ model :: ms2)))
         (emit (Printed msg_memory) w')
  else (Raise e, w').
Proof.
  unfold train_all_models_on_all_datasets.
  rewrite for_each_app, Hdatasets, for_each_cons.
  unfold train_dataset at 1.
  cbv beta delta [bind ret print lift] iota.
  rewrite Hget, Hsplit. simpl fst; simpl snd.
  rewrite for_each_app, Hmodels, for_each_cons.
  rewrite (train_model_raises _ _ _ _ _ _ _ _ Herr).
  case_bool_decide; reflexivity.
Qed.

Lemma evaluate_model_times_out
    (T : Z) (dataset : Dataset) (model : Model) (train test : pyobj) (hp : json)
    (cats : list string) (prepared train_data test_data X y : pyobj)
    (est : Estimator) (r : Res Estimator) (t1 t2 t3 : spec_float) (w : World)
    (Hcats : ds_categorical_features dataset = Some cats)
    (Hprep : prepare_dataset model train test cats (clock w) = (Ok prepared, t1))
    (Hdatas : unpack2 prepared = Ok (train_data, test_data))
    (Hbuild : build_estimator model hp train_data t1 = (Ok est, t2))
    (Hfresh : String.eqb (md_name model) "Cifar10CustomModel" &&
              bool_decide (is_Some (files w !! cifar_model_weights_path)) = false)
    (HXy : unpack2_star train_data = Ok (X, y))
    (Hfit : est_fit est X y t2 = (r, t3))
    (Hlate : SFltb (SFadd prec emax (clock w) (float_of_seconds T)) t3 = true) :
  exists t,
    evaluate_model_with_timeout T model dataset train test hp w =
    (Raise TimeoutError, set_alarm None (set_clock t w)).
Proof.
  unfold evaluate_model_with_timeout, set_timeout, evaluate_model.
  set (d := SFadd prec emax (clock w) (float_of_seconds T)) in *.
  rewrite Hcats. py.
  erewrite call_alarm; [|reflexivity|world_simpl; exact Hprep].
  destruct (SFltb d t1) eqn:Ht1.
  { exists t1. reflexivity. }
  py. rewrite Hdatas. world_simpl. py.
  erewrite call_alarm; [|reflexivity|world_simpl; exact Hbuild].
  destruct (SFltb d t2) eqn:Ht2.
  { exists t2. reflexivity. }
  py.
  assert (Hrestore : forall w0, files w0 = files w ->
    (if String.eqb (md_name model) "Cifar10CustomModel"
     then isfile cifar_model_weights_path else ret false) w0 = (Ok false, w0)).
  { intros w0 Hw0.
    destruct (String.eqb (md_name model) "Cifar10CustomModel"); [|reflexivity].
    simpl in Hfresh. rewrite run_isfile, Hw0, Hfresh. reflexivity. }
  rewrite Hrestore by reflexivity. py.
  rewrite HXy. py. world_simpl.
  erewrite call_alarm; [|reflexivity|world_simpl; exact Hfit].
  rewrite Hlate. exists t3. reflexivity.
Qed.

(** C4.  A pair with tuning results whose training call ([fit], reached
    after the dataset was prepared and the estimator built) returns later
    than [T] seconds after the evaluation of the pair started: the wrapped
    evaluation raises the timeout condition, the orchestrator prints its
    message, nothing is written (the files are those before the pair),
    the alarm is cleared, and the loop goes on with the next model.  The
    deadline is counted from the clock at the start of this pair. *)
Theorem training_timeout_skips_pair
    (T : Z) (dataset : Dataset) (model : Model) (models : list Model)
    (train test : pyobj) (c : string) (tuning_results hp : json)
    (cats : list string) (prepared train_data test_data X y : pyobj)
    (est : Estimator) (r : Res Estimator) (t1 t2 t3 : spec_float) (w : World)
    (Htuning : files w !! tuning_path dataset model = Some c)
    (Hloads : json_loads c = Ok tuning_results)
    (Hhp : getitem tuning_results "hp" = Ok hp)
    (Hcats : ds_categorical_features dataset = Some cats)
    (Hprep : prepare_dataset model train test cats (clock w) = (Ok prepared, t1))
    (Hdatas : unpack2 prepared = Ok (train_data, test_data))
    (Hbuild : build_estimator model hp train_data t1 = (Ok est, t2))
    (Hfresh : String.eqb (md_name model) "Cifar10CustomModel" &&
              bool_decide (is_Some (files w !! cifar_model_weights_path)) = false)
    (HXy : unpack2_star train_data = Ok (X, y))
    (Hfit : est_fit est X y t2 = (r, t3))
    (Hlate : SFltb (SFadd prec emax (clock w) (float_of_seconds T)) t3 = true) :
  exists t,
    let w1 := emit (Printed ("Model: " +:+ md_name model)) w in
    let w' := emit (Printed (msg_timeout T)) (set_alarm None (set_clock t w1)) in
    evaluate_model_with_timeout T model dataset train test hp w1 =
      (Raise TimeoutError, set_alarm None (set_clock t w1)) /\
    train_model T dataset train test model w = (Ok tt, w') /\
    for_each (model :: models) (train_model T dataset train test) w =
      for_each models (train_model T dataset train test) w' /\
    files w' = files w /\
    alarm w' = None /\
    trace w' = (trace w ++ [Printed ("Model: " +:+ md_name model);
                            Printed (msg_timeout T)])%list.
Proof.
  destruct (evaluate_model_times_out T dataset model train test hp cats
              prepared train_data test_data X y est r t1 t2 t3
              (emit (Printed ("Model: " +:+ md_name model)) w)
              Hcats Hprep Hdatas Hbuild Hfresh HXy Hfit Hlate) as [t Ht].
  exists t. intros w1 w'.
  assert (Hmodel : train_model T dataset train test model w = (Ok tt, w')).
  { unfold train_model. py.
    rewrite (get_tuning_results_present dataset model c tuning_results) by done.
    py. rewrite Hhp. py. rewrite Ht. reflexivity. }
  repeat split; try done.
  - rewrite for_each_cons, Hmodel. reflexivity.
  - simpl. rewrite <- app_assoc. reflexivity.
Qed.

(** C7.  [evaluate_model], called outside the timeout wrapper, with a
    dataset that prepares and an estimator that builds.  If the model is
    [Cifar10CustomModel] and the weights file exists, the estimator is
    initialised and loaded from the file, and the training time returned
    is [-1]; otherwise the estimator is fitted on the training data and
    the training time is the clock after [fit] minus the clock at the
    start of the call, a binary64 subtraction (the weights being saved
    when the model is [Cifar10CustomModel]).  Either way the estimator so
    obtained is the one that predicts, and the evaluation time is the
    clock at the end minus the clock before the prediction. *)
Theorem evaluate_model_restores_or_fits
    (dataset : Dataset) (model : Model) (train test : pyobj) (hp : json)
    (cats : list string)
    (prepared train_data test_data X_test y_test predictions : pyobj)
    (est est' : Estimator) (metric : string) (metric_value loss : number)
    (t1 t2 t3 t4 t5 t6 t7 : spec_float) (saved : string) (w : World)
    (Hfree : alarm w = None)
    (Hcats : ds_categorical_features dataset = Some cats)
    (Hprep : prepare_dataset model train test cats (clock w) = (Ok prepared, t1))
    (Hdatas : unpack2 prepared = Ok (train_data, test_data))
    (Hbuild : build_estimator model hp train_data t1 = (Ok est, t2))
    (Htrain :
       let is_cifar_model := String.eqb (md_name model) "Cifar10CustomModel" in
       if is_cifar_model &&
          bool_decide (is_Some (files w !! cifar_model_weights_path))
       then exists params est0 t,
              files w !! cifar_model_weights_path = Some params /\
              est_initialize est t2 = (Ok est0, t) /\
              est_load_params est0 params t = (Ok est', t3) /\
              t4 = t3
       else exists X y,
              unpack2_star train_data = Ok (X, y) /\
              est_fit est X y t2 = (Ok est', t3) /\
              if is_cifar_model
              then est_save_params est' t3 = (Ok saved, t4)
              else t4 = t3)
    (Htest : unpack2 test_data = Ok (X_test, y_test))
    (Hpredict : est_predict est' X_test t4 = (Ok predictions, t5))
    (Hmetric : ds_metric dataset = Some metric)
    (Hvalue : compute_metric y_test predictions metric t5 = (Ok metric_value, t6))
    (Hloss : compute_loss metric [metric_value] t6 = (Ok loss, t7)) :
  let is_cifar_model := String.eqb (md_name model) "Cifar10CustomModel" in
  let restored :=
    is_cifar_model &&
    bool_decide (is_Some (files w !! cifar_model_weights_path)) in
  evaluate_model model dataset train test hp w =
  (Ok (number_neg loss,
       (if restored then NInt (-1)
        else NFloat (SFsub prec emax t3 (clock w))),
       NFloat (SFsub prec emax t7 t4)),
   set_clock t7
     (if is_cifar_model && negb restored
      then emit (Wrote cifar_model_weights_path)
             (set_files (<[cifar_model_weights_path := saved]> (files w)) w)
      else w)).
Proof.
  intros is_cifar_model restored. subst restored. cbv zeta in Htrain.
  fold is_cifar_model in Htrain.
  unfold evaluate_model. fold is_cifar_model.
  rewrite Hcats, Hmetric. py.
  erewrite call_free; [|exact Hfree|exact Hprep]. py.
  rewrite Hdatas. py. world_simpl.
  erewrite call_free; [|exact Hfree|world_simpl; exact Hbuild]. py.
  destruct is_cifar_model eqn:Hcifar.
  - rewrite run_isfile. world_simpl. cbv beta iota zeta.
    simpl andb in *.
    destruct (bool_decide (is_Some (files w !! cifar_model_weights_path)))
      eqn:Hfile.
    + destruct Htrain as (params & est0 & t & Hparams & Hinit & Hload & ->).
      py. erewrite call_free; [|exact Hfree|world_simpl; exact Hinit]. py.
      rewrite (run_read _ params) by (world_simpl; exact Hparams). py.
      erewrite call_free; [|exact Hfree|world_simpl; exact Hload]. py.
      world_simpl. rewrite Htest. py. world_simpl.
      erewrite call_free; [|exact Hfree|world_simpl; exact Hpredict]. py.
      erewrite call_free; [|exact Hfree|world_simpl; exact Hvalue]. py.
      erewrite call_free; [|exact Hfree|world_simpl; exact Hloss]. py.
      reflexivity.
    + destruct Htrain as (X & y & HXy & Hfit & Hsave).
      py. rewrite HXy. py. world_simpl.
      erewrite call_free; [|exact Hfree|world_simpl; exact Hfit]. py.
      erewrite call_free; [|exact Hfree|world_simpl; exact Hsave]. py.
      unfold write_file. world_simpl. rewrite Htest. py. world_simpl.
      erewrite call_free; [|exact Hfree|world_simpl; exact Hpredict]. py.
      erewrite call_free; [|exact Hfree|world_simpl; exact Hvalue]. py.
      erewrite call_free; [|exact Hfree|world_simpl; exact Hloss]. py.
      reflexivity.
  - simpl andb in *. destruct Htrain as (X & y & HXy & Hfit & ->).
    py. rewrite HXy. py. world_simpl.
    erewrite call_free; [|exact Hfree|world_simpl; exact Hfit]. py.
    world_simpl. rewrite Htest. py. world_simpl.
    erewrite call_free; [|exact Hfree|world_simpl; exact Hpredict]. py.
    erewrite call_free; [|exact Hfree|world_simpl; exact Hvalue]. py.
    erewrite call_free; [|exact Hfree|world_simpl; exact Hloss]. py.
    reflexivity.
Qed.

End Orchestrator.

Lemma tuning_results_missing_skips_witness :
  @train_model demo_config demo_codec (demo_learning 1) 180
    demo_dataset demo_train demo_test (demo_model 1 "DemoModel") (demo_world [])
  = (Ok tt,
     emit (Printed msg_no_tuning)
       (emit (Printed "Model: DemoModel") (demo_world []))).
Proof.
  exact (proj1 (proj2
    (@tuning_results_missing_skips demo_config demo_codec (demo_learning 1)
       180 demo_dataset demo_train demo_test (demo_model 1 "DemoModel") []
       (demo_world []) eq_refl))).
Defined.

Lemma only_memory_errors_are_absorbed_witness :
  exists w',
    @train_all_models_on_all_datasets demo_config demo_codec (demo_learning 1)
      [demo_dataset] [demo_model 1 "DemoModel"] 180
      (demo_world [("results/DemoData/DemoModel/tuning.json", "garbage")])
    = (Raise JSONDecodeError, w').
Proof.
  eexists.
  eapply (@only_memory_errors_are_absorbed demo_config demo_codec
            (demo_learning 1) 180 [] [] demo_dataset [] []
            (demo_model 1 "DemoModel") demo_split demo_train demo_test
            _ _ _ _ _ JSONDecodeError).
  - reflexivity.
  - reflexivity.
  - reflexivity.
  - reflexivity.
  - apply raises_tuning; [vm_compute; reflexivity | discriminate].
Defined.

Lemma training_timeout_skips_pair_witness :
  exists w',
    @train_model demo_config demo_codec (demo_learning 200) 180
      demo_dataset demo_train demo_test (demo_model 200 "DemoModel")
      (demo_world [("results/DemoData/DemoModel/tuning.json", "tuning")])
    = (Ok tt, w') /\
    files w' =
    files (demo_world [("results/DemoData/DemoModel/tuning.json", "tuning")]).
Proof.
  destruct (@training_timeout_skips_pair demo_config demo_codec
              (demo_learning 200) 180 demo_dataset (demo_model 200 "DemoModel") []
              demo_train demo_test "tuning" demo_tuning
              (JObj [("n_estimators", JNum (NInt 50))]) []
              (PTuple [demo_train; demo_test]) demo_train demo_test
              (PArray [JNum (NInt 1)]) (PArray [JNum (NInt 0)])
              tt (Ok tt) (f_of_Z 0) (f_of_Z 0) (f_of_Z 200)
              (demo_world [("results/DemoData/DemoModel/tuning.json", "tuning")]))
    as (t & _ & Hmodel & _ & Hfiles & _).
  all: try reflexivity.
  eexists. split; [exact Hmodel | exact Hfiles].
Defined.

Lemma evaluate_model_restores_or_fits_witness :
  fst (@evaluate_model demo_config (demo_learning 5)
         (demo_model 5 "Cifar10CustomModel") demo_dataset demo_train demo_test
         JNull
         (demo_world [("results/Cifar10CustomModel-weights.pkl", "weights")]))
  = Ok (NInt 1, NInt (-1), NFloat (S754_zero false)) /\
  @evaluate_model demo_config (demo_learning 5)
    (demo_model 5 "DemoModel") demo_dataset demo_train demo_test JNull
    (demo_world [])
  = (Ok (NInt 1,
         NFloat (S754_finite false 5629499534213120 (-50)),
         NFloat (S754_zero false)),
     set_clock (S754_finite false 5629499534213120 (-50)) (demo_world [])).
Proof.
  split.
  - rewrite (@evaluate_model_restores_or_fits demo_config (demo_learning 5)
               demo_dataset (demo_model 5 "Cifar10CustomModel")
               demo_train demo_test JNull []
               (PTuple [demo_train; demo_test]) demo_train demo_test
               (PArray [JNum (NInt 2)]) (PArray [JNum (NInt 1)]) (PArray [])
               tt tt "accuracy" (NInt 1) (NInt (-1))
               (f_of_Z 0) (f_of_Z 0) (f_of_Z 0) (f_of_Z 0) (f_of_Z 0) (f_of_Z 0)
               (f_of_Z 0) ""
               (demo_world [("results/Cifar10CustomModel-weights.pkl", "weights")])).
    + reflexivity.
    + reflexivity.
    + reflexivity.
    + reflexivity.
    + reflexivity.
    + reflexivity.
    + exists "weights", tt, (f_of_Z 0). repeat split; reflexivity.
    + reflexivity.
    + reflexivity.
    + reflexivity.
    + reflexivity.
    + reflexivity.
  - rewrite (@evaluate_model_restores_or_fits demo_config (demo_learning 5)
               demo_dataset (demo_model 5 "DemoModel")
               demo_train demo_test JNull []
               (PTuple [demo_train; demo_test]) demo_train demo_test
               (PArray [JNum (NInt 2)]) (PArray [JNum (NInt 1)]) (PArray [])
               tt tt "accuracy" (NInt 1) (NInt (-1))
               (f_of_Z 0) (f_of_Z 0) (f_of_Z 5) (f_of_Z 5) (f_of_Z 5) (f_of_Z 5)
               (f_of_Z 5) "" (demo_world [])).
    + reflexivity.
    + reflexivity.
    + reflexivity.
    + reflexivity.
    + reflexivity.
    + reflexivity.
    + exists (PArray [JNum (NInt 1)]), (PArray [JNum (NInt 0)]).
      repeat split; reflexivity.
    + reflexivity.
    + reflexivity.
    + reflexivity.
    + reflexivity.
    + reflexivity.
Defined.

(** * The dataset providers *)

Lemma stable_ret {A} fs tr (a : A) : stable fs tr (ret a).
Proof. intros w Hf Ht. split; assumption. Qed.
Lemma stable_raise {A} fs tr e : stable fs tr (@raise A e).
Proof. intros w Hf Ht. split; assumption. Qed.
Lemma stable_lift {A} fs tr (r : Res A) : stable fs tr (lift r).
Proof. intros w Hf Ht. split; assumption. Qed.
Lemma stable_attr {A} fs tr (a : option A) : stable fs tr (attr a).
Proof. destruct a; [apply stable_ret | apply stable_raise]. Qed.
Lemma stable_isfile fs tr p : stable fs tr (isfile p).
Proof. intros w Hf Ht. split; assumption. Qed.
Lemma stable_read_file fs tr p : stable fs tr (read_file p).
Proof.
  intros w Hf Ht. unfold read_file. destruct (files w !! p); split; assumption.
Qed.
Lemma stable_bind {A B} fs tr (c : M A) (k : A -> M B) :
  stable fs tr c -> (forall a, stable fs tr (k a)) -> stable fs tr (bind c k).
Proof.
  intros Hc Hk w Hf Ht. rewrite run_bind. specialize (Hc w Hf Ht).
  destruct (c w) as [[a|e] w1]; simpl in Hc.
  - apply Hk; apply Hc.
  - exact Hc.
Qed.
Lemma stable_known {A B} fs tr (c : M A) (a : A) (k : A -> M B) :
  (forall w, files w = fs -> c w = (Ok a, w)) ->
  stable fs tr (k a) -> stable fs tr (bind c k).
Proof.
  intros Hc Hk w Hf Ht. rewrite run_bind, (Hc w Hf). apply Hk; assumption.
Qed.

Lemma omap_lookup_length {A} (l : list A) (ind : list nat) :
  Forall (fun i => (i < length l)%nat) ind ->
  length (omap (fun i => l !! i) ind) = length ind.
Proof.
  induction 1 as [|i ind Hi _ IH]; [reflexivity|].
  simpl. destruct (lookup_lt_is_Some_2 l i Hi) as [x Hx].
  rewrite Hx. simpl. f_equal. apply IH.
Qed.

Lemma n_test_of_bounds (n : nat) :
  (n <= 4 * n_test_of n < n + 4)%nat.
Proof.
  unfold n_test_of.
  pose proof (Nat.div_mod_eq (n + 3) 4) as Hd.
  pose proof (Nat.mod_upper_bound (n + 3) 4 ltac:(lia)) as Hm.
  lia.
Qed.

Lemma n_test_of_lt (n : nat) : (2 <= n)%nat -> (n_test_of n < n)%nat.
Proof. intros Hn. pose proof (n_test_of_bounds n). lia. Qed.

Section DatasetProviders.

Context `{Environment} `{Network} `{Parsers} `{Random}.

Lemma stable_train_test_split fs tr X y : stable fs tr (train_test_split X y).
Proof.
  unfold train_test_split.
  destruct (negb _); [apply stable_raise|].
  destruct (Nat.eqb _ 0); [apply stable_raise|].
  apply stable_bind; [|intros; apply stable_ret].
  intros w Hf Ht. split; assumption.
Qed.

Lemma run_filenames_at cls i names name w :
  filenames cls = Some names -> names !! i = Some name ->
  filenames_at cls i w = (Ok name, w).
Proof. intros Hn Hi. unfold filenames_at. rewrite Hn. py. rewrite Hi. reflexivity. Qed.

Lemma stable_filenames_at fs tr cls i : stable fs tr (filenames_at cls i).
Proof.
  unfold filenames_at. apply stable_bind; [apply stable_attr|].
  intros names. destruct (names !! i); [apply stable_ret | apply stable_raise].
Qed.

Ltac stable_tac :=
  repeat first
    [ apply stable_ret | apply stable_raise | apply stable_lift
    | apply stable_attr | apply stable_isfile | apply stable_read_file
    | apply stable_train_test_split | apply stable_filenames_at
    | apply stable_bind; [|intros] ].

(** The cache check of a provider whose first file is [name], followed by
    anything that reads only. *)
Lemma stable_cache_check {B} fs tr (cls : DatasetClass) (name : string)
    (k : unit -> M B) :
  is_Some (fs !! joinpath workdir [name]) ->
  stable fs tr (k tt) ->
  stable fs tr
    (present <- isfile (joinpath workdir [name]) ;;
     (if present : bool then ret tt else download cls) ;;;
     k tt).
Proof.
  intros Hpresent Hk.
  apply (stable_known _ _ _ true).
  { intros w Hw. rewrite run_isfile, Hw.
    rewrite bool_decide_eq_true_2 by exact Hpresent. reflexivity. }
  apply (stable_known _ _ _ tt); [reflexivity | exact Hk].
Qed.

Lemma cached_get_does_not_download (p : provider) (w : World)
    (Hpresent : is_Some (files w !! checked_path p)) :
  files (snd (get p w)) = files w /\ trace (snd (get p w)) = trace w.
Proof.
  cut (stable (files w) (trace w) (get p)).
  { intros Hs. apply Hs; reflexivity. }
  destruct p; unfold get.
  - unfold DefaultCreditCardDataset_get. cbv zeta.
    apply (stable_known _ _ _ "default of credit card clients.xls");
      [reflexivity|].
    apply (stable_cache_check _ _ _ _ (fun _ => _)); [exact Hpresent|].
    stable_tac.
  - unfold StatlogAustralianDataset_get, Statlog_get.
    apply (stable_known _ _ _ "australian.dat"); [reflexivity|].
    apply (stable_cache_check _ _ _ _ (fun _ => _)); [exact Hpresent|].
    stable_tac.
  - unfold StatlogGermanDataset_get, Statlog_get.
    apply (stable_known _ _ _ "german.data-numeric"); [reflexivity|].
    apply (stable_cache_check _ _ _ _ (fun _ => _)); [exact Hpresent|].
    stable_tac.
  - unfold AdultDataset_get, AdultDataset_get_raw. cbv zeta.
    apply stable_bind; [|intros; stable_tac].
    apply (stable_known _ _ _ "adult.data"); [reflexivity|].
    apply (stable_cache_check _ _ _ _ (fun _ => _)); [exact Hpresent|].
    stable_tac.
  - unfold SteelPlatesFaultsDataset_get. cbv zeta.
    apply (stable_known _ _ _ "Faults.NNA"); [reflexivity|].
    apply (stable_cache_check _ _ _ _ (fun _ => _)); [exact Hpresent|].
    stable_tac.
  - unfold SeismicBumps_get. cbv zeta.
    apply (stable_known _ _ _ "seismic-bumps.arff"); [reflexivity|].
    apply (stable_cache_check _ _ _ _ (fun _ => _)); [exact Hpresent|].
    stable_tac.
Qed.

Lemma after_bind {A B} fs tr (c : M A) (k : A -> M B) (w : World) :
  files (snd (c w)) = fs -> trace (snd (c w)) = tr ->
  (forall a, stable fs tr (k a)) ->
  files (snd (bind c k w)) = fs /\ trace (snd (bind c k w)) = tr.
Proof.
  intros Hf Ht Hk. rewrite run_bind.
  destruct (c w) as [[a|e] w1]; simpl in *.
  - apply Hk; assumption.
  - split; assumption.
Qed.

Lemma after_known {A B} (c : M A) (a : A) (k : A -> M B) (w : World) :
  c w = (Ok a, w) -> bind c k w = k a w.
Proof. intros Hc. rewrite run_bind, Hc. reflexivity. Qed.

Lemma cache_check_absent {B} (cls : DatasetClass) (name : string)
    (k : unit -> M B) (w w1 : World) :
  files w !! joinpath workdir [name] = None ->
  download cls w = (Ok tt, w1) ->
  stable (files w1) (trace w1) (k tt) ->
  files (snd ((present <- isfile (joinpath workdir [name]) ;;
               (if present : bool then ret tt else download cls) ;;;
               k tt) w)) = files w1 /\
  trace (snd ((present <- isfile (joinpath workdir [name]) ;;
               (if present : bool then ret tt else download cls) ;;;
               k tt) w)) = trace w1.
Proof.
  intros Habsent Hdl Hk. py. rewrite Habsent.
  rewrite bool_decide_eq_false_2 by (intros [x Hx]; discriminate).
  cbv beta iota. rewrite Hdl. apply Hk; reflexivity.
Qed.

Lemma download_fetches (p : provider) (w : World)
    (Hnet : Forall (fun u => is_ok (url_content (replace_spaces u)) = true)
                   (declared_urls (class_of p))) :
  exists w1, download (class_of p) w = (Ok tt, w1) /\
             trace w1 = (trace w ++ fetch_events (class_of p))%list.
Proof.
  destruct p; cbn [class_of] in *;
    unfold download, download_file, urlretrieve;
    cbn [declared_urls url urls filename filenames
         DefaultCreditCardDataset StatlogAustralianDataset StatlogGermanDataset
         AdultDataset SteelPlatesFaultsDataset SeismicBumps] in *;
    repeat match goal with
    | Hf : Forall _ (_ :: _) |- _ =>
        let Hu := fresh "Hu" in
        apply Forall_cons in Hf as [Hu Hf];
        match type of Hu with
        | is_ok ?r = true => destruct r eqn:?; [clear Hu | discriminate Hu]
        end
    end.
  all: py; cbn [zip zip_with for_each fst snd]; py;
    repeat (match goal with
            | Heq : url_content _ = Ok _ |- _ => rewrite Heq; clear Heq
            end; py);
    eexists; (split; [reflexivity|]);
    world_simpl; rewrite <- ?app_assoc; reflexivity.
Qed.

(** C8.  For every provider: when the file its cache check looks at
    exists, [get] fetches nothing and leaves the files as they are; a
    fetch happens only when that file is absent, and then (the network
    answering) every declared URL is fetched, once, into its declared
    file. *)
Theorem download_only_when_absent (p : provider) (w : World)
    (Hnet : files w !! checked_path p = None ->
            Forall (fun u => is_ok (url_content (replace_spaces u)) = true)
                   (declared_urls (class_of p))) :
  (is_Some (files w !! checked_path p) -> files (snd (get p w)) = files w) /\
  trace (snd (get p w)) =
  (trace w ++ if bool_decide (is_Some (files w !! checked_path p))
              then [] else fetch_events (class_of p))%list.
Proof.
  case_bool_decide as Hpresent.
  - destruct (cached_get_does_not_download p w Hpresent) as [Hf Ht].
    rewrite app_nil_r. split; [intros _; exact Hf | exact Ht].
  - assert (Habsent : files w !! checked_path p = None).
    { destruct (files w !! checked_path p) eqn:E; [|reflexivity].
      exfalso. apply Hpresent. eauto. }
    split; [intros [x Hx]; rewrite Habsent in Hx; discriminate|].
    destruct (download_fetches p w (Hnet Habsent)) as (w1 & Hdl & Htr).
    rewrite <- Htr. clear Hnet Hpresent Htr.
    destruct p; unfold get; cbn [class_of] in Hdl.
    + unfold DefaultCreditCardDataset_get. cbv zeta.
      rewrite (after_known _ "default of credit card clients.xls") by reflexivity.
      apply (cache_check_absent _ _ (fun _ => _) w w1 Habsent Hdl). stable_tac.
    + unfold StatlogAustralianDataset_get, Statlog_get.
      rewrite (after_known _ "australian.dat") by reflexivity.
      apply (cache_check_absent _ _ (fun _ => _) w w1 Habsent Hdl). stable_tac.
    + unfold StatlogGermanDataset_get, Statlog_get.
      rewrite (after_known _ "german.data-numeric") by reflexivity.
      apply (cache_check_absent _ _ (fun _ => _) w w1 Habsent Hdl). stable_tac.
    + unfold AdultDataset_get, AdultDataset_get_raw. cbv zeta.
      apply (after_bind (files w1)); [| |intros; stable_tac].
      * rewrite (after_known _ "adult.data") by reflexivity.
        apply (cache_check_absent _ _ (fun _ => _) w w1 Habsent Hdl). stable_tac.
      * rewrite (after_known _ "adult.data") by reflexivity.
        apply (cache_check_absent _ _ (fun _ => _) w w1 Habsent Hdl). stable_tac.
    + unfold SteelPlatesFaultsDataset_get. cbv zeta.
      rewrite (after_known _ "Faults.NNA") by reflexivity.
      apply (cache_check_absent _ _ (fun _ => _) w w1 Habsent Hdl). stable_tac.
    + unfold SeismicBumps_get. cbv zeta.
      rewrite (after_known _ "seismic-bumps.arff") by reflexivity.
      apply (cache_check_absent _ _ (fun _ => _) w w1 Habsent Hdl). stable_tac.
Qed.
(** C10.  [AdultDataset]: the cache check looks at the first declared
    file only.  With [adult.data] present (and readable as a table) and
    [adult.test] absent, [get] downloads nothing, the world is left
    as it was, and the call fails with "file not found" at the read of
    the second file. *)
Theorem adult_second_file_missing (w : World) (file : string) (df_train : DataFrame)
    (Hfirst : files w !! joinpath workdir ["adult.data"] = Some file)
    (Hparse : read_csv ", " 0 file = Ok df_train)
    (Hsecond : files w !! joinpath workdir ["adult.test"] = None) :
  checked_path Adult = joinpath workdir ["adult.data"] /\
  AdultDataset_get_raw w = (Raise FileNotFoundError, w) /\
  get Adult w = (Raise FileNotFoundError, w).
Proof.
  assert (Hraw : AdultDataset_get_raw w = (Raise FileNotFoundError, w)).
  { unfold AdultDataset_get_raw. py.
    rewrite (run_filenames_at AdultDataset 0 _ "adult.data") by reflexivity.
    py. rewrite Hfirst. rewrite bool_decide_eq_true_2 by eauto. py.
    rewrite (run_read _ _ _ Hfirst). py. rewrite Hparse. py.
    rewrite (run_filenames_at AdultDataset 1 _ "adult.test") by reflexivity.
    py. rewrite (run_read_none _ _ Hsecond). reflexivity. }
  split; [reflexivity|]. split; [exact Hraw|].
  unfold get, AdultDataset_get. py. rewrite Hraw. reflexivity.
Qed.
Lemma shuffle_Permutation (fuel k : nat) (pool : list nat) :
  length pool = fuel -> shuffle k fuel pool ≡ₚ pool.
Proof.
  revert k pool. induction fuel as [|fuel IH]; intros k pool Hlen.
  - destruct pool; [reflexivity | discriminate].
  - simpl.
    assert (Hj : (random_draw k mod length pool < length pool)%nat)
      by (apply Nat.mod_upper_bound; lia).
    destruct (lookup_lt_is_Some_2 pool _ Hj) as [x Hx].
    rewrite Hx.
    transitivity (x :: delete (random_draw k mod length pool)%nat pool).
    + constructor. apply IH. rewrite length_delete by eauto. lia.
    + symmetry. apply delete_Permutation. exact Hx.
Qed.

Lemma train_test_split_spec (X : DataFrame) (y : Series) (w : World) :
  let n := length (rows X) in
  (2 <= n)%nat -> length (s_rows y) = n ->
  exists ind_train ind_test,
    train_test_split X y w =
      (Ok (iloc ind_train X, iloc ind_test X,
           iloc_series ind_train y, iloc_series ind_test y),
       set_draws (draws w + n)%nat w) /\
    (ind_test ++ ind_train)%list ≡ₚ seq 0 n /\
    length ind_test = n_test_of n.
Proof.
  intros n Hn Hy.
  pose proof (n_test_of_lt n Hn) as Hlt.
  set (perm := shuffle (draws w) n (seq 0 n)).
  assert (Hperm : perm ≡ₚ seq 0 n)
    by (apply shuffle_Permutation; apply length_seq).
  assert (Hlen : length perm = n)
    by (rewrite Hperm; apply length_seq).
  exists (take (n - n_test_of n) (drop (n_test_of n) perm)), (take (n_test_of n) perm).
  split; [|split].
  - unfold train_test_split. fold n. rewrite Hy, Nat.eqb_refl. simpl negb. cbv iota.
    destruct (Nat.eqb (n - n_test_of n) 0) eqn:E;
      [apply Nat.eqb_eq in E; lia|].
    reflexivity.
  - rewrite (take_ge (drop _ _)) by (rewrite length_drop; lia).
    rewrite take_drop. exact Hperm.
  - rewrite length_take. lia.
Qed.

Lemma column_at_rows (i : nat) (df : DataFrame) (y : Series) :
  column_at i df = Ok y -> length (s_rows y) = length (rows df).
Proof.
  unfold column_at. destruct (columns df !! i); [|discriminate].
  intros [= <-]. simpl. apply length_map.
Qed.

Lemma select_level0_rows (names : list string) (df X : DataFrame) :
  select_level0 names df = Ok X -> length (rows X) = length (rows df).
Proof.
  unfold select_level0. destruct (map_res _ names); [|discriminate].
  intros [= <-]. simpl. apply length_map.
Qed.

Lemma table_of_rows (p : provider) (file : string) (X : DataFrame) (y : Series) :
  table_of p file = Ok (X, y) -> length (s_rows y) = length (rows X).
Proof.
  destruct p; simpl; try discriminate.
  - unfold DefaultCreditCardDataset_table.
    destruct (read_excel file) as [df|]; [|discriminate].
    destruct (select_level0 ["Y"] df) as [Y|] eqn:HY; [|discriminate].
    destruct (column_at 0 (drop_level0 Y)) as [y0|] eqn:Hy; [|discriminate].
    destruct (select_level0 (map _ (seq 1 23)) df) as [X0|] eqn:HX; [|discriminate].
    intros Heq; injection Heq as <- <-.
    apply column_at_rows in Hy. apply select_level0_rows in HY, HX.
    simpl in *. congruence.
  - unfold Statlog_table.
    destruct (read_csv " " 0 file) as [df|]; [|discriminate].
    destruct (column_at _ df) as [y0|] eqn:Hy; [|discriminate].
    intros Heq; injection Heq as <- <-. apply column_at_rows in Hy. simpl.
    rewrite length_map. exact Hy.
  - unfold Statlog_table.
    destruct (read_csv "\s+" 0 file) as [df|]; [|discriminate].
    destruct (column_at _ df) as [y0|] eqn:Hy; [|discriminate].
    intros Heq; injection Heq as <- <-. apply column_at_rows in Hy. simpl.
    rewrite length_map. exact Hy.
Qed.

Lemma get_splits (p : provider) (w : World) (file : string)
    (X : DataFrame) (y : Series)
    (Hsplits : splits p = true)
    (Hfile : files w !! checked_path p = Some file)
    (Htable : table_of p file = Ok (X, y))
    (Hrows : (2 <= length (rows X))%nat) :
  let n := length (rows X) in
  exists ind_train ind_test,
    get p w =
      (Ok (PTuple [PTuple [PFrame (iloc ind_train X);
                           PSeries (iloc_series ind_train y)];
                   PTuple [PFrame (iloc ind_test X);
                           PSeries (iloc_series ind_test y)]]),
       set_draws (draws w + n)%nat w) /\
    (ind_test ++ ind_train)%list ≡ₚ seq 0 n /\
    length (rows (iloc ind_test X)) = n_test_of n /\
    (length (rows (iloc ind_train X)) + length (rows (iloc ind_test X)) = n)%nat /\
    (n <= 4 * n_test_of n < n + 4)%nat.
Proof.
  intros n.
  destruct (train_test_split_spec X y w Hrows (table_of_rows _ _ _ _ Htable))
    as (ind_train & ind_test & Hsplit & Hperm & Hlen).
  fold n in Hsplit, Hperm, Hlen.
  exists ind_train, ind_test.
  assert (Hbound : Forall (fun i => (i < n)%nat) (ind_test ++ ind_train)%list).
  { rewrite Hperm. apply Forall_forall. intros i Hi.
    apply elem_of_seq in Hi. lia. }
  apply Forall_app in Hbound as [Hte Htr].
  assert (Hnte : length (rows (iloc ind_test X)) = length ind_test)
    by (apply omap_lookup_length; exact Hte).
  assert (Hntr : length (rows (iloc ind_train X)) = length ind_train)
    by (apply omap_lookup_length; exact Htr).
  assert (Hsum : (length ind_test + length ind_train = n)%nat).
  { rewrite <- length_app, Hperm. apply length_seq. }
  split; [|split; [exact Hperm|split; [lia|split; [lia|apply n_test_of_bounds]]]].
  assert (Hb : bool_decide (is_Some (files w !! checked_path p)) = true)
    by (apply bool_decide_eq_true_2; eauto).
  destruct p; try discriminate Hsplits; unfold get.
  - unfold DefaultCreditCardDataset_get. simpl in Htable.
    cbn [filename DefaultCreditCardDataset]. py.
    change (checked_path DefaultCreditCard) with (joinpath workdir ["default of credit card clients.xls"]) in Hb, Hfile.
    rewrite Hb. py.
    rewrite (run_read _ _ _ Hfile). py. rewrite Htable. py.
    simpl fst; simpl snd. rewrite Hsplit. reflexivity.
  - unfold StatlogAustralianDataset_get, Statlog_get. simpl in Htable.
    cbn [filename StatlogAustralianDataset]. py.
    change (checked_path StatlogAustralian) with (joinpath workdir ["australian.dat"]) in Hb, Hfile.
    rewrite Hb. py.
    rewrite (run_read _ _ _ Hfile). py. rewrite Htable. py.
    simpl fst; simpl snd. rewrite Hsplit. reflexivity.
  - unfold StatlogGermanDataset_get, Statlog_get. simpl in Htable.
    cbn [filename StatlogGermanDataset]. py.
    change (checked_path StatlogGerman) with (joinpath workdir ["german.data-numeric"]) in Hb, Hfile.
    rewrite Hb. py.
    rewrite (run_read _ _ _ Hfile). py. rewrite Htable. py.
    simpl fst; simpl snd. rewrite Hsplit. reflexivity.
Qed.


Lemma map_res_length {A B} (f : A -> Res B) (l : list A) (l' : list B) :
  map_res f l = Ok l' -> length l' = length l.
Proof.
  revert l'. induction l as [|x l IH]; intros l'; simpl.
  - intros [= <-]. reflexivity.
  - destruct (f x); [|discriminate].
    destruct (map_res f l); [|discriminate].
    intros [= <-]. simpl. f_equal. apply IH. reflexivity.
Qed.

Lemma parse_dataset_rows (df X : DataFrame) (y : Series) :
  parse_dataset df = Ok (X, y) ->
  length (rows X) = length (rows df) /\ length (s_rows y) = length (rows df).
Proof.
  unfold parse_dataset.
  destruct (column_at 14 df) as [y0|] eqn:Hy; [|discriminate].
  destruct (Nat.eqb _ _); [|discriminate].
  intros Heq; injection Heq as <- <-. split.
  - simpl. apply length_map.
  - apply column_at_rows in Hy. exact Hy.
Qed.

Lemma get_adult (w : World) (file_train file_test : string)
    (df_train df_test X_train X_test : DataFrame) (l_train l_test : Series)
    (y_train y_test : list json)
    (Htrain_file : files w !! joinpath workdir ["adult.data"] = Some file_train)
    (Htrain_csv : read_csv ", " 0 file_train = Ok df_train)
    (Htest_file : files w !! joinpath workdir ["adult.test"] = Some file_test)
    (Htest_csv : read_csv ", " 1 file_test = Ok df_test)
    (Htrain : parse_dataset df_train = Ok (X_train, l_train))
    (Htest : parse_dataset df_test = Ok (X_test, l_test))
    (Hy_train :
       label_transform (label_classes (map snd (s_rows l_train)))
         (map snd (s_rows l_train)) = Ok y_train)
    (Hy_test :
       label_transform (label_classes (map snd (s_rows l_train)))
         (map (fun r => str_drop_last (snd r)) (s_rows l_test)) = Ok y_test) :
  get Adult w =
    (Ok (PTuple [PTuple [PFrame X_train; PArray y_train];
                 PTuple [PFrame X_test; PArray y_test]]), w) /\
  length (rows X_train) = length (rows df_train) /\
  length y_train = length (rows df_train) /\
  length (rows X_test) = length (rows df_test) /\
  length y_test = length (rows df_test).
Proof.
  destruct (parse_dataset_rows _ _ _ Htrain) as [HXtr Hltr].
  destruct (parse_dataset_rows _ _ _ Htest) as [HXte Hlte].
  apply map_res_length in Hy_train as Hntr.
  apply map_res_length in Hy_test as Hnte.
  rewrite length_map in Hntr, Hnte.
  split; [|repeat split; congruence].
  unfold get, AdultDataset_get, AdultDataset_get_raw. py.
  rewrite (run_filenames_at AdultDataset 0 _ "adult.data") by reflexivity.
  py. rewrite Htrain_file. rewrite bool_decide_eq_true_2 by eauto. py.
  rewrite (run_read _ _ _ Htrain_file). py. rewrite Htrain_csv. py.
  rewrite (run_filenames_at AdultDataset 1 _ "adult.test") by reflexivity.
  py. rewrite (run_read _ _ _ Htest_file). py. rewrite Htest_csv. py.
  simpl fst; simpl snd. rewrite Htrain. py. rewrite Htest. py.
  simpl fst; simpl snd. rewrite Hy_train. py. rewrite Hy_test. py.
  reflexivity.
Qed.

(** C2, as amended.  The three providers that split one table
    ([DefaultCreditCardDataset], [StatlogAustralianDataset],
    [StatlogGermanDataset]), on a cached file that parses to a table of
    at least two rows: [get] returns [((X_train, y_train), (X_test,
    y_test))], the rows taken at positions [ind_train] and [ind_test] of
    the table, which together are a permutation of all its positions (so
    the two parts are disjoint and their sizes add up to the size of the
    table), the test part having [ceil(n / 4)] rows.  [AdultDataset], on
    its two cached files: [get] returns a pair of pairs whose first
    component is made of all the rows of [adult.data] and whose second of
    all the rows of [adult.test], whatever their numbers. *)
Theorem get_returns_split_or_files (w : World) :
  (forall (p : provider) (file : string) (X : DataFrame) (y : Series),
     splits p = true ->
     files w !! checked_path p = Some file ->
     table_of p file = Ok (X, y) ->
     (2 <= length (rows X))%nat ->
     let n := length (rows X) in
     exists ind_train ind_test,
       get p w =
         (Ok (PTuple [PTuple [PFrame (iloc ind_train X);
                              PSeries (iloc_series ind_train y)];
                      PTuple [PFrame (iloc ind_test X);
                              PSeries (iloc_series ind_test y)]]),
          set_draws (draws w + n)%nat w) /\
       (ind_test ++ ind_train)%list ≡ₚ seq 0 n /\
       length (rows (iloc ind_test X)) = n_test_of n /\
       (length (rows (iloc ind_train X)) +
        length (rows (iloc ind_test X)) = n)%nat /\
       (n <= 4 * n_test_of n < n + 4)%nat) /\
  (forall (file_train file_test : string)
          (df_train df_test X_train X_test : DataFrame)
          (l_train l_test : Series) (y_train y_test : list json),
     files w !! joinpath workdir ["adult.data"] = Some file_train ->
     read_csv ", " 0 file_train = Ok df_train ->
     files w !! joinpath workdir ["adult.test"] = Some file_test ->
     read_csv ", " 1 file_test = Ok df_test ->
     parse_dataset df_train = Ok (X_train, l_train) ->
     parse_dataset df_test = Ok (X_test, l_test) ->
     label_transform (label_classes (map snd (s_rows l_train)))
       (map snd (s_rows l_train)) = Ok y_train ->
     label_transform (label_classes (map snd (s_rows l_train)))
       (map (fun r => str_drop_last (snd r)) (s_rows l_test)) = Ok y_test ->
     get Adult w =
       (Ok (PTuple [PTuple [PFrame X_train; PArray y_train];
                    PTuple [PFrame X_test; PArray y_test]]), w) /\
     length (rows X_train) = length (rows df_train) /\
     length y_train = length (rows df_train) /\
     length (rows X_test) = length (rows df_test) /\
     length y_test = length (rows df_test)).
Proof.
  split.
  - intros p file X y Hsplits Hfile Htable Hrows.
    exact (get_splits p w file X y Hsplits Hfile Htable Hrows).
  - intros. eapply get_adult; eassumption.
Qed.

End DatasetProviders.

Lemma download_only_when_absent_witness :
  trace (snd (@get demo_env demo_network demo_parsers demo_random
                Adult demo_data_world)) =
  (trace demo_data_world ++
   if bool_decide (is_Some (files demo_data_world
                              !! @checked_path demo_env Adult))
   then [] else @fetch_events demo_env (class_of Adult))%list.
Proof.
  apply (@download_only_when_absent demo_env demo_network demo_parsers
           demo_random Adult demo_data_world).
  intros _. repeat constructor.
Defined.

Lemma adult_second_file_missing_witness :
  @get demo_env demo_network demo_parsers demo_random Adult
    (demo_world [("/home/user/data/adult.data", "adult train")]) =
  (Raise FileNotFoundError,
   demo_world [("/home/user/data/adult.data", "adult train")]).
Proof.
  apply (@adult_second_file_missing demo_env demo_network demo_parsers
           demo_random
           (demo_world [("/home/user/data/adult.data", "adult train")])
           "adult train" (demo_table ["<=50K"])).
  - reflexivity.
  - reflexivity.
  - reflexivity.
Defined.

(** C2 fails as stated.  [AdultDataset.get], on a training file of one
    row and a test file of three, returns one row for training and three
    for testing, not a quarter; [SteelPlatesFaultsDataset.get] and
    [SeismicBumps.get] return the table they parsed, not a pair. *)
Lemma get_is_not_always_a_quarter_split :
  @get demo_env demo_network demo_parsers demo_random Adult demo_data_world
    = (Ok demo_adult_result, demo_data_world) /\
  @get demo_env demo_network demo_parsers demo_random
    SteelPlatesFaults demo_data_world
    = (Ok (PFrame (demo_table ["a"; "b"])), demo_data_world) /\
  @get demo_env demo_network demo_parsers demo_random Seismic demo_data_world
    = (Ok (PFrame (demo_table ["0"; "1"])), demo_data_world).
Proof. repeat split; vm_compute; reflexivity. Qed.

Lemma get_returns_split_or_files_witness :
  exists v w',
    @get demo_env demo_network demo_parsers demo_random
      StatlogAustralian demo_data_world = (Ok v, w').
Proof.
  destruct (proj1 (@get_returns_split_or_files demo_env demo_network
                     demo_parsers demo_random demo_data_world)
              StatlogAustralian "eight rows" _ _ eq_refl eq_refl eq_refl)
    as (ind_train & ind_test & Hget & _).
  - simpl. lia.
  - eauto.
Defined.

(** * The results aggregator *)

Lemma strip_prefix_app (p s : string) : strip_prefix p (p +:+ s) = Some s.
Proof.
  induction p as [|a p IH]; simpl.
  - destruct s; reflexivity.
  - rewrite Ascii.eqb_refl. exact IH.
Qed.

Lemma span_alnum_app (d : string) (c : ascii) (rest : string) :
  forallb is_alnum (list_ascii_of_string d) = true ->
  is_alnum c = false ->
  span is_alnum (d +:+ String c rest) = (d, String c rest).
Proof.
  intros Hd Hc. induction d as [|a d IH]; simpl in *.
  - rewrite Hc. reflexivity.
  - apply andb_prop in Hd as [Ha Hd]. rewrite Ha, (IH Hd). reflexivity.
Qed.

Lemma strip_alnums_app (d : string) (c : ascii) (rest : string) :
  alnum_name d = true -> is_alnum c = false ->
  strip_alnums (d +:+ String c rest) = Some (d, String c rest).
Proof.
  unfold alnum_name, strip_alnums. intros Hd Hc.
  apply andb_prop in Hd as [Hne Hd].
  rewrite (span_alnum_app d c rest Hd Hc).
  destruct d; [discriminate | reflexivity].
Qed.

Lemma existsb_eqb_elem (k : string) (l : list string) :
  existsb (String.eqb k) l = true <-> k ∈ l.
Proof.
  rewrite existsb_exists. split.
  - intros (x & Hx & Heq). apply String.eqb_eq in Heq. subst.
    apply list_elem_of_In. exact Hx.
  - intros Hk. exists k. split; [apply list_elem_of_In; exact Hk|].
    apply String.eqb_refl.
Qed.

Lemma add_keys_keeps (cols : list string) (r : list (string * json)) (k : string) :
  k ∈ cols -> k ∈ add_keys cols r.
Proof.
  unfold add_keys. revert cols. induction r as [|[k' v] r IH]; intros cols Hk; simpl.
  - exact Hk.
  - apply IH. destruct (existsb _ cols); [exact Hk|].
    apply elem_of_app. left. exact Hk.
Qed.

Lemma add_keys_adds (cols : list string) (r : list (string * json)) (k : string) :
  is_Some (assoc k r) -> k ∈ add_keys cols r.
Proof.
  unfold add_keys. revert cols. induction r as [|[k' v] r IH]; intros cols; simpl.
  - intros [x Hx]. discriminate.
  - destruct (String.eqb k k') eqn:E.
    + intros _. apply String.eqb_eq in E. subst k'.
      apply add_keys_keeps.
      destruct (existsb (String.eqb k) cols) eqn:Hex.
      * apply existsb_eqb_elem. exact Hex.
      * apply elem_of_app. right. constructor.
    + intros Hk. apply IH. exact Hk.
Qed.

Lemma fold_add_keys_keeps (records : list (list (string * json)))
    (cols : list string) (k : string) :
  k ∈ cols -> k ∈ fold_left add_keys records cols.
Proof.
  revert cols. induction records as [|r records IH]; intros cols Hk; simpl.
  - exact Hk.
  - apply IH. apply add_keys_keeps. exact Hk.
Qed.

Lemma fold_add_keys_adds (records : list (list (string * json)))
    (cols : list string) (k : string) :
  Exists (fun r => is_Some (assoc k r)) records ->
  k ∈ fold_left add_keys records cols.
Proof.
  intros Hex. revert cols. induction Hex as [r records Hr | r records _ IH];
    intros cols; simpl.
  - apply fold_add_keys_keeps. apply add_keys_adds. exact Hr.
  - apply IH.
Qed.

Lemma find_index_label (k : string) (cols : list string) :
  k ∈ cols ->
  exists i, find_index (py_eq (JStr k)) (map JStr cols) = Some i /\
            cols !! i = Some k.
Proof.
  induction cols as [|c cols IH]; intros Hk.
  - inversion Hk.
  - cbn [map find_index].
    change (py_eq (JStr k) (JStr c)) with (String.eqb k c).
    destruct (String.eqb k c) eqn:E.
    + apply String.eqb_eq in E. subst c. exists O. split; reflexivity.
    + assert (Hin : k ∈ cols).
      { apply elem_of_cons in Hk as [->|Hk]; [|exact Hk].
        rewrite String.eqb_refl in E. discriminate. }
      destruct (IH Hin) as (i & Hi & Hl). exists (S i).
      rewrite Hi. split; [reflexivity | exact Hl].
Qed.

Lemma nth_map_lookup {A B} (f : A -> B) (l : list A) (i : nat) (x : A) (d : B) :
  l !! i = Some x -> nth i (map f l) d = f x.
Proof.
  intros Hl. rewrite nth_lookup, list_lookup_fmap, Hl. reflexivity.
Qed.

Lemma select_frame_of_records (labels : list string)
    (records : list (list (string * json))) :
  Forall (fun k => Exists (fun r => is_Some (assoc k r)) records) labels ->
  select_columns labels (frame_of_records records) =
  Ok (mkFrame (map JStr labels)
        (imap (fun i r => (Z.of_nat i,
                           map (fun k => default nan (assoc k r)) labels))
              records)).
Proof.
  intros Hlabels. unfold select_columns, frame_of_records.
  set (cols := fold_left add_keys records []).
  assert (Hpos : exists positions,
    map_res (column_position
               (mkFrame (map JStr cols)
                  (imap (fun i r => (Z.of_nat i,
                           map (fun c => default nan (assoc c r)) cols))
                        records))) labels = Ok positions /\
    Forall2 (fun k i => cols !! i = Some k) labels positions).
  { induction Hlabels as [|k labels Hk _ IH].
    - exists []. split; [reflexivity | constructor].
    - destruct IH as (positions & Hmap & Hall).
      destruct (find_index_label k cols) as (i & Hi & Hl).
      { apply fold_add_keys_adds. exact Hk. }
      exists (i :: positions). split; [|constructor; assumption].
      simpl. unfold column_position at 1, column_index. cbn [columns].
      rewrite Hi, Hmap. reflexivity. }
  destruct Hpos as (positions & Hmap & Hall).
  rewrite Hmap. f_equal. f_equal. cbn [rows].
  change (map ?f ?l) with (f <$> l) at 1. rewrite fmap_imap.
  apply imap_ext. intros i r _. simpl. f_equal.
  clear Hmap Hlabels. induction Hall as [|k j labels positions Hkj _ IH]; simpl.
  - reflexivity.
  - rewrite (nth_map_lookup _ _ _ _ _ Hkj), IH. reflexivity.
Qed.

Lemma assoc_dict_set (k k' : string) (v : json) (l : list (string * json)) :
  assoc k (dict_set k' v l) = if String.eqb k k' then Some v else assoc k l.
Proof.
  induction l as [|[k0 v0] l IH]; simpl.
  - destruct (String.eqb k k'); reflexivity.
  - destruct (String.eqb k' k0) eqn:E0; simpl.
    + apply String.eqb_eq in E0. subst k0.
      destruct (String.eqb k k'); reflexivity.
    + destruct (String.eqb k k0) eqn:E1.
      * apply String.eqb_eq in E1. subst k0.
        rewrite String.eqb_sym, E0. reflexivity.
      * exact IH.
Qed.

Section AggregatorFacts.

Context `{Config} `{JsonCodec} `{Builtins}.

Lemma pattern_match_result_path (dataset model : string) :
  RESULTS_DIR = "results" ->
  alnum_name dataset = true -> alnum_name model = true ->
  pattern_match (result_path dataset model) = Some (dataset, model).
Proof.
  intros Hdir Hd Hm. unfold pattern_match, result_path. rewrite Hdir.
  rewrite strip_prefix_app. cbn [mbind option_bind].
  change (strip_prefix "/" ("/" +:+ dataset +:+ "/" +:+ model +:+ "/evaluation.json"))
    with (Some (dataset +:+ "/" +:+ model +:+ "/evaluation.json")).
  cbn [mbind option_bind].
  change ("/" +:+ model +:+ "/evaluation.json")
    with (String "/"%char (model +:+ "/evaluation.json")).
  rewrite (strip_alnums_app dataset) by (assumption || reflexivity).
  cbn [mbind option_bind].
  change (strip_prefix "/" (String "/" (model +:+ "/evaluation.json")))
    with (Some (model +:+ "/evaluation.json")).
  cbn [mbind option_bind].
  change (model +:+ "/evaluation.json")
    with (model +:+ String "/"%char "evaluation.json").
  rewrite (strip_alnums_app model) by (assumption || reflexivity).
  reflexivity.
Qed.

Lemma format_hp_items (kvs : list (string * json)) (texts : list string) :
  map_res describe_value (map snd kvs) = Ok texts ->
  map_res format_hp_item kvs =
  Ok (zip_with (fun kv text => fst kv +:+ "=" +:+ text) kvs texts).
Proof.
  revert texts. induction kvs as [|[k v] kvs IH]; intros texts; simpl.
  - intros [= <-]. reflexivity.
  - unfold describe_value at 1.
    destruct (stringified v).
    + destruct (map_res describe_value (map snd kvs)) as [ts|]; [|discriminate].
      intros [= <-]. rewrite (IH ts eq_refl). reflexivity.
    + destruct (format_f 2 v) as [t|]; [|discriminate].
      destruct (map_res describe_value (map snd kvs)) as [ts|]; [|discriminate].
      intros [= <-]. rewrite (IH ts eq_refl). reflexivity.
Qed.

Lemma load_result_entry (w : World) (path : string) (e : entry) :
  RESULTS_DIR = "results" ->
  stored_entry w path e ->
  load_result path w = (Ok (record_of e), w).
Proof.
  intros Hdir (-> & Hd & Hm & content & Hfile & Hloads & Hhp & Htexts).
  unfold load_result.
  rewrite (pattern_match_result_path _ _ Hdir Hd Hm). py.
  rewrite (run_read _ _ _ Hfile). py. rewrite Hloads. py.
  unfold getitem. rewrite Hhp. py.
  unfold flatten_hp. rewrite (format_hp_items _ _ Htexts). py.
  reflexivity.
Qed.

Lemma map_m_load_result (w : World) (paths : list string) (entries : list entry) :
  RESULTS_DIR = "results" ->
  Forall2 (stored_entry w) paths entries ->
  map_m load_result paths w = (Ok (map record_of entries), w).
Proof.
  intros Hdir Hall. induction Hall as [|path e paths entries He _ IH]; simpl.
  - reflexivity.
  - py. rewrite (load_result_entry w path e Hdir He). py.
    rewrite IH. py. reflexivity.
Qed.

Lemma record_of_row (e : entry) :
  map (fun k => default nan (assoc k (record_of e))) result_columns =
  entry_row e.
Proof.
  unfold record_of, result_columns, entry_row, entry_cell.
  cbn [map]. rewrite !assoc_dict_set. reflexivity.
Qed.

Lemma record_of_has (e : entry) (k : string) :
  k ∈ result_columns ->
  (k ∈ passed_columns -> is_Some (assoc k (e_fields e))) ->
  is_Some (assoc k (record_of e)).
Proof.
  intros Hk Hpassed. unfold record_of. rewrite !assoc_dict_set.
  unfold result_columns, passed_columns in *.
  repeat (apply elem_of_cons in Hk as [->|Hk];
          [first [ by eexists | apply Hpassed; set_solver ] |]).
  inversion Hk.
Qed.

(** C3, as amended.  With [RESULTS_DIR] being [results]: let every file
    the glob [results/*/*/evaluation.json] returns lie in directories
    with alphanumeric names, hold an object with an [hp] mapping whose
    values can each be shown (strings, lists and [None] as [str] gives
    them, every other value with two decimals), and let each of the
    copied columns occur in some file.  Then [get_results_table] returns
    a table with one row per file, in the order of the glob; the
    [dataset] and [model] of a row are the two directory names of its
    file, and its [hp] is the list of [key=text] items joined by
    commas. *)
Theorem get_results_table_rows (entries : list entry) (w : World)
    (Hdir : RESULTS_DIR = "results")
    (Hfiles : Forall2 (stored_entry w) (matched_files w) entries)
    (Hcolumns :
       Forall (fun k => Exists (fun e => is_Some (assoc k (e_fields e))) entries)
              passed_columns) :
  get_results_table w =
  (Ok (mkFrame (map JStr result_columns)
         (imap (fun i e => (Z.of_nat i, entry_row e)) entries)), w).
Proof.
  unfold get_results_table, glob_results. py.
  rewrite (map_m_load_result w _ _ Hdir Hfiles). py.
  rewrite select_frame_of_records.
  - f_equal. f_equal. f_equal.
    change (map record_of entries) with (record_of <$> entries).
    rewrite imap_fmap. apply imap_ext. intros i e _.
    unfold compose. cbv beta. f_equal. apply record_of_row.
  - assert (Hsome : exists e0, e0 ∈ entries).
    { apply Forall_cons in Hcolumns as [Hex _].
      apply Exists_exists in Hex as (e0 & He0 & _). eauto. }
    destruct Hsome as [e0 He0].
    apply Forall_forall. intros k Hk.
    destruct (decide (k ∈ passed_columns)) as [Hp|Hp].
    + rewrite Forall_forall in Hcolumns. specialize (Hcolumns k Hp).
      apply Exists_exists in Hcolumns as (e & He & Hke).
      apply Exists_exists. exists (record_of e). split.
      * apply list_elem_of_fmap. eauto.
      * apply record_of_has; auto.
    + apply Exists_exists. exists (record_of e0). split.
      * apply list_elem_of_fmap. eauto.
      * apply record_of_has; [exact Hk | intros Hp'; contradiction].
Qed.

End AggregatorFacts.

Lemma get_results_table_rows_witness :
  @get_results_table demo_config demo_codec demo_builtins
    (demo_world [("results/DemoData/DemoModel/evaluation.json", "stored 2")])
  = (Ok (mkFrame (map JStr result_columns) [(0, entry_row demo_entry)]),
     demo_world [("results/DemoData/DemoModel/evaluation.json", "stored 2")]).
Proof.
  apply (@get_results_table_rows demo_config demo_codec demo_builtins
           [demo_entry]).
  - reflexivity.
  - assert (Hfiles :
      matched_files
        (demo_world [("results/DemoData/DemoModel/evaluation.json", "stored 2")])
      = ["results/DemoData/DemoModel/evaluation.json"])
      by (vm_compute; reflexivity).
    rewrite Hfiles. constructor; [|constructor].
    split; [reflexivity|]. split; [reflexivity|]. split; [reflexivity|].
    exists "stored 2". repeat split; reflexivity.
  - unfold passed_columns.
    repeat (constructor; [constructor; eexists; reflexivity|]).
    constructor.
Defined.

(** C3 fails as stated.  One [evaluation.json] in a directory named
    [my_data]: the pattern does not match its path and the call ends with
    an error instead of a table of one row.  One [evaluation.json] whose
    [hp] holds a nested mapping: the value is neither stringified nor
    formatted, the call ends with a type error. *)
Lemma get_results_table_needs_plain_names_and_values :
  @get_results_table demo_config demo_codec demo_builtins
    (demo_world [("results/my_data/DemoModel/evaluation.json", "stored 2")])
  = (Raise AttributeError,
     demo_world [("results/my_data/DemoModel/evaluation.json", "stored 2")]) /\
  @get_results_table demo_config demo_codec demo_builtins
    (demo_world [("results/DemoData/DemoModel/evaluation.json", "nested")])
  = (Raise TypeError,
     demo_world [("results/DemoData/DemoModel/evaluation.json", "nested")]).
Proof. split; vm_compute; reflexivity. Qed.

(** A boolean hyperparameter is not stringified either: it is formatted
    as the number it is. *)
Example get_results_table_formats_booleans :
  exists df,
    fst (@get_results_table demo_config demo_codec demo_builtins
           (demo_world [("results/DemoData/DemoModel/evaluation.json", "flagged")]))
    = Ok df /\
    get_column "hp" df = Ok [JStr "bootstrap=1.00,loss=linear"].
Proof. eexists. split; vm_compute; reflexivity. Qed.

(** With no result file at all there is no table: selecting the columns
    of the empty table fails. *)
Example get_results_table_without_files :
  fst (@get_results_table demo_config demo_codec demo_builtins (demo_world []))
  = Raise (KeyError "dataset").
Proof. vm_compute. reflexivity. Qed.

(** * The ranking *)

Lemma find_index_Some {A} (p : A -> bool) (l : list A) (i : nat) :
  find_index p l = Some i -> (i < length l)%nat.
Proof.
  revert i. induction l as [|x l IH]; intros i; simpl; [discriminate|].
  destruct (p x).
  - intros [= <-]. lia.
  - destruct (find_index p l) as [j|]; simpl; [|discriminate].
    intros [= <-]. specialize (IH j eq_refl). lia.
Qed.

Lemma find_index_app_new {A} (p : A -> bool) (l : list A) (x : A) :
  find_index p l = None -> p x = true ->
  find_index p (l ++ [x]) = Some (length l).
Proof.
  induction l as [|y l IH]; simpl; intros Hn Hx.
  - rewrite Hx. reflexivity.
  - destruct (p y); [discriminate|].
    destruct (find_index p l); [discriminate|].
    rewrite IH by done. reflexivity.
Qed.

Lemma find_index_app_old {A} (p : A -> bool) (l l' : list A) (i : nat) :
  find_index p l = Some i -> find_index p (l ++ l') = Some i.
Proof.
  revert i. induction l as [|y l IH]; simpl; intros i; [discriminate|].
  destruct (p y); [done|].
  destruct (find_index p l) as [j|]; [|discriminate].
  intros [= <-]. rewrite (IH j eq_refl). reflexivity.
Qed.

Lemma get_column_length (label : string) (df : DataFrame) (values : list json) :
  get_column label df = Ok values -> length values = length (rows df).
Proof.
  unfold get_column. destruct (column_position df label); [|discriminate].
  intros [= <-]. apply length_map.
Qed.

Lemma py_eq_str (s : string) : py_eq (JStr s) (JStr s) = true.
Proof. simpl. apply String.eqb_refl. Qed.

Lemma set_column_read (label : string) (values : list json) (df : DataFrame) :
  well_formed df -> length values = length (rows df) ->
  get_column label (set_column label values df) = Ok values.
Proof.
  intros Hwf Hlen. unfold set_column, get_column, column_position.
  destruct (column_index label df) as [i|] eqn:Hi.
  - unfold column_index in *. cbn [columns rows]. rewrite Hi. f_equal.
    apply find_index_Some in Hi.
    revert values Hlen. induction Hwf as [|r rs Hr _ IH]; intros [|v vs] Hlen;
      simpl in *; try discriminate; [reflexivity|].
    f_equal; [|apply IH; lia].
    rewrite nth_lookup, list_lookup_insert_eq by lia. reflexivity.
  - unfold column_index in *. cbn [columns rows].
    rewrite (find_index_app_new _ _ _ Hi (py_eq_str label)). f_equal.
    revert values Hlen. induction Hwf as [|r rs Hr _ IH]; intros [|v vs] Hlen;
      simpl in *; try discriminate; [reflexivity|].
    f_equal; [|apply IH; lia].
    rewrite <- Hr, nth_lookup, lookup_app_r by lia.
    rewrite Nat.sub_diag. reflexivity.
Qed.

Lemma set_column_changes (label : string) (values : list json) (df : DataFrame) :
  column_index label df = None -> set_column label values df <> df.
Proof.
  intros Hi Heq. unfold set_column in Heq. rewrite Hi in Heq.
  apply (f_equal (fun d => length (columns d))) in Heq. simpl in Heq.
  rewrite length_app in Heq. simpl in Heq. lia.
Qed.

(** ** The order of the scores and the ranks *)

Local Close Scope string_scope.

Lemma Zcompare_mul_pos (a b p : Z) : 0 < p -> (a * p ?= b * p) = (a ?= b).
Proof.
  intros Hp. destruct (Z.compare_spec a b) as [->|Hlt|Hgt].
  - apply Z.compare_refl.
  - apply Z.compare_lt_iff. nia.
  - apply Z.compare_gt_iff. nia.
Qed.

Lemma dyadic_compare_scale (m1 e1 m2 e2 E : Z) :
  E <= e1 -> E <= e2 ->
  dyadic_compare m1 e1 m2 e2 = (m1 * 2 ^ (e1 - E) ?= m2 * 2 ^ (e2 - E)).
Proof.
  intros H1 H2. unfold dyadic_compare.
  set (e := Z.min e1 e2).
  assert (He : E <= e /\ e <= e1 /\ e <= e2) by (unfold e; lia).
  replace (e1 - E) with ((e1 - e) + (e - E)) by lia.
  replace (e2 - E) with ((e2 - e) + (e - E)) by lia.
  rewrite !Z.pow_add_r by lia. rewrite !Z.mul_assoc.
  rewrite Zcompare_mul_pos; [reflexivity|].
  apply Z.pow_pos_nonneg; lia.
Qed.

Lemma dyadic_compare_trans (c : comparison) (m1 e1 m2 e2 m3 e3 : Z) :
  dyadic_compare m1 e1 m2 e2 = c -> dyadic_compare m2 e2 m3 e3 = c ->
  dyadic_compare m1 e1 m3 e3 = c.
Proof.
  pose (E := Z.min (Z.min e1 e2) e3).
  assert (HE : E <= e1 /\ E <= e2 /\ E <= e3) by (unfold E; lia).
  rewrite (dyadic_compare_scale m1 e1 m2 e2 E) by tauto.
  rewrite (dyadic_compare_scale m2 e2 m3 e3 E) by tauto.
  rewrite (dyadic_compare_scale m1 e1 m3 e3 E) by tauto.
  destruct c; intros H12 H23.
  - apply Z.compare_eq_iff in H12, H23. apply Z.compare_eq_iff. lia.
  - pose proof (proj1 (Z.compare_lt_iff _ _) H12).
    pose proof (proj1 (Z.compare_lt_iff _ _) H23).
    apply Z.compare_lt_iff. lia.
  - pose proof (proj1 (Z.compare_gt_iff _ _) H12).
    pose proof (proj1 (Z.compare_gt_iff _ _) H23).
    apply Z.compare_gt_iff. lia.
Qed.

Lemma dyadic_compare_eq_gt (m1 e1 m2 e2 m3 e3 : Z) :
  dyadic_compare m1 e1 m2 e2 = Eq -> dyadic_compare m2 e2 m3 e3 = Gt ->
  dyadic_compare m1 e1 m3 e3 = Gt.
Proof.
  pose (E := Z.min (Z.min e1 e2) e3).
  assert (HE : E <= e1 /\ E <= e2 /\ E <= e3) by (unfold E; lia).
  rewrite (dyadic_compare_scale m1 e1 m2 e2 E) by tauto.
  rewrite (dyadic_compare_scale m2 e2 m3 e3 E) by tauto.
  rewrite (dyadic_compare_scale m1 e1 m3 e3 E) by tauto.
  intros H12 H23.
  apply Z.compare_eq_iff in H12.
  pose proof (proj1 (Z.compare_gt_iff _ _) H23).
  apply Z.compare_gt_iff. lia.
Qed.

Lemma dyadic_compare_refl (m e : Z) : dyadic_compare m e m e = Eq.
Proof. unfold dyadic_compare. apply Z.compare_refl. Qed.

Lemma num_gtb_trans (x s t : number) :
  num_gtb x s = true -> num_gtb s t = true -> num_gtb x t = true.
Proof.
  unfold num_gtb, num_compare.
  destruct (extended_of_number x) as [| | |m1 e1],
           (extended_of_number s) as [| | |m2 e2],
           (extended_of_number t) as [| | |m3 e3];
    simpl; try discriminate; try reflexivity.
  destruct (dyadic_compare m1 e1 m2 e2) eqn:H12; try discriminate.
  destruct (dyadic_compare m2 e2 m3 e3) eqn:H23; try discriminate.
  rewrite (dyadic_compare_trans Gt _ _ _ _ _ _ H12 H23). reflexivity.
Qed.

Lemma num_eqb_gtb (x s t : number) :
  num_eqb x s = true -> num_gtb s t = true -> num_gtb x t = true.
Proof.
  unfold num_gtb, num_eqb, num_compare.
  destruct (extended_of_number x) as [| | |m1 e1],
           (extended_of_number s) as [| | |m2 e2],
           (extended_of_number t) as [| | |m3 e3];
    simpl; try discriminate; try reflexivity.
  destruct (dyadic_compare m1 e1 m2 e2) eqn:H12; try discriminate.
  destruct (dyadic_compare m2 e2 m3 e3) eqn:H23; try discriminate.
  rewrite (dyadic_compare_eq_gt _ _ _ _ _ _ H12 H23). reflexivity.
Qed.

Lemma num_eqb_refl_of_gtb (s t : number) :
  num_gtb s t = true -> num_eqb t t = true.
Proof.
  unfold num_gtb, num_eqb, num_compare.
  destruct (extended_of_number s) as [| | |m1 e1],
           (extended_of_number t) as [| | |m2 e2];
    simpl; try discriminate; try reflexivity.
  all: intros _; rewrite dyadic_compare_refl; reflexivity.
Qed.

Lemma num_gtb_not_eqb (x s : number) :
  num_gtb x s = true -> num_eqb x s = false.
Proof.
  unfold num_gtb, num_eqb. destruct (num_compare x s) as [[]|]; done.
Qed.

Lemma count_if_cons {A} (p : A -> bool) (x : A) (l : list A) :
  count_if p (x :: l) = (if p x then 1 else 0) + count_if p l.
Proof.
  unfold count_if. rewrite filter_cons.
  destruct (decide (Is_true (p x))) as [Hp|Hp].
  - apply Is_true_true in Hp. rewrite Hp. simpl length. lia.
  - apply Is_true_false in Hp. rewrite Hp. lia.
Qed.

Lemma count_if_bounds {A} (p : A -> bool) (l : list A) :
  0 <= count_if p l <= Z.of_nat (length l).
Proof.
  induction l as [|x l IH]; [unfold count_if; simpl; lia|].
  rewrite count_if_cons. simpl length. destruct (p x); lia.
Qed.

Lemma count_greater_shift (group : list number) (s t : number) :
  num_gtb s t = true ->
  count_if (fun x => num_gtb x s) group + count_if (fun x => num_eqb x s) group
  <= count_if (fun x => num_gtb x t) group.
Proof.
  intros Hst. induction group as [|x group IH].
  - unfold count_if. simpl. lia.
  - rewrite !count_if_cons.
    destruct (num_gtb x s) eqn:Hgt.
    + rewrite (num_gtb_not_eqb _ _ Hgt), (num_gtb_trans _ _ _ Hgt Hst). lia.
    + destruct (num_eqb x s) eqn:Heq.
      * rewrite (num_eqb_gtb _ _ _ Heq Hst). lia.
      * destruct (num_gtb x t); lia.
Qed.

Lemma count_equal_member (group : list number) (t : number) :
  num_eqb t t = true -> t ∈ group ->
  1 <= count_if (fun x => num_eqb x t) group.
Proof.
  intros Ht Hin. induction Hin as [t group | t x group _ IH].
  - rewrite count_if_cons, Ht.
    pose proof (count_if_bounds (fun x => num_eqb x t) group). lia.
  - rewrite count_if_cons. specialize (IH Ht).
    destruct (num_eqb x t); lia.
Qed.

(** Within a group, a strictly greater score has a strictly smaller
    rank. *)
Lemma rank2_descending (group : list number) (s t : number) :
  num_gtb s t = true -> t ∈ group -> rank2 group s < rank2 group t.
Proof.
  intros Hst Hin. unfold rank2.
  pose proof (count_greater_shift group s t Hst).
  pose proof (count_equal_member group t (num_eqb_refl_of_gtb _ _ Hst) Hin).
  pose proof (count_if_bounds (fun x => num_eqb x s) group).
  lia.
Qed.

(** The rank of a member of a group of [n] scores lies between 1 and
    [n]. *)
Lemma rank2_bounds (group : list number) (s : number) :
  num_eqb s s = true -> s ∈ group ->
  2 <= rank2 group s <= 2 * Z.of_nat (length group).
Proof.
  intros Hs Hin. unfold rank2.
  pose proof (count_equal_member group s Hs Hin).
  pose proof (count_if_bounds (fun x => num_gtb x s) group).
  assert (Hsum : count_if (fun x => num_gtb x s) group +
                 count_if (fun x => num_eqb x s) group
                 <= Z.of_nat (length group)).
  { clear. induction group as [|x group IH]; [unfold count_if; simpl; lia|].
    rewrite !count_if_cons. simpl length.
    destruct (num_gtb x s) eqn:Hgt.
    - rewrite (num_gtb_not_eqb _ _ Hgt). lia.
    - destruct (num_eqb x s); lia. }
  lia.
Qed.

Lemma num_gtb_present (s t : number) :
  num_gtb s t = true ->
  is_missing (JNum s) = false /\ is_missing (JNum t) = false.
Proof.
  unfold num_gtb, num_compare.
  destruct s as [z|[]], t as [z'|[]];
    repeat match goal with b : bool |- _ => destruct b end;
    simpl; try discriminate; intros _; split; reflexivity.
Qed.

Lemma group_scores_member (key k : json) (s : number)
    (keys scores : list json) (j : nat) :
  keys !! j = Some k -> scores !! j = Some (JNum s) ->
  py_eq k key = true -> is_missing (JNum s) = false ->
  s ∈ group_scores key keys scores.
Proof.
  revert scores j. induction keys as [|k0 keys IH]; intros scores j Hk Hs Heq Hm.
  - discriminate.
  - destruct scores as [|s0 scores]; [discriminate|].
    destruct j as [|j]; simpl in Hk, Hs.
    + injection Hk as ->. injection Hs as ->.
      cbn [group_scores]. rewrite Heq, Hm. simpl. left.
    + specialize (IH scores j Hk Hs Heq Hm).
      cbn [group_scores]. destruct s0; try exact IH.
      destruct (py_eq k0 key && negb (is_missing (JNum n))); [right|]; exact IH.
Qed.

Lemma num_eqb_refl_of_gtb_l (s t : number) :
  num_gtb s t = true -> num_eqb s s = true.
Proof.
  unfold num_gtb, num_eqb, num_compare.
  destruct (extended_of_number s) as [| | |m1 e1],
           (extended_of_number t) as [| | |m2 e2];
    simpl; try discriminate; try reflexivity.
  all: intros _; rewrite dyadic_compare_refl; reflexivity.
Qed.

(** The float that [half] builds from an integer below [2^53] is exact:
    its mantissa and exponent give the integer divided by two. *)
Lemma digits2_pos_bound (p : positive) :
  Z.pos p < 2 ^ 53 -> Z.pos (digits2_pos p) <= 53.
Proof.
  intros Hp.
  assert (Hle : forall q, 2 ^ Z.pos (digits2_pos q) <= 2 * Z.pos q).
  { induction q as [q IH|q IH|]; cbn [digits2_pos];
      rewrite ?Pos2Z.inj_succ, ?Z.pow_succ_r by lia; lia. }
  specialize (Hle p).
  destruct (Z_le_gt_dec (Z.pos (digits2_pos p)) 53) as [|Hgt]; [assumption|exfalso].
  assert (H54 : 2 ^ 54 <= 2 ^ Z.pos (digits2_pos p)).
  { apply Z.pow_le_mono_r; lia. }
  lia.
Qed.

Lemma iter_xO_spec (n p : positive) :
  Z.pos (Pos.iter xO p n) = Z.pos p * 2 ^ Z.pos n /\
  Z.pos (digits2_pos (Pos.iter xO p n)) = Z.pos (digits2_pos p) + Z.pos n.
Proof.
  induction n as [|n IH] using Pos.peano_ind.
  - cbn [Pos.iter digits2_pos]. rewrite Pos2Z.inj_succ. lia.
  - rewrite Pos.iter_succ. cbn [digits2_pos].
    rewrite !Pos2Z.inj_succ, Z.pow_succ_r by lia.
    destruct IH as [IH1 IH2]. rewrite Pos2Z.inj_xO. lia.
Qed.

Lemma binary_round_aux_normal (m : positive) (e : Z) :
  Z.pos (digits2_pos m) = 53 -> -1074 <= e <= 971 ->
  binary_round_aux prec emax false (Z.pos m) e loc_Exact = S754_finite false m e.
Proof.
  intros Hm He.
  assert (Hshr : shr_fexp prec emax (Z.pos m) e loc_Exact =
                 ({| shr_m := Z.pos m; shr_r := false; shr_s := false |}, e)).
  { unfold shr_fexp, fexp, emin, Zdigits2, prec, emax. rewrite Hm.
    replace (Z.max (53 + e - 53) (3 - 1024 - 53) - e) with 0 by lia.
    reflexivity. }
  unfold binary_round_aux. rewrite Hshr.
  cbn [shr_m loc_of_shr_record round_nearest_even]. rewrite Hshr. cbn [shr_m].
  replace (e <=? emax - prec) with true; [reflexivity|].
  symmetry. apply Z.leb_le. unfold emax, prec. lia.
Qed.

Lemma half_exact (r : Z) :
  0 < r < 2 ^ 53 ->
  exists (m : positive) (e : Z),
    half r = S754_finite false m e /\ e <= -1 /\ Z.pos m = r * 2 ^ (- e - 1).
Proof.
  intros [Hpos Hlt]. destruct r as [|p|p]; try lia.
  pose proof (digits2_pos_bound p Hlt) as Hd.
  unfold half, binary_normalize, binary_round, shl_align, fexp, emin, prec, emax.
  replace (Z.max (Z.pos (digits2_pos p) + -1 - 53) (3 - 1024 - 53) - -1)
    with (Z.pos (digits2_pos p) - 53) by lia.
  replace (Z.max (Z.pos (digits2_pos p) + -1 - 53) (3 - 1024 - 53))
    with (Z.pos (digits2_pos p) - 54) by lia.
  destruct (Z.pos (digits2_pos p) - 53) as [|n|n] eqn:Hn; try lia.
  - exists p, (-1). split; [|split]; try lia.
    apply binary_round_aux_normal; lia.
  - destruct (iter_xO_spec n p) as [Hv Hdig].
    exists (Pos.iter xO p n), (Z.pos (digits2_pos p) - 54). split; [|split].
    + apply binary_round_aux_normal; lia.
    + lia.
    + rewrite Hv. f_equal. f_equal. lia.
Qed.

Lemma group_scores_length (key : json) (keys scores : list json) :
  (length (group_scores key keys scores) <= length keys)%nat.
Proof.
  revert scores. induction keys as [|k keys IH]; intros scores; [simpl; lia|].
  destruct scores as [|s scores]; [simpl; lia|].
  specialize (IH scores). cbn [group_scores length].
  destruct s; try lia.
  destruct (py_eq k key && negb (is_missing (JNum n))); cbn [length]; lia.
Qed.

(** The rank cell of a scored row, as the float stored: its mantissa and
    exponent give half of twice the rank, exactly. *)
Lemma rank_cell_exact (datasets scores : list json) (i : nat)
    (d : string) (s : number) :
  Z.of_nat (length datasets) < 2 ^ 52 ->
  datasets !! i = Some (JStr d) -> scores !! i = Some (JNum s) ->
  is_missing (JNum s) = false -> num_eqb s s = true ->
  exists (m : positive) (e : Z),
    zip_with (rank_cell datasets scores) datasets scores !! i
      = Some (JNum (NFloat (S754_finite false m e))) /\
    e <= -1 /\
    Z.pos m = rank2 (group_scores (JStr d) datasets scores) s * 2 ^ (- e - 1) /\
    2 <= rank2 (group_scores (JStr d) datasets scores) s
      <= 2 * Z.of_nat (length (group_scores (JStr d) datasets scores)).
Proof.
  intros Hsmall Hk Hs Hm Hrefl.
  set (group := group_scores (JStr d) datasets scores).
  assert (Hbounds : 2 <= rank2 group s <= 2 * Z.of_nat (length group)).
  { apply rank2_bounds; [exact Hrefl|].
    apply (group_scores_member _ (JStr d) _ _ _ i); try assumption.
    simpl. apply String.eqb_refl. }
  pose proof (group_scores_length (JStr d) datasets scores) as Hlen.
  fold group in Hlen.
  destruct (half_exact (rank2 group s)) as (m & e & Hhalf & He & Hv).
  { split; [lia|].
    apply Z.le_lt_trans with (2 * Z.of_nat (length datasets)); [lia|].
    change (2 ^ 53) with (2 * 2 ^ 52). lia. }
  exists m, e. split; [|split; [exact He|split; [exact Hv|exact Hbounds]]].
  rewrite lookup_zip_with, Hk, Hs. cbn [mbind option_bind].
  unfold rank_cell. rewrite Hm. fold group. rewrite Hhalf. reflexivity.
Qed.

Local Open Scope string_scope.

Section RankingFacts.
Context `{Config} `{JsonCodec} `{Builtins}.

(** C9.  [get_model_ranking] on a reference to a well-formed table (of
    fewer than [2^52] rows) with a [dataset] column and a numeric [score]
    column: after the call, whether or not the rest of it succeeds, the
    store holds at that reference the table with the column [model_rank]
    set to the ranks of the scores within their dataset (descending, ties
    averaged); reading that column gives those ranks; if the table had no
    [model_rank] column, the table now stored differs from the one passed
    in; and of two rows of one dataset, the one with the strictly greater
    score has the strictly smaller rank: the two cells stored are the
    floats [m_i * 2^e_i] and [m_j * 2^e_j], whose values are [r_i / 2] and
    [r_j / 2] for integers [r_i < r_j], [r] being one more than twice the
    number of greater scores of the dataset plus the number of equal
    ones. *)
Theorem get_model_ranking_adds_rank_column
    (results : nat) (df : DataFrame) (datasets scores : list json) (w : World)
    (Hdf : store w !! results = Some df)
    (Hwf : well_formed df)
    (Hsmall : (Z.of_nat (length (rows df)) < 2 ^ 52)%Z)
    (Hdatasets : get_column "dataset" df = Ok datasets)
    (Hscores : get_column "score" df = Ok scores)
    (Hnumeric : forallb numeric_cell scores = true) :
  let ranks := zip_with (rank_cell datasets scores) datasets scores in
  let ranked := set_column "model_rank" ranks df in
  snd (get_model_ranking results w) =
    set_store (<[results := ranked]> (store w)) w /\
  get_column "model_rank" ranked = Ok ranks /\
  (column_index "model_rank" df = None -> ranked <> df) /\
  (forall (i j : nat) (d : string) (s_i s_j : number),
     datasets !! i = Some (JStr d) -> datasets !! j = Some (JStr d) ->
     scores !! i = Some (JNum s_i) -> scores !! j = Some (JNum s_j) ->
     num_gtb s_i s_j = true ->
     exists (m_i m_j : positive) (e_i e_j r_i r_j : Z),
       ranks !! i = Some (JNum (NFloat (S754_finite false m_i e_i))) /\
       ranks !! j = Some (JNum (NFloat (S754_finite false m_j e_j))) /\
       (e_i <= -1 /\ Z.pos m_i = r_i * 2 ^ (- e_i - 1))%Z /\
       (e_j <= -1 /\ Z.pos m_j = r_j * 2 ^ (- e_j - 1))%Z /\
       r_i = rank2 (group_scores (JStr d) datasets scores) s_i /\
       r_j = rank2 (group_scores (JStr d) datasets scores) s_j /\
       (r_i < r_j)%Z).
Proof.
  intros ranks ranked.
  assert (Hlen : length ranks = length (rows df)).
  { unfold ranks. rewrite length_zip_with.
    apply get_column_length in Hdatasets, Hscores. lia. }
  assert (Hsmall' : (Z.of_nat (length datasets) < 2 ^ 52)%Z).
  { apply get_column_length in Hdatasets. rewrite Hdatasets. exact Hsmall. }
  split; [|split; [|split]].
  - unfold get_model_ranking, deref, assign, group_rank. py.
    rewrite Hdf. py. rewrite Hdatasets. py. rewrite Hscores. py.
    rewrite Hnumeric. py. fold ranks. fold ranked. world_simpl.
    rewrite lookup_insert_eq.
    destruct (select_columns _ ranked); py; [|reflexivity].
    destruct (get_column "model" ranked); py; [|reflexivity].
    destruct (get_column "model_rank" ranked); py; reflexivity.
  - apply set_column_read; assumption.
  - apply set_column_changes.
  - intros i j d s_i s_j Hki Hkj Hsi Hsj Hgt.
    destruct (num_gtb_present _ _ Hgt) as [Hmi Hmj].
    destruct (rank_cell_exact datasets scores i d s_i Hsmall' Hki Hsi Hmi
                (num_eqb_refl_of_gtb_l _ _ Hgt))
      as (m_i & e_i & Hci & Hei & Hvi & _).
    destruct (rank_cell_exact datasets scores j d s_j Hsmall' Hkj Hsj Hmj
                (num_eqb_refl_of_gtb _ _ Hgt))
      as (m_j & e_j & Hcj & Hej & Hvj & _).
    exists m_i, m_j, e_i, e_j,
      (rank2 (group_scores (JStr d) datasets scores) s_i),
      (rank2 (group_scores (JStr d) datasets scores) s_j).
    split; [exact Hci|]. split; [exact Hcj|].
    split; [split; [exact Hei|exact Hvi]|].
    split; [split; [exact Hej|exact Hvj]|].
    split; [reflexivity|]. split; [reflexivity|].
    apply rank2_descending; [exact Hgt|].
    apply (group_scores_member _ (JStr d) _ _ _ j); try assumption.
    simpl. apply String.eqb_refl.
Qed.
End RankingFacts.

Lemma get_model_ranking_adds_rank_column_witness :
  snd (get_model_ranking 0 demo_store_world) =
  set_store (<[0%nat := demo_ranked]> (store demo_store_world)) demo_store_world.
Proof.
  assert (Hwf : well_formed demo_results) by (repeat constructor).
  exact (proj1 (get_model_ranking_adds_rank_column 0 demo_results
                  [JStr "D1"; JStr "D1"; JStr "D2"]
                  [JNum (NInt 3); JNum (NInt 5); JNum (NInt 1)]
                  demo_store_world eq_refl Hwf eq_refl eq_refl eq_refl eq_refl)).
Defined.

(** * Further properties of the orchestrator *)

Lemma writes_within_same {A} allowed (c : M A) :
  (forall w, files (snd (c w)) = files w) -> writes_within allowed c.
Proof. intros Hc w. rewrite Hc. split; auto. Qed.

Lemma writes_within_bind {A B} allowed (c : M A) (k : A -> M B) :
  writes_within allowed c -> (forall a, writes_within allowed (k a)) ->
  writes_within allowed (bind c k).
Proof.
  intros Hc Hk w. unfold bind. specialize (Hc w).
  destruct (c w) as [[a|e] w1]; simpl in Hc; [|exact Hc].
  destruct Hc as [Hc1 Hc2]. destruct (Hk a w1) as [Hk1 Hk2]. split.
  - intros p Hp. rewrite Hk1, Hc1; auto.
  - intros p Hp. auto.
Qed.

Lemma writes_within_try {A} allowed (c : M A) handles (h : M A) :
  writes_within allowed c -> writes_within allowed h ->
  writes_within allowed (try_except c handles h).
Proof.
  intros Hc Hh w. unfold try_except. specialize (Hc w).
  destruct (c w) as [[a|e] w1]; simpl in Hc; [exact Hc|].
  destruct (handles e); [|exact Hc].
  destruct Hc as [Hc1 Hc2]. destruct (Hh w1) as [Hh1 Hh2]. split.
  - intros p Hp. rewrite Hh1, Hc1; auto.
  - intros p Hp. auto.
Qed.

Lemma writes_within_call {A} allowed (c : Ext A) : writes_within allowed (call c).
Proof.
  apply writes_within_same. intros w. unfold call.
  destruct (c (clock w)) as [r t]. destruct (alarm w) as [d|]; [|reflexivity].
  destruct (SFltb d t); reflexivity.
Qed.

Lemma writes_within_write allowed (path content : string) :
  allowed path -> writes_within allowed (write_file path content).
Proof.
  intros Hpath w. unfold write_file. simpl. split.
  - intros p Hp. apply lookup_insert_ne. intros ->. contradiction.
  - intros p Hp. destruct (decide (path = p)) as [->|Hne].
    + rewrite lookup_insert_eq. eauto.
    + rewrite lookup_insert_ne by done. exact Hp.
Qed.

Lemma writes_within_set_timeout {A} allowed (f : M A) (seconds : Z) :
  writes_within allowed f -> writes_within allowed (set_timeout f seconds).
Proof.
  intros Hf w. unfold set_timeout.
  specialize (Hf (set_alarm (Some (SFadd prec emax (clock w) (float_of_seconds seconds))) w)).
  destruct (f _) as [r w1]. exact Hf.
Qed.

Lemma writes_within_for_each {A} allowed (l : list A) (body : A -> M unit) :
  (forall x, x ∈ l -> writes_within allowed (body x)) ->
  writes_within allowed (for_each l body).
Proof.
  induction l as [|x l IH]; intros Hbody; simpl.
  - apply writes_within_same. reflexivity.
  - apply writes_within_bind.
    + apply Hbody. left.
    + intros _. apply IH. intros y Hy. apply Hbody. right. exact Hy.
Qed.

Ltac same_files := apply writes_within_same; intros; reflexivity.

Lemma writes_within_attr {A} allowed (a : option A) :
  writes_within allowed (attr a).
Proof. destruct a; same_files. Qed.

Lemma writes_within_read allowed p : writes_within allowed (read_file p).
Proof.
  apply writes_within_same. intros w. unfold read_file.
  destruct (files w !! p); reflexivity.
Qed.

Ltac writes_step :=
  lazymatch goal with
  | |- writes_within _ (bind _ _) => apply writes_within_bind; [|intros]
  | |- writes_within _ (try_except _ _ _) => apply writes_within_try
  | |- writes_within _ (call _) => apply writes_within_call
  | |- writes_within _ (read_file _) => apply writes_within_read
  | |- writes_within _ (attr _) => apply writes_within_attr
  | |- writes_within _ (set_timeout _ _) => apply writes_within_set_timeout
  | |- writes_within _ (write_file _ _) =>
      apply writes_within_write; solve [auto]
  | |- writes_within _ (if ?b then _ else _) => destruct b
  | |- writes_within _ (match ?x with _ => _ end) => destruct x
  | |- writes_within _ (ret _) => same_files
  | |- writes_within _ (raise _) => same_files
  | |- writes_within _ (lift _) => same_files
  | |- writes_within _ (print _) => same_files
  | |- writes_within _ (isfile _) => same_files
  | |- writes_within _ (makedirs _) => same_files
  | |- writes_within _ time_time => same_files
  end.

Ltac writes_tac := cbv zeta; repeat (writes_step; cbv zeta).

(** ** Paths *)

Lemma string_app_list (s t : string) :
  list_ascii_of_string (s +:+ t) =
  (list_ascii_of_string s ++ list_ascii_of_string t)%list.
Proof. induction s as [|c s IH]; simpl; [reflexivity | rewrite IH; reflexivity]. Qed.

(** A joined path ends with its last component. *)
Lemma join2_ends (path b : string) :
  exists prefix,
    list_ascii_of_string (join2 path b) = (prefix ++ list_ascii_of_string b)%list.
Proof.
  unfold join2. destruct (starts_with_sep b).
  - exists []. reflexivity.
  - destruct (String.eqb path "" || ends_with_sep path).
    + exists (list_ascii_of_string path). apply string_app_list.
    + exists (list_ascii_of_string path ++ ["/"%char])%list.
      rewrite string_app_list, <- app_assoc. reflexivity.
Qed.

Lemma joinpath_snoc (a : string) (p : list string) (b : string) :
  joinpath a (p ++ [b]) = join2 (joinpath a p) b.
Proof. unfold joinpath. rewrite fold_left_app. reflexivity. Qed.

(** Two paths whose last components end differently are different. *)
Lemma ends_differ (n : nat) (p1 p2 t1 t2 : list ascii) :
  (n <= length t1)%nat -> (n <= length t2)%nat ->
  take n (rev t1) <> take n (rev t2) ->
  (p1 ++ t1)%list <> (p2 ++ t2)%list.
Proof.
  intros H1 H2 Hne Heq. apply Hne.
  apply (f_equal (fun l => take n (rev l))) in Heq.
  rewrite !rev_app_distr in Heq.
  rewrite !take_app_le in Heq by (rewrite length_rev; lia).
  exact Heq.
Qed.

Lemma join2_differ (n : nat) (path1 path2 b1 b2 : string) :
  (n <= length (list_ascii_of_string b1))%nat ->
  (n <= length (list_ascii_of_string b2))%nat ->
  take n (rev (list_ascii_of_string b1)) <> take n (rev (list_ascii_of_string b2)) ->
  join2 path1 b1 <> join2 path2 b2.
Proof.
  intros H1 H2 Hne Heq.
  destruct (join2_ends path1 b1) as [p1 Hp1].
  destruct (join2_ends path2 b2) as [p2 Hp2].
  rewrite Heq, Hp2 in Hp1. symmetry in Hp1. revert Hp1.
  apply (ends_differ n); assumption.
Qed.

Section Frame.
Context `{Config} `{JsonCodec} `{Learning}.

Lemma evaluate_model_writes (model : Model) (dataset : Dataset)
    (train test : pyobj) (hp : json) :
  writes_within (fun p => p = cifar_model_weights_path)
    (evaluate_model model dataset train test hp).
Proof.
  unfold evaluate_model. writes_tac.
Qed.

Lemma save_evaluation_results_writes (dataset : Dataset) (model : Model)
    (tuning_results : json) (score train_time evaluation_time : number) :
  writes_within (fun p => p = evaluation_path dataset model)
    (save_evaluation_results dataset model tuning_results
       score train_time evaluation_time).
Proof.
  unfold save_evaluation_results. writes_tac.
Qed.

Lemma writes_within_weaken {A} (P Q : string -> Prop) (c : M A) :
  (forall p, P p -> Q p) -> writes_within P c -> writes_within Q c.
Proof.
  intros HPQ Hc w. destruct (Hc w) as [H1' H2']. split; [|exact H2'].
  intros p Hp. apply H1'. intros HP. apply Hp, HPQ, HP.
Qed.

Lemma train_model_writes (T : Z) (dataset : Dataset) (train test : pyobj)
    (model : Model) :
  writes_within (fun p => p = evaluation_path dataset model \/
                          p = cifar_model_weights_path)
    (train_model T dataset train test model).
Proof.
  unfold train_model, get_tuning_results, evaluate_model_with_timeout, report.
  cbv zeta.
  repeat first
    [ eapply writes_within_weaken; [|apply evaluate_model_writes]; solve [auto]
    | eapply writes_within_weaken; [|apply save_evaluation_results_writes];
      solve [auto]
    | writes_step; cbv zeta ].
Qed.

Lemma tuning_path_not_evaluation_path (d d' : Dataset) (m m' : Model) :
  tuning_path d m <> evaluation_path d' m'.
Proof.
  unfold tuning_path, evaluation_path. 
  change (joinpath (results_dir d m) ["tuning.json"])
    with (join2 (results_dir d m) "tuning.json").
  change (joinpath (results_dir d' m') ["evaluation.json"])
    with (join2 (results_dir d' m') "evaluation.json").
  apply (join2_differ 6); simpl; [lia | lia | discriminate].
Qed.

Lemma tuning_path_not_weights_path (d : Dataset) (m : Model) :
  tuning_path d m <> cifar_model_weights_path.
Proof.
  unfold tuning_path, cifar_model_weights_path.
  change (joinpath (results_dir d m) ["tuning.json"])
    with (join2 (results_dir d m) "tuning.json").
  change (joinpath RESULTS_DIR ["Cifar10CustomModel-weights.pkl"])
    with (join2 RESULTS_DIR "Cifar10CustomModel-weights.pkl").
  apply (join2_differ 1); simpl; [lia | lia | discriminate].
Qed.

(** X2.  The loop over the models of one dataset writes nothing but the
    [evaluation.json] of its pairs and the weights file of
    [Cifar10CustomModel]: every other file is left as it was, no file is
    removed, and no [tuning.json], of whatever pair, is changed. *)
Theorem model_loop_writes_only_results (T : Z) (dataset : Dataset)
    (train test : pyobj) (models : list Model) (w : World) :
  let w' := snd (for_each models (train_model T dataset train test) w) in
  (forall p,
     (forall model, model ∈ models -> p <> evaluation_path dataset model) ->
     p <> cifar_model_weights_path ->
     files w' !! p = files w !! p) /\
  (forall p, is_Some (files w !! p) -> is_Some (files w' !! p)) /\
  (forall d m, files w' !! tuning_path d m = files w !! tuning_path d m).
Proof.
  intros w'.
  assert (Hloop : writes_within
            (fun p => (exists model, model ∈ models /\
                                     p = evaluation_path dataset model) \/
                      p = cifar_model_weights_path)
            (for_each models (train_model T dataset train test))).
  { apply writes_within_for_each. intros model Hmodel.
    eapply writes_within_weaken; [|apply train_model_writes].
    intros p [->| ->]; [left; eauto | right; reflexivity]. }
  destruct (Hloop w) as [Hout Hkeep]. fold w' in Hout, Hkeep.
  split; [|split].
  - intros p Hp Hweights. apply Hout.
    intros [(model & Hin & ->)| ->]; [exact (Hp model Hin eq_refl) | done].
  - exact Hkeep.
  - intros d m. apply Hout.
    intros [(model & _ & Heq)|Heq].
    + exact (tuning_path_not_evaluation_path _ _ _ _ Heq).
    + exact (tuning_path_not_weights_path _ _ Heq).
Qed.

End Frame.

Lemma bind_Ok_inv {A B} (c : M A) (k : A -> M B) (w : World) (b : B) (w' : World) :
  bind c k w = (Ok b, w') ->
  exists a w1, c w = (Ok a, w1) /\ k a w1 = (Ok b, w').
Proof.
  unfold bind. destruct (c w) as [[a|e] w1]; [eauto | discriminate].
Qed.

Lemma num_gtb_irrefl (v : number) : num_gtb v v = false.
Proof.
  unfold num_gtb, num_compare.
  destruct (extended_of_number v) as [| | |m e]; simpl; try reflexivity.
  rewrite dyadic_compare_refl. reflexivity.
Qed.

Lemma num_ltb_irrefl (v : number) : num_ltb v v = false.
Proof.
  unfold num_ltb, num_compare.
  destruct (extended_of_number v) as [| | |m e]; simpl; try reflexivity.
  rewrite dyadic_compare_refl. reflexivity.
Qed.

Section Saving.
Context `{Config} `{JsonCodec} `{Learning}.

(** What a call of [save_evaluation_results] can do to the world: nothing,
    or the write of the complete record. *)
Lemma save_evaluation_results_outcome (dataset : Dataset) (model : Model)
    (tuning_results : json) (score train_time evaluation_time : number)
    (w : World) (r : Res unit) (w1 : World) :
  save_evaluation_results dataset model tuning_results
    score train_time evaluation_time w = (r, w1) ->
  w1 = w \/
  (r = Ok tt /\
   exists hp n_trials val_score metric,
     getitem tuning_results "hp" = Ok hp /\
     getitem tuning_results "n_trials" = Ok n_trials /\
     getitem tuning_results "score" = Ok val_score /\
     ds_metric dataset = Some metric /\
     w1 = emit (Wrote (evaluation_path dataset model))
            (set_files
               (<[evaluation_path dataset model :=
                    json_dumps (evaluation_record hp n_trials val_score
                                  score train_time evaluation_time metric)]>
                  (files w)) w)).
Proof.
  unfold save_evaluation_results.
  cbv [bind ret lift attr try_except raise read_file makedirs write_file].
  intros Hsave.
  repeat match type of Hsave with
         | context [match ?x with _ => _ end] =>
             lazymatch x with
             | context [match _ with _ => _ end] => fail
             | _ => destruct x eqn:?
             end
         end;
    try (left; congruence).
  all: right; inversion Hsave; subst; split; [reflexivity|];
       repeat eexists; eauto.
Qed.

(** X3.  Saving the same result twice: when the first call succeeded
    (whether it wrote or not), a second call with the same arguments
    succeeds and leaves the world exactly as the first one left it. *)
Theorem save_evaluation_results_twice
    (dataset : Dataset) (model : Model) (tuning_results hp n_trials : json)
    (V2 score train_time evaluation_time : number) (metric : string)
    (maximized : bool) (w w1 : World)
    (Hhp : getitem tuning_results "hp" = Ok hp)
    (Hn : getitem tuning_results "n_trials" = Ok n_trials)
    (Hscore : getitem tuning_results "score" = Ok (JNum V2))
    (Hmetric : ds_metric dataset = Some metric)
    (Hmax : ds_is_metric_maximized dataset = Some maximized)
    (Hcodec :
       let record := evaluation_record hp n_trials (JNum V2)
                       score train_time evaluation_time metric in
       json_loads (json_dumps record) = Ok record)
    (Hfirst : save_evaluation_results dataset model tuning_results
                score train_time evaluation_time w = (Ok tt, w1)) :
  save_evaluation_results dataset model tuning_results
    score train_time evaluation_time w1 = (Ok tt, w1).
Proof.
  destruct (save_evaluation_results_outcome _ _ _ _ _ _ _ _ _ Hfirst)
    as [->|(_ & hp' & n' & v' & metric' & Hhp' & Hn' & Hv' & Hmetric' & Hw1)].
  - exact Hfirst.
  - rewrite Hhp in Hhp'. rewrite Hn in Hn'. rewrite Hscore in Hv'.
    rewrite Hmetric in Hmetric'. simplify_eq. cbv zeta in Hcodec.
    unfold save_evaluation_results. py.
    erewrite run_read by (world_simpl; apply lookup_insert_eq). py.
    rewrite Hcodec, Hmax. py. rewrite Hscore. py.
    change (getitem (evaluation_record hp' n' (JNum V2) score train_time
                       evaluation_time metric') "val_score")
      with (Ok (JNum V2)).
    py. destruct maximized; py.
    + rewrite py_gt_num, num_gtb_irrefl. py. reflexivity.
    + rewrite py_lt_num, num_ltb_irrefl. py. reflexivity.
Qed.

(** X1.  A pair that has tuning results and whose evaluation returns in
    time is saved and then reported, in that order: the record is written
    under the overwrite policy, and the three lines of the report are
    printed whether or not it was written. *)
Theorem evaluated_pair_is_saved_then_reported
    (T : Z) (dataset : Dataset) (model : Model) (train test : pyobj)
    (c : string) (tuning_results hp n_trials : json)
    (V2 score train_time evaluation_time : number) (metric : string)
    (stored : option number) (maximized : bool)
    (s_score s_val s_train s_eval : string) (w w2 : World)
    (Htuning : files w !! tuning_path dataset model = Some c)
    (Hloads : json_loads c = Ok tuning_results)
    (Hhp : getitem tuning_results "hp" = Ok hp)
    (Hn : getitem tuning_results "n_trials" = Ok n_trials)
    (Hscore : getitem tuning_results "score" = Ok (JNum V2))
    (Hmetric : ds_metric dataset = Some metric)
    (Hevaluated :
       evaluate_model_with_timeout T model dataset train test hp
         (emit (Printed ("Model: " +:+ md_name model)) w)
       = (Ok (score, train_time, evaluation_time), w2))
    (Hstored :
       match stored with
       | None => files w2 !! evaluation_path dataset model = None
       | Some V1 =>
           ds_is_metric_maximized dataset = Some maximized /\
           exists old prev,
             files w2 !! evaluation_path dataset model = Some old /\
             json_loads old = Ok prev /\
             getitem prev "val_score" = Ok (JNum V1)
       end)
    (Hs_score : format_f 2 (JNum score) = Ok s_score)
    (Hs_val : format_f 2 (JNum V2) = Ok s_val)
    (Hs_train : format_f 1 (JNum train_time) = Ok s_train)
    (Hs_eval : format_f 1 (JNum evaluation_time) = Ok s_eval) :
  let saved :=
    if replaces maximized V2 stored
    then emit (Wrote (evaluation_path dataset model))
           (set_files
              (<[evaluation_path dataset model :=
                   json_dumps (evaluation_record hp n_trials (JNum V2)
                                 score train_time evaluation_time metric)]>
                 (files w2)) w2)
    else w2 in
  train_model T dataset train test model w =
  (Ok tt,
   emit (Printed ("Evaluation time: " +:+ s_eval +:+ "s"))
     (emit (Printed ("Training time: " +:+ s_train +:+ "s"))
        (emit (Printed ("Results on test set: " +:+ metric +:+ "=" +:+ s_score
                        +:+ " (" +:+ s_val +:+ " during validation)"))
           saved))).
Proof.
  intros saved.
  assert (Hsave :
    save_evaluation_results dataset model tuning_results
      score train_time evaluation_time w2 = (Ok tt, saved)).
  { subst saved. unfold save_evaluation_results. py.
    destruct stored as [V1|]; simpl in Hstored.
    - destruct Hstored as (Hmax & old & prev & Hold & Hprev & Hval).
      rewrite (run_read _ _ _ Hold). py.
      rewrite Hprev, Hmax. py. rewrite Hscore. py. rewrite Hval. py.
      unfold replaces, strictly_better.
      destruct maximized; py; [rewrite py_gt_num | rewrite py_lt_num];
        (match goal with
         | |- context [num_gtb ?a ?b] => destruct (num_gtb a b)
         | |- context [num_ltb ?a ?b] => destruct (num_ltb a b)
         end);
        py; rewrite ?Hhp, ?Hn, ?Hscore, ?Hmetric; py; reflexivity.
    - rewrite (run_read_none _ _ Hstored). py. simpl.
      rewrite Hhp, Hn, Hscore, Hmetric. py. reflexivity. }
  unfold train_model. py.
  rewrite (get_tuning_results_present dataset model c tuning_results)
    by (try exact Hloads; world_simpl; exact Htuning).
  py. rewrite Hhp. py. rewrite Hevaluated. py. rewrite Hsave. py.
  unfold report. py. rewrite Hmetric. py. rewrite Hs_score. py.
  rewrite Hscore. py. rewrite Hs_val. py. rewrite Hs_train. py.
  rewrite Hs_eval. py. reflexivity.
Qed.

End Saving.

(** ** Reuse of the saved weights *)

Lemma call_files {A} (c : Ext A) (w : World) :
  files (snd (call c w)) = files w.
Proof.
  unfold call. destruct (c (clock w)) as [r t].
  destruct (alarm w) as [d|]; [|reflexivity].
  destruct (SFltb d t); reflexivity.
Qed.

Lemma read_file_files (p : string) (w : World) :
  files (snd (read_file p w)) = files w.
Proof. unfold read_file. destruct (files w !! p); reflexivity. Qed.

Lemma attr_files {A} (o : option A) (w : World) :
  files (snd (attr o w)) = files w.
Proof. destruct o; reflexivity. Qed.

Lemma reads_only_run {A} (c : M A) (w : World) (r : Res A) (w1 : World) :
  (forall w0, files (snd (c w0)) = files w0) ->
  c w = (r, w1) -> files w1 = files w.
Proof. intros Hc Hrun. specialize (Hc w). rewrite Hrun in Hc. exact Hc. Qed.

Lemma ret_Ok_inv {A} (a b : A) (w w' : World) :
  ret a w = (Ok b, w') -> a = b /\ w = w'.
Proof. unfold ret. intros Heq. split; congruence. Qed.

Ltac bind_inv H :=
  let a := fresh "a" in
  let w := fresh "w" in
  let Ha := fresh "Hstep" in
  apply bind_Ok_inv in H as (a & w & Ha & H); cbv beta zeta in H.

(** The files after a step that only reads. *)
Ltac kept H :=
  apply reads_only_run in H;
  [| intros;
     first [ apply call_files | apply read_file_files | apply attr_files
           | reflexivity ] ].

Section Cifar.
Context `{Config} `{JsonCodec} `{Learning}.

Lemma evaluate_model_restored (model : Model) (dataset : Dataset)
    (train test : pyobj) (hp : json) (w : World)
    (score train_time evaluation_time : number) (w' : World) :
  md_name model = "Cifar10CustomModel" ->
  evaluate_model model dataset train test hp w
    = (Ok (score, train_time, evaluation_time), w') ->
  (is_Some (files w !! cifar_model_weights_path) -> train_time = NInt (-1)) /\
  is_Some (files w' !! cifar_model_weights_path).
Proof.
  intros Hname Hev. unfold evaluate_model in Hev. rewrite Hname in Hev.
  change (String.eqb "Cifar10CustomModel" "Cifar10CustomModel") with true in Hev.
  cbv beta zeta iota in Hev.
  do 7 bind_inv Hev.
  assert (Hrestore : a4 = bool_decide (is_Some (files w !! cifar_model_weights_path))
                     /\ files w5 = files w).
  { unfold isfile in Hstep4. apply pair_equal_spec in Hstep4 as [Ha4 <-].
    injection Ha4 as <-.
    kept Hstep. kept Hstep0. kept Hstep1. kept Hstep2. kept Hstep3.
    rewrite Hstep3, Hstep2, Hstep1, Hstep0, Hstep. split; reflexivity. }
  destruct Hrestore as [-> Hfiles].
  assert (Htail : train_time = snd a5 /\ files w' = files w6).
  { do 8 bind_inv Hev. apply ret_Ok_inv in Hev as [Hev ->].
    apply pair_equal_spec in Hev as [Hev _].
    apply pair_equal_spec in Hev as [_ Hev].
    split; [symmetry; exact Hev|].
    kept Hstep6. kept Hstep7. kept Hstep8. kept Hstep9. kept Hstep10.
    kept Hstep11. kept Hstep12. kept Hstep13.
    rewrite Hstep13, Hstep12, Hstep11, Hstep10, Hstep9, Hstep8, Hstep7, Hstep6.
    reflexivity. }
  destruct Htail as [-> Htail]. rewrite Htail.
  destruct (bool_decide (is_Some (files w !! cifar_model_weights_path)))
    eqn:Hpresent.
  - do 3 bind_inv Hstep5. apply ret_Ok_inv in Hstep5 as [<- <-].
    split; [reflexivity|].
    kept Hstep6. kept Hstep7. kept Hstep8.
    apply bool_decide_eq_true_1 in Hpresent.
    rewrite Hstep8, Hstep7, Hstep6, Hfiles. exact Hpresent.
  - do 4 bind_inv Hstep5. apply ret_Ok_inv in Hstep5 as [<- <-].
    split; [intros Hyes; apply bool_decide_eq_false_1 in Hpresent; contradiction|].
    do 1 bind_inv Hstep9. unfold write_file in Hstep9.
    apply pair_equal_spec in Hstep9 as [_ <-].
    simpl. rewrite lookup_insert_eq. eauto.
Qed.

(** X5.  [Cifar10CustomModel] is fitted at most once: an evaluation that
    succeeds leaves the weights file in place, and any later successful
    evaluation that finds it there restores the weights instead of
    fitting, so that its training time is the sentinel [-1]. *)
Theorem cifar_weights_are_reused (model : Model) (dataset dataset' : Dataset)
    (train test train' test' : pyobj) (hp hp' : json)
    (r : number * number * number) (score train_time evaluation_time : number)
    (w w1 w2 w3 : World)
    (Hname : md_name model = "Cifar10CustomModel")
    (Hfirst : evaluate_model model dataset train test hp w = (Ok r, w1))
    (Hbetween : files w2 !! cifar_model_weights_path
                = files w1 !! cifar_model_weights_path)
    (Hsecond : evaluate_model model dataset' train' test' hp' w2
               = (Ok (score, train_time, evaluation_time), w3)) :
  is_Some (files w1 !! cifar_model_weights_path) /\ train_time = NInt (-1).
Proof.
  destruct r as [[s1 t1] e1].
  destruct (evaluate_model_restored _ _ _ _ _ _ _ _ _ _ Hname Hfirst) as [_ Hsaved].
  destruct (evaluate_model_restored _ _ _ _ _ _ _ _ _ _ Hname Hsecond) as [Hrestored _].
  split; [exact Hsaved|]. apply Hrestored. rewrite Hbetween. exact Hsaved.
Qed.

End Cifar.

(** ** Errors of [dataset.get()] *)

Section DatasetErrors.
Context `{Config} `{JsonCodec} `{Learning}.

(** X6.  The call [dataset.get()] and the unpacking of its result stand
    outside every handler of the orchestrator: an error of either, of
    whatever class (a memory error or a missing file included), ends the
    run there, after the name of the dataset was printed; the datasets
    that follow are not started. *)
Theorem dataset_errors_end_the_run
    (T : Z) (ds1 ds2 : list Dataset) (dataset : Dataset) (models : list Model)
    (w0 wa wb : World) (e : exn)
    (Hbefore : for_each ds1 (train_dataset T models) w0 = (Ok tt, wa))
    (Hget : (got <- ds_get dataset ;; lift (unpack2 got))
              (emit (Printed ("Dataset: " +:+ ds_name dataset)) wa)
            = (Raise e, wb)) :
  train_all_models_on_all_datasets (ds1 ++ dataset :: ds2) models T w0
  = (Raise e, wb).
Proof.
  unfold train_all_models_on_all_datasets.
  rewrite for_each_app, Hbefore, for_each_cons.
  unfold train_dataset. revert Hget. py.
  destruct (ds_get dataset _) as [[got|e1] w1].
  - py. destruct (unpack2 got) as [split|e2]; [discriminate|].
    intros Heq. injection Heq as -> ->. reflexivity.
  - intros Heq. injection Heq as -> ->. reflexivity.
Qed.

End DatasetErrors.

Lemma unpack2_frame (df : DataFrame) :
  length (columns df) <> 2%nat -> unpack2 (PFrame df) = Raise ValueError.
Proof.
  intros Hlen. unfold unpack2. cbn [py_iter].
  destruct (columns df) as [|a [|b [|c l]]]; simpl in *; try reflexivity.
  contradiction.
Qed.

Section Unsplit.
Context `{Config} `{JsonCodec} `{Learning}.
Context `{Environment} `{Network} `{Parsers} `{Random}.

(** X7.  [SteelPlatesFaultsDataset] and [SeismicBumps] cannot be run by the
    orchestrator: what their [get] returns is the parsed table, and
    [train, test = dataset.get()] unpacks a table into its column labels,
    which is a value error unless there are exactly two; the run ends
    there, before any model is looked at. *)
Theorem unsplit_providers_end_the_run
    (T : Z) (p : provider) (rest : list Dataset) (models : list Model)
    (v : pyobj) (w w2 : World)
    (Hp : p = SteelPlatesFaults \/ p = Seismic)
    (Hget : get p (emit (Printed ("Dataset: " +:+ cls_name (class_of p))) w)
            = (Ok v, w2)) :
  exists df : DataFrame,
    v = PFrame df /\
    (length (columns df) <> 2%nat ->
     train_all_models_on_all_datasets (as_dataset p :: rest) models T w
     = (Raise ValueError, w2)).
Proof.
  assert (Hframe : exists df, v = PFrame df).
  { destruct Hp as [-> | ->]; unfold get in Hget.
    - unfold SteelPlatesFaultsDataset_get in Hget. cbv zeta in Hget.
      do 7 bind_inv Hget. apply ret_Ok_inv in Hget as [<- _]. eauto.
    - unfold SeismicBumps_get in Hget. cbv zeta in Hget.
      do 5 bind_inv Hget. apply ret_Ok_inv in Hget as [<- _]. eauto. }
  destruct Hframe as [df ->]. exists df. split; [reflexivity|].
  intros Hcols. unfold train_all_models_on_all_datasets.
  rewrite for_each_cons. unfold train_dataset. py.
  change (ds_name (as_dataset p)) with (cls_name (class_of p)).
  change (ds_get (as_dataset p)) with (get p).
  rewrite Hget. py. rewrite (unpack2_frame df Hcols). reflexivity.
Qed.

End Unsplit.

(** * The regressor adapter *)

Section AdaBoostFacts.
Context `{Ensemble}.

(** X22.  [AdaBoostModel.build_estimator] and its search space agree: a
    configuration whose keys are among those of [hp_space] never collides
    with the fixed [random_state], and is handed to the regressor after
    it; a configuration that names [random_state] itself is a type error,
    and the regressor is not built. *)
Theorem adaboost_accepts_its_search_space (config : list (string * json)) :
  (Forall (fun kv => fst kv ∈ map fst hp_space) config ->
   AdaBoostModel_build_estimator [PValue (JObj config)] =
   AdaBoostRegressor
     (("random_state", PValue random_state) ::
      map (fun kv => (fst kv, PValue (snd kv))) config)) /\
  ("random_state" ∈ map fst config ->
   AdaBoostModel_build_estimator [PValue (JObj config)] = fails TypeError).
Proof.
  unfold AdaBoostModel_build_estimator. cbn [keywords]. split.
  - intros Hkeys.
    assert (Hnone : existsb (fun kv : string * pyobj => String.eqb (fst kv) "random_state")
                      (map (fun kv : string * json => (fst kv, PValue (snd kv))) config)
                    = false).
    { induction Hkeys as [|kv rest Hkv _ IH]; [reflexivity|]. cbn [map existsb fst].
      rewrite IH, orb_false_r. apply String.eqb_neq. intros Heq.
      rewrite Heq in Hkv. simpl in Hkv.
      repeat (apply elem_of_cons in Hkv as [Hkv|Hkv]; [discriminate|]).
      inversion Hkv. }
    rewrite Hnone. reflexivity.
  - intros Hin.
    assert (Hsome : existsb (fun kv : string * pyobj => String.eqb (fst kv) "random_state")
                      (map (fun kv : string * json => (fst kv, PValue (snd kv))) config)
                    = true).
    { apply existsb_exists. apply list_elem_of_fmap in Hin as ([k v] & Hk & Hin).
      exists (k, PValue v). split.
      - apply in_map_iff. exists (k, v). split; [reflexivity|].
        apply list_elem_of_In. exact Hin.
      - simpl in *. subst. reflexivity. }
    rewrite Hsome. reflexivity.
Qed.

End AdaBoostFacts.

Section AdaBoostOrchestrated.
Context `{Config} `{JsonCodec} `{Ensemble}.

(** X23.  The orchestrator cannot evaluate [AdaBoostModel]: it calls
    [build_estimator] with the hyperparameters and the training data, two
    arguments for a method of one parameter.  Once the dataset has been
    prepared the call is a type error, which none of the handlers of the
    orchestrator takes; nothing is fitted and no file is touched. *)
Theorem adaboost_is_called_with_two_arguments
    (prepare : pyobj -> pyobj -> list string -> Ext pyobj)
    (dataset : Dataset) (train test : pyobj) (hp : json)
    (cats : list string) (prepared train_data test_data : pyobj)
    (t1 : spec_float) (w : World)
    (Hfree : alarm w = None)
    (Hcats : ds_categorical_features dataset = Some cats)
    (Hprep : prepare train test cats (clock w) = (Ok prepared, t1))
    (Hdatas : unpack2 prepared = Ok (train_data, test_data)) :
  evaluate_model (AdaBoostModel prepare) dataset train test hp w
  = (Raise TypeError, set_clock t1 w) /\
  is_FileNotFoundError TypeError || is_TimeoutError TypeError
    || is_MemoryError TypeError = false.
Proof.
  split; [|reflexivity].
  unfold evaluate_model. cbn [md_name prepare_dataset build_estimator AdaBoostModel].
  rewrite Hcats. py.
  erewrite call_free; [|exact Hfree|exact Hprep]. py.
  rewrite Hdatas. py. world_simpl.
  erewrite call_free; [|exact Hfree|reflexivity]. py.
  destruct w; reflexivity.
Qed.

End AdaBoostOrchestrated.

(** * Further properties of the aggregator *)

(** ** The pattern of the aggregator *)

Lemma string_app_assoc (a b c : string) : (a +:+ b) +:+ c = a +:+ (b +:+ c).
Proof.
  induction a as [|x a IH]; [reflexivity|].
  change (String x ((a +:+ b) +:+ c) = String x (a +:+ (b +:+ c))).
  rewrite IH. reflexivity.
Qed.





Section Pattern.
Context `{Config} `{JsonCodec} `{Builtins}.


End Pattern.

(** ** Reading the results *)

Lemma unchanged_bind {A B} (c : M A) (k : A -> M B) :
  (forall w, snd (c w) = w) -> (forall a w, snd (k a w) = w) ->
  forall w, snd (bind c k w) = w.
Proof.
  intros Hc Hk w. unfold bind. specialize (Hc w).
  destruct (c w) as [[a|e] w1]; simpl in Hc; subst; [apply Hk | reflexivity].
Qed.

Lemma unchanged_read_file (p : string) (w : World) : snd (read_file p w) = w.
Proof. unfold read_file. destruct (files w !! p); reflexivity. Qed.

Lemma unchanged_map_m {A B} (f : A -> M B) (l : list A) :
  (forall a w, snd (f a w) = w) -> forall w, snd (map_m f l w) = w.
Proof.
  intros Hf. induction l as [|x l IH]; intros w; [reflexivity|].
  cbn [map_m]. apply unchanged_bind; [apply Hf|].
  intros y. apply unchanged_bind; [exact IH | reflexivity].
Qed.

Section ReadOnly.
Context `{Config} `{JsonCodec} `{Builtins}.

Lemma unchanged_load_result (path : string) (w : World) :
  snd (load_result path w) = w.
Proof.
  unfold load_result. destruct (pattern_match path) as [[dataset model]|];
    [|reflexivity].
  revert w. apply unchanged_bind; [apply unchanged_read_file|]. intros file.
  apply unchanged_bind; [reflexivity|]. intros results.
  apply unchanged_bind; [reflexivity|]. intros hp.
  apply unchanged_bind; [reflexivity|]. intros flat.
  destruct results; reflexivity.
Qed.

Lemma get_results_table_unchanged (w : World) : snd (get_results_table w) = w.
Proof.
  revert w. unfold get_results_table.
  apply unchanged_bind; [reflexivity|]. intros result_files.
  apply unchanged_bind; [apply unchanged_map_m, unchanged_load_result|].
  reflexivity.
Qed.

(** X9.  [get_results_table] only reads: whatever the files hold, and
    whether it returns a table or raises, the world after the call is the
    world before it; nothing is written, printed or fetched. *)
Theorem get_results_table_reads_only (w : World) :
  snd (get_results_table w) = w.
Proof. apply get_results_table_unchanged. Qed.

End ReadOnly.

(** ** From the orchestrator to the aggregator *)

Lemma alnum_not_sep (c : ascii) : is_alnum c = true -> Ascii.eqb c "/" = false.
Proof.
  intros Hc. destruct (Ascii.eqb c "/") eqn:E; [|reflexivity].
  apply Ascii.eqb_eq in E. subst. discriminate Hc.
Qed.

Lemma alnum_name_starts (d : string) :
  alnum_name d = true ->
  exists c d', d = String c d' /\ is_alnum c = true /\
               forallb is_alnum (list_ascii_of_string d') = true.
Proof.
  unfold alnum_name. destruct d as [|c d']; [discriminate|]. simpl.
  intros Hall. apply andb_true_iff in Hall as [Hc Hd]. eauto.
Qed.

Lemma ends_with_sep_alnum (s d : string) :
  alnum_name d = true -> ends_with_sep (s +:+ d) = false.
Proof.
  intros Hd. unfold ends_with_sep. rewrite string_app_list, rev_app_distr.
  destruct (alnum_name_starts d Hd) as (c & d' & -> & Hc & Hall).
  assert (Hlast : exists x l, rev (list_ascii_of_string (String c d')) = x :: l
                              /\ is_alnum x = true).
  { assert (Hforall : forallb is_alnum (rev (list_ascii_of_string (String c d'))) = true).
    { rewrite forallb_forall. intros x Hx. apply in_rev in Hx.
      simpl in Hx. destruct Hx as [<-|Hx]; [exact Hc|].
      rewrite forallb_forall in Hall. apply Hall. exact Hx. }
    destruct (rev (list_ascii_of_string (String c d'))) as [|x l] eqn:E.
    - apply (f_equal (@length _)) in E. rewrite length_rev in E. discriminate.
    - simpl in Hforall. apply andb_true_iff in Hforall as [Hx _]. eauto. }
  destruct Hlast as (x & l & -> & Hx). simpl. apply alnum_not_sep. exact Hx.
Qed.

Lemma join2_alnum (path d : string) :
  path <> "" -> ends_with_sep path = false -> alnum_name d = true ->
  join2 path d = path +:+ "/" +:+ d.
Proof.
  intros Hpath Hend Hd. unfold join2.
  destruct (alnum_name_starts d Hd) as (c & d' & -> & Hc & _).
  cbn [starts_with_sep]. rewrite (alnum_not_sep c Hc), Hend.
  destruct (String.eqb_spec path ""); [contradiction|]. reflexivity.
Qed.

Lemma app_nonempty (s d : string) : alnum_name d = true -> s +:+ d <> "".
Proof.
  intros Hd Heq. destruct (alnum_name_starts d Hd) as (c & d' & -> & _).
  apply (f_equal list_ascii_of_string) in Heq. rewrite string_app_list in Heq.
  destruct (list_ascii_of_string s); discriminate.
Qed.

Lemma split_on_segment (sep : ascii) (a rest : string) :
  forallb (fun c => negb (Ascii.eqb c sep)) (list_ascii_of_string a) = true ->
  split_on sep (a +:+ String sep rest) = a :: split_on sep rest.
Proof.
  induction a as [|c a IH]; intros Hall.
  - change ("" +:+ String sep rest) with (String sep rest).
    cbn [split_on]. rewrite Ascii.eqb_refl. reflexivity.
  - simpl in Hall. apply andb_true_iff in Hall as [Hc Hall].
    change (String c a +:+ String sep rest) with (String c (a +:+ String sep rest)).
    cbn [split_on]. apply negb_true_iff in Hc. rewrite Hc, (IH Hall). reflexivity.
Qed.

Lemma alnum_no_sep (d : string) :
  alnum_name d = true ->
  forallb (fun c => negb (Ascii.eqb c "/")) (list_ascii_of_string d) = true.
Proof.
  unfold alnum_name. intros Hd. apply andb_true_iff in Hd as [_ Hall].
  rewrite forallb_forall in *. intros c Hc.
  rewrite (alnum_not_sep c (Hall c Hc)). reflexivity.
Qed.

Lemma glob_star_alnum (d : string) : alnum_name d = true -> glob_star d = true.
Proof.
  intros Hd. destruct (alnum_name_starts d Hd) as (c & d' & -> & Hc & _).
  simpl. destruct (Ascii.eqb c ".") eqn:E; [|reflexivity].
  apply Ascii.eqb_eq in E. subst. discriminate Hc.
Qed.

Lemma glob_matches_result_path (d m : string) :
  alnum_name d = true -> alnum_name m = true ->
  glob_matches (result_path d m) = true.
Proof.
  intros Hd Hm. unfold glob_matches, result_path.
  change ("results" +:+ "/" +:+ d +:+ "/" +:+ m +:+ "/evaluation.json")
    with ("results" +:+ String "/" (d +:+ String "/" (m +:+ String "/" "evaluation.json"))).
  rewrite (split_on_segment "/" "results") by reflexivity.
  rewrite (split_on_segment "/" d) by (apply alnum_no_sep; exact Hd).
  rewrite (split_on_segment "/" m) by (apply alnum_no_sep; exact Hm).
  change (split_on "/" "evaluation.json") with ["evaluation.json"].
  rewrite (glob_star_alnum d Hd), (glob_star_alnum m Hm). reflexivity.
Qed.

Lemma elem_of_matched_files (p : string) (w : World) :
  p ∈ matched_files w <-> is_Some (files w !! p) /\ glob_matches p = true.
Proof.
  unfold matched_files. rewrite list_elem_of_filter, list_elem_of_fmap. split.
  - intros [Hg ([k v] & -> & Hin)]. apply elem_of_map_to_list in Hin.
    split; [eauto | apply Is_true_true; exact Hg].
  - intros [[v Hv] Hg]. split; [apply Is_true_true; exact Hg|].
    exists (p, v). split; [reflexivity | apply elem_of_map_to_list; exact Hv].
Qed.

Lemma NoDup_matched_files (w : World) : NoDup (matched_files w).
Proof. unfold matched_files. apply NoDup_filter, NoDup_fst_map_to_list. Qed.

Lemma only_element {A} (l : list A) (x : A) :
  NoDup l -> (forall y, y ∈ l <-> y = x) -> l = [x].
Proof.
  intros Hnd Hiff. destruct l as [|a l].
  - assert (Hx : x ∈ []) by (apply Hiff; reflexivity). inversion Hx.
  - assert (a = x) as -> by (apply Hiff; left).
    destruct l as [|b l]; [reflexivity|].
    assert (b = x) as -> by (apply Hiff; right; left).
    apply NoDup_cons in Hnd as [Hnot _]. exfalso. apply Hnot. left.
Qed.

Section Listing.
Context `{Config} `{JsonCodec} `{Learning} `{Builtins}.

Lemma evaluation_path_plain (dataset : Dataset) (model : Model) :
  RESULTS_DIR = "results" ->
  alnum_name (ds_name dataset) = true -> alnum_name (md_name model) = true ->
  evaluation_path dataset model = result_path (ds_name dataset) (md_name model).
Proof.
  intros Hdir Hd Hm. unfold evaluation_path, results_dir, result_path. rewrite Hdir.
  change (joinpath (joinpath "results" [ds_name dataset; md_name model])
            ["evaluation.json"])
    with (join2 (join2 (join2 "results" (ds_name dataset)) (md_name model))
            "evaluation.json").
  rewrite (join2_alnum "results") by (done || exact Hd).
  rewrite (join2_alnum _ (md_name model));
    [| apply (app_nonempty "results/"); exact Hd
     | apply (ends_with_sep_alnum "results/"); exact Hd
     | exact Hm].
  set (path := ("results" +:+ "/" +:+ ds_name dataset) +:+ "/" +:+ md_name model).
  assert (Hpath : path = (("results" +:+ "/" +:+ ds_name dataset) +:+ "/")
                         +:+ md_name model)
    by (subst path; symmetry; apply string_app_assoc).
  unfold join2. change (starts_with_sep "evaluation.json") with false. cbv iota.
  assert (Hend : ends_with_sep path = false)
    by (rewrite Hpath; apply ends_with_sep_alnum; exact Hm).
  assert (Hne : path <> "")
    by (rewrite Hpath; apply app_nonempty; exact Hm).
  rewrite Hend. destruct (String.eqb_spec path "") as [Hempty|_]; [contradiction|].
  cbn [orb]. subst path. rewrite !string_app_assoc. reflexivity.
Qed.

End Listing.

Section Listing2.
Context `{Config} `{JsonCodec} `{Learning} `{Builtins}.

(** X10.  What the orchestrator saves, the aggregator lists.  With
    [RESULTS_DIR] being [results], names that are alphanumeric, and no
    [evaluation.json] yet: after [save_evaluation_results],
    [get_results_table] returns the table of one row that holds the two
    names, the scores and times that were saved, and the hyperparameters
    as text. *)
Theorem saved_result_is_listed
    (dataset : Dataset) (model : Model) (tuning_results n_trials : json)
    (hp_items : list (string * json)) (texts : list string)
    (V2 score train_time evaluation_time : number) (metric : string) (w : World)
    (Hdir : RESULTS_DIR = "results")
    (Hd : alnum_name (ds_name dataset) = true)
    (Hm : alnum_name (md_name model) = true)
    (Hhp : getitem tuning_results "hp" = Ok (JObj hp_items))
    (Hn : getitem tuning_results "n_trials" = Ok n_trials)
    (Hscore : getitem tuning_results "score" = Ok (JNum V2))
    (Hmetric : ds_metric dataset = Some metric)
    (Htexts : map_res describe_value (map snd hp_items) = Ok texts)
    (Hcodec :
       let record := evaluation_record (JObj hp_items) n_trials (JNum V2)
                       score train_time evaluation_time metric in
       json_loads (json_dumps record) = Ok record)
    (Hnone : matched_files w = []) :
  exists w1,
    save_evaluation_results dataset model tuning_results
      score train_time evaluation_time w = (Ok tt, w1) /\
    get_results_table w1 =
    (Ok (mkFrame (map JStr result_columns)
           [(0, [JStr (ds_name dataset); JStr (md_name model);
                 JNum score; JNum V2; JNum train_time; JNum evaluation_time;
                 n_trials;
                 JStr (join "," (zip_with (fun kv text => fst kv +:+ "=" +:+ text)
                                          hp_items texts))])]), w1).
Proof.
  cbv zeta in Hcodec.
  set (record := evaluation_record (JObj hp_items) n_trials (JNum V2)
                   score train_time evaluation_time metric) in *.
  set (path := evaluation_path dataset model).
  assert (Hpath : path = result_path (ds_name dataset) (md_name model))
    by (apply evaluation_path_plain; assumption).
  assert (Hglob : glob_matches path = true)
    by (rewrite Hpath; apply glob_matches_result_path; assumption).
  assert (Habsent : files w !! path = None).
  { destruct (files w !! path) as [c|] eqn:E; [|reflexivity].
    assert (Hin : path ∈ matched_files w)
      by (apply elem_of_matched_files; split; [rewrite E; eauto | exact Hglob]).
    rewrite Hnone in Hin. inversion Hin. }
  set (w1 := emit (Wrote path)
               (set_files (<[path := json_dumps record]> (files w)) w)).
  exists w1. split.
  - unfold save_evaluation_results. py. fold path.
    rewrite (run_read_none _ _ Habsent). py. simpl.
    rewrite Hhp, Hn, Hscore, Hmetric. py. reflexivity.
  - assert (Hfiles : matched_files w1 = [path]).
    { apply only_element; [apply NoDup_matched_files|]. intros p.
      rewrite elem_of_matched_files. subst w1. world_simpl. split.
      - intros [Hsome Hg]. destruct (decide (p = path)) as [->|Hne]; [reflexivity|].
        rewrite lookup_insert_ne in Hsome by done.
        assert (Hin : p ∈ matched_files w)
          by (apply elem_of_matched_files; split; assumption).
        rewrite Hnone in Hin. inversion Hin.
      - intros ->. split; [rewrite lookup_insert_eq; eauto | exact Hglob]. }
    set (e := mkEntry (ds_name dataset) (md_name model)
                [("hp", JObj hp_items); ("score", JNum score);
                 ("tuning_n_trials", n_trials); ("val_score", JNum V2);
                 ("train_time", JNum train_time);
                 ("evaluation_time", JNum evaluation_time);
                 ("metric_used", JStr metric)]
                hp_items texts).
    assert (Hentry : stored_entry w1 path e).
    { split; [exact Hpath|]. split; [exact Hd|]. split; [exact Hm|].
      exists (json_dumps record). split; [|split; [exact Hcodec|split; [reflexivity|exact Htexts]]].
      subst w1. world_simpl. apply lookup_insert_eq. }
    unfold get_results_table, glob_results. py. rewrite Hfiles.
    rewrite (map_m_load_result w1 [path] [e] Hdir)
      by (constructor; [exact Hentry | constructor]).
    py. rewrite select_frame_of_records.
    + cbn [map imap]. rewrite record_of_row. reflexivity.
    + apply Forall_forall. intros k Hk. constructor.
      apply record_of_has; [exact Hk|]. intros Hp.
      unfold passed_columns in Hp.
      repeat (apply elem_of_cons in Hp as [->|Hp]; [simpl; eauto|]).
      inversion Hp.
Qed.

End Listing2.

Section PrintingFacts.
Context `{Config} `{JsonCodec} `{Builtins}.

(** X11.  [print_results] and [split_resultsby_task] never get past the
    name [result]: whatever the statements after it would do, they are
    not reached.  [split_resultsby_task] raises [NameError] at once;
    [print_results] raises the error of [get_results_table] if there is
    one and [NameError] otherwise; neither prints nor changes
    anything. *)
Theorem print_results_never_prints
    (rest : nat -> DataFrame -> M unit) (rest' : nat -> M unit)
    (results : nat) (w : World) :
  split_resultsby_task rest' results w = (Raise NameError, w) /\
  print_results rest w =
  (match fst (get_results_table w) with
   | Ok _ => Raise NameError
   | Raise e => Raise e
   end, w).
Proof.
  split; [reflexivity|].
  unfold print_results. rewrite run_bind.
  pose proof (get_results_table_unchanged w) as Hw.
  destruct (get_results_table w) as [[df|e] w1]; simpl in Hw; subst w1;
    reflexivity.
Qed.

End PrintingFacts.

(** * Further properties of the providers *)

(** ** Sorting and the label encoder *)

Lemma insert_sorted_Permutation {A} (leb : A -> A -> bool) (x : A) (l : list A) :
  insert_sorted leb x l ≡ₚ x :: l.
Proof.
  induction l as [|y l IH]; simpl; [reflexivity|].
  destruct (leb x y); [reflexivity|].
  rewrite IH. apply Permutation_swap.
Qed.

Lemma sort_by_Permutation {A} (leb : A -> A -> bool) (l : list A) :
  sort_by leb l ≡ₚ l.
Proof.
  induction l as [|x l IH]; simpl; [reflexivity|].
  unfold sort_by in *. simpl. rewrite insert_sorted_Permutation, IH. reflexivity.
Qed.

Lemma py_eq_str_inv (s : string) (v : json) :
  py_eq (JStr s) v = true -> v = JStr s.
Proof.
  destruct v; simpl; try discriminate.
  intros Heq. apply String.eqb_eq in Heq. subst. reflexivity.
Qed.

Lemma existsb_py_eq_str (s : string) (l : list json) :
  existsb (py_eq (JStr s)) l = true <-> JStr s ∈ l.
Proof.
  rewrite existsb_exists. split.
  - intros (v & Hin & Heq). apply py_eq_str_inv in Heq. subst.
    apply list_elem_of_In. exact Hin.
  - intros Hin. exists (JStr s). split; [apply list_elem_of_In; exact Hin|].
    apply py_eq_str.
Qed.

Lemma distinct_labels_keep (values acc : list json) (v : json) :
  v ∈ acc ->
  v ∈ fold_left (fun acc v => if existsb (py_eq v) acc then acc
                              else (acc ++ [v])%list) values acc.
Proof.
  revert acc. induction values as [|x values IH]; intros acc Hin; simpl.
  - exact Hin.
  - apply IH. destruct (existsb (py_eq x) acc); [exact Hin|].
    apply elem_of_app. left. exact Hin.
Qed.

Lemma distinct_labels_has (values acc : list json) (s : string) :
  JStr s ∈ values ->
  JStr s ∈ fold_left (fun acc v => if existsb (py_eq v) acc then acc
                                   else (acc ++ [v])%list) values acc.
Proof.
  revert acc. induction values as [|x values IH]; intros acc Hin; simpl.
  - inversion Hin.
  - apply elem_of_cons in Hin as [<-|Hin].
    + apply distinct_labels_keep.
      destruct (existsb (py_eq (JStr s)) acc) eqn:E.
      * apply existsb_py_eq_str. exact E.
      * apply elem_of_app. right. left.
    + apply IH. exact Hin.
Qed.

(** Every label [fit] has seen is among the classes. *)
Lemma label_classes_has (values : list json) (s : string) :
  JStr s ∈ values -> JStr s ∈ label_classes values.
Proof.
  intros Hin. unfold label_classes. rewrite sort_by_Permutation.
  apply distinct_labels_has. exact Hin.
Qed.

Lemma find_index_py_eq_str (s : string) (l : list json) :
  JStr s ∈ l ->
  exists c, find_index (py_eq (JStr s)) l = Some c /\ l !! c = Some (JStr s).
Proof.
  induction l as [|v l IH]; intros Hin; [inversion Hin|]. cbn [find_index].
  destruct (py_eq (JStr s) v) eqn:E.
  - apply py_eq_str_inv in E. subst. exists 0%nat. split; reflexivity.
  - apply elem_of_cons in Hin as [<-|Hin]; [rewrite py_eq_str in E; discriminate|].
    destruct (IH Hin) as (c & Hc & Hl). exists (S c). rewrite Hc. split; [reflexivity|exact Hl].
Qed.

Lemma label_transform_known (classes : list json) (labels : list string) :
  Forall (fun s => JStr s ∈ classes) labels ->
  exists codes, label_transform classes (map JStr labels) = Ok codes /\
                Forall2 (decodes classes) labels codes.
Proof.
  unfold label_transform.
  induction labels as [|s labels IH]; intros Hall; cbn [map map_res].
  - exists []. split; [reflexivity | constructor].
  - apply Forall_cons in Hall as [Hs Hall].
    destruct (find_index_py_eq_str s classes Hs) as (c & Hc & Hl).
    rewrite Hc. destruct (IH Hall) as (codes & -> & Hcodes).
    eexists. split; [reflexivity|].
    constructor; [|exact Hcodes]. exists c. split; [reflexivity | exact Hl].
Qed.

Lemma all_continuation_app_char (s ch : string) :
  one_char ch = true -> all_continuation (s +:+ ch) = false.
Proof.
  intros Hch. induction s as [|a s IH].
  - destruct ch as [|c rest]; [discriminate|].
    change (is_continuation c && all_continuation rest = false).
    cbn [one_char] in Hch. apply andb_prop in Hch as [Hc _].
    apply negb_true_iff in Hc. rewrite Hc. reflexivity.
  - change (all_continuation (String a (s +:+ ch)) = false).
    cbn [all_continuation]. rewrite IH. apply andb_false_r.
Qed.

Lemma drop_last_char_snoc (s ch : string) :
  one_char ch = true -> drop_last_char (s +:+ ch) = s.
Proof.
  intros Hch. induction s as [|a s IH].
  - destruct ch as [|c rest]; [discriminate|].
    change (drop_last_char (String c rest) = EmptyString).
    cbn [one_char] in Hch. apply andb_prop in Hch as [_ Hrest].
    cbn [drop_last_char]. rewrite Hrest. reflexivity.
  - change (drop_last_char (String a (s +:+ ch)) = String a s).
    cbn [drop_last_char]. rewrite (all_continuation_app_char s ch Hch), IH.
    reflexivity.
Qed.

Lemma str_drop_last_snoc (s ch : string) :
  one_char ch = true -> str_drop_last (JStr (s +:+ ch)) = JStr s.
Proof. intros Hch. unfold str_drop_last. rewrite drop_last_char_snoc by exact Hch. reflexivity. Qed.

Lemma key_leb_str (s t : string) : key_leb (JStr s) (JStr t) = String.leb s t.
Proof.
  unfold key_leb, py_lt, String.leb. cbn [py_richcmp].
  rewrite (String.compare_antisym s t).
  destruct (String.compare t s); reflexivity.
Qed.

Lemma str_le_trans (a b c : json) : str_le a b -> str_le b c -> str_le a c.
Proof.
  intros (s & t & -> & -> & Hst) (t' & u & Heq & -> & Htu).
  injection Heq as <-. exists s, u. split; [reflexivity|]. split; [reflexivity|].
  apply Is_true_true. apply Is_true_true in Hst, Htu.
  exact (transitivity (R := String.le) Hst Htu).
Qed.

Lemma insert_sorted_str (x : json) (l : list json) :
  is_str x -> Forall is_str l -> Sorted str_le l ->
  Sorted str_le (insert_sorted key_leb x l).
Proof.
  intros [s ->] Hall Hsorted.
  induction l as [|y l IH]; cbn [insert_sorted].
  - repeat constructor.
  - apply Forall_cons in Hall as [[t ->] Hall]. rewrite key_leb_str.
    destruct (String.leb s t) eqn:E.
    + constructor; [exact Hsorted|]. constructor. exists s, t. auto.
    + apply Sorted_inv in Hsorted as [Hsorted Hhd].
      constructor; [apply IH; assumption|].
      assert (Hts : str_le (JStr t) (JStr s)).
      { exists t, s. split; [reflexivity|]. split; [reflexivity|].
        destruct (String.leb_total s t) as [Hst|Hts]; [congruence | exact Hts]. }
      destruct l as [|z l]; cbn [insert_sorted].
      * constructor. exact Hts.
      * destruct (key_leb (JStr s) z); constructor; [exact Hts|].
        inversion Hhd; assumption.
Qed.

Lemma sort_by_str (l : list json) :
  Forall is_str l -> Sorted str_le (sort_by key_leb l).
Proof.
  induction l as [|x l IH]; intros Hall; unfold sort_by; cbn [fold_right].
  - constructor.
  - apply Forall_cons in Hall as [Hx Hall].
    apply insert_sorted_str; [exact Hx | | apply IH; exact Hall].
    change (fold_right (insert_sorted key_leb) [] l) with (sort_by key_leb l).
    rewrite sort_by_Permutation. exact Hall.
Qed.

Lemma distinct_labels_str (values acc : list json) :
  Forall is_str values -> Forall is_str acc ->
  Forall is_str (fold_left (fun acc v => if existsb (py_eq v) acc then acc
                                         else (acc ++ [v])%list) values acc).
Proof.
  revert acc. induction values as [|x values IH]; intros acc Hv Hacc; simpl.
  - exact Hacc.
  - apply Forall_cons in Hv as [Hx Hv]. apply IH; [exact Hv|].
    destruct (existsb (py_eq x) acc); [exact Hacc|].
    apply Forall_app. split; [exact Hacc | repeat constructor; exact Hx].
Qed.

Lemma distinct_labels_NoDup (values acc : list json) :
  Forall is_str values -> Forall is_str acc -> NoDup acc ->
  NoDup (fold_left (fun acc v => if existsb (py_eq v) acc then acc
                                 else (acc ++ [v])%list) values acc).
Proof.
  revert acc. induction values as [|x values IH]; intros acc Hv Hacc Hnd; simpl.
  - exact Hnd.
  - apply Forall_cons in Hv as [[s ->] Hv].
    destruct (existsb (py_eq (JStr s)) acc) eqn:E.
    + apply IH; assumption.
    + apply IH; [exact Hv | |].
      * apply Forall_app. split; [exact Hacc | repeat constructor; eexists; reflexivity].
      * apply NoDup_app. split; [exact Hnd|]. split; [|apply NoDup_singleton].
        intros v Hin Hv'. apply list_elem_of_singleton in Hv'. subst.
        apply existsb_py_eq_str in Hin. congruence.
Qed.

(** The classes of string labels come in increasing order, each once:
    of two classes, the smaller string has the smaller position. *)
Lemma label_classes_ordered (labels : list string) (c d : nat) (s t : string) :
  label_classes (map JStr labels) !! c = Some (JStr s) ->
  label_classes (map JStr labels) !! d = Some (JStr t) ->
  String.compare s t = Lt -> (c < d)%nat.
Proof.
  intros Hc Hd Hlt.
  assert (Hstr : Forall is_str (map JStr labels)).
  { apply Forall_forall. intros v Hv. apply list_elem_of_fmap in Hv as (x & -> & _).
    eexists; reflexivity. }
  assert (Hsorted : StronglySorted str_le (label_classes (map JStr labels))).
  { apply Sorted_StronglySorted; [intros a b c'; apply str_le_trans|].
    apply sort_by_str. apply distinct_labels_str; [exact Hstr | constructor]. }
  destruct (Nat.lt_trichotomy c d) as [Hlt'|[->|Hgt]]; [exact Hlt'| |].
  - rewrite Hc in Hd. injection Hd as ->.
    pose proof (String.compare_antisym t t) as Hanti.
    rewrite Hlt in Hanti. discriminate.
  - exfalso.
    assert (Hle : str_le (JStr t) (JStr s)).
    { rewrite <- (take_drop_middle _ _ _ Hc) in Hsorted.
      apply (StronglySorted_app_1_elem_of _ _ _ _ _ Hsorted).
      - apply list_elem_of_lookup. exists d. rewrite lookup_take_lt by lia. exact Hd.
      - left. }
    destruct Hle as (t' & s' & Ht & Hs & Hle).
    injection Ht as <-. injection Hs as <-.
    unfold String.leb in Hle. rewrite (String.compare_antisym t s), Hlt in Hle.
    discriminate.
Qed.

Lemma distinct_labels_from (values acc : list json) (v : json) :
  v ∈ fold_left (fun acc v => if existsb (py_eq v) acc then acc
                              else (acc ++ [v])%list) values acc ->
  v ∈ acc \/ v ∈ values.
Proof.
  revert acc. induction values as [|x values IH]; intros acc; simpl.
  - auto.
  - intros Hin. apply IH in Hin as [Hin|Hin]; [|right; right; exact Hin].
    destruct (existsb (py_eq x) acc); [left; exact Hin|].
    apply elem_of_app in Hin as [Hin|Hin]; [left; exact Hin|].
    apply list_elem_of_singleton in Hin. subst. right. left.
Qed.

Lemma label_classes_from (values : list json) (v : json) :
  v ∈ label_classes values -> v ∈ values.
Proof.
  unfold label_classes. rewrite sort_by_Permutation. intros Hin.
  apply distinct_labels_from in Hin as [Hin|Hin]; [inversion Hin | exact Hin].
Qed.

Lemma find_index_None_str (s : string) (l : list json) :
  JStr s ∉ l -> find_index (py_eq (JStr s)) l = None.
Proof.
  induction l as [|v l IH]; intros Hnot; cbn [find_index]; [reflexivity|].
  destruct (py_eq (JStr s) v) eqn:E.
  - apply py_eq_str_inv in E. subst. exfalso. apply Hnot. left.
  - rewrite IH; [reflexivity|]. intros Hin. apply Hnot. right. exact Hin.
Qed.

Lemma label_transform_unknown (classes : list json) (labels : list string) :
  Exists (fun s => JStr s ∉ classes) labels ->
  label_transform classes (map JStr labels) = Raise ValueError.
Proof.
  unfold label_transform.
  induction labels as [|s labels IH]; intros Hex; [inversion Hex|].
  cbn [map map_res].
  destruct (find_index (py_eq (JStr s)) classes) as [c|] eqn:Hc; [|reflexivity].
  apply Exists_cons in Hex as [Hs|Hex].
  - rewrite find_index_None_str in Hc by exact Hs. discriminate.
  - rewrite (IH Hex). reflexivity.
Qed.

Section AdultLabels.
Context `{Environment} `{Network} `{Parsers} `{Random}.

(** X20.  [AdultDataset.get] on its two cached files, the label column
    holding strings: a training label is given its position among the
    distinct training labels in increasing order; a test label that is a
    training label followed by one more character, of however many bytes
    in the encoding, is given the code of that training label. *)
Theorem adult_labels_are_encoded
    (w : World) (file_train file_test : string)
    (df_train df_test X_train X_test : DataFrame) (l_train l_test : Series)
    (train_labels test_labels : list string)
    (Htrain_file : files w !! joinpath workdir ["adult.data"] = Some file_train)
    (Htrain_csv : read_csv ", " 0 file_train = Ok df_train)
    (Htest_file : files w !! joinpath workdir ["adult.test"] = Some file_test)
    (Htest_csv : read_csv ", " 1 file_test = Ok df_test)
    (Htrain : parse_dataset df_train = Ok (X_train, l_train))
    (Htest : parse_dataset df_test = Ok (X_test, l_test))
    (Hl_train : map snd (s_rows l_train) = map JStr train_labels)
    (Hl_test : Forall2 (fun v s => exists ch, one_char ch = true /\
                                              v = JStr (s +:+ ch))
                 (map snd (s_rows l_test)) test_labels)
    (Hknown : Forall (fun s => s ∈ train_labels) test_labels) :
  let classes := label_classes (map JStr train_labels) in
  exists y_train y_test,
    get Adult w =
      (Ok (PTuple [PTuple [PFrame X_train; PArray y_train];
                   PTuple [PFrame X_test; PArray y_test]]), w) /\
    Forall2 (decodes classes) train_labels y_train /\
    Forall2 (decodes classes) test_labels y_test /\
    (forall (c d : nat) (s t : string),
       classes !! c = Some (JStr s) -> classes !! d = Some (JStr t) ->
       String.compare s t = Lt -> (c < d)%nat).
Proof.
  intros classes.
  assert (Hhas : forall s, s ∈ train_labels -> JStr s ∈ classes).
  { intros s Hs. apply label_classes_has. apply list_elem_of_fmap. eauto. }
  destruct (label_transform_known classes train_labels) as (y_train & Hy_train & Hd_train).
  { apply Forall_forall. exact Hhas. }
  destruct (label_transform_known classes test_labels) as (y_test & Hy_test & Hd_test).
  { eapply Forall_impl; [exact Hknown|]. exact Hhas. }
  assert (Hcut : map (fun r : Z * json => str_drop_last (snd r)) (s_rows l_test)
                 = map JStr test_labels).
  { rewrite <- (map_map snd str_drop_last).
    clear -Hl_test.
    induction Hl_test as [|v s vs ss (ch & Hch & ->) _ IH]; cbn [map].
    - reflexivity.
    - rewrite (str_drop_last_snoc s ch Hch). f_equal. exact IH. }
  exists y_train, y_test. split; [|split; [exact Hd_train|split; [exact Hd_test|]]].
  - eapply get_adult; eauto.
    + rewrite Hl_train. exact Hy_train.
    + rewrite Hl_train, Hcut. exact Hy_test.
  - intros c d s t. apply label_classes_ordered.
Qed.

(** X21.  [AdultDataset.get] rejects a test file one of whose labels,
    with its last character removed, is not a training label: the call
    fails with a value error.  (So it does for a test file whose labels
    have no extra character, such as the training file itself, unless the
    shortened labels happen to be training labels too.) *)
Theorem adult_unknown_test_label
    (w : World) (file_train file_test : string)
    (df_train df_test X_train X_test : DataFrame) (l_train l_test : Series)
    (train_labels test_labels : list string)
    (Htrain_file : files w !! joinpath workdir ["adult.data"] = Some file_train)
    (Htrain_csv : read_csv ", " 0 file_train = Ok df_train)
    (Htest_file : files w !! joinpath workdir ["adult.test"] = Some file_test)
    (Htest_csv : read_csv ", " 1 file_test = Ok df_test)
    (Htrain : parse_dataset df_train = Ok (X_train, l_train))
    (Htest : parse_dataset df_test = Ok (X_test, l_test))
    (Hl_train : map snd (s_rows l_train) = map JStr train_labels)
    (Hl_test : map snd (s_rows l_test) = map JStr test_labels)
    (Hunknown :
       Exists (fun t => drop_last_char t ∉ train_labels) test_labels) :
  get Adult w = (Raise ValueError, w).
Proof.
  set (classes := label_classes (map JStr train_labels)).
  destruct (label_transform_known classes train_labels) as (y_train & Hy_train & _).
  { apply Forall_forall. intros s Hs. apply label_classes_has.
    apply list_elem_of_fmap. eauto. }
  assert (Hcut : map (fun r : Z * json => str_drop_last (snd r)) (s_rows l_test)
                 = map JStr (map drop_last_char test_labels)).
  { rewrite <- (map_map snd str_drop_last), Hl_test, !map_map. reflexivity. }
  assert (Hy_test : label_transform classes
                      (map (fun r : Z * json => str_drop_last (snd r)) (s_rows l_test))
                    = Raise ValueError).
  { rewrite Hcut. apply label_transform_unknown.
    apply Exists_fmap. eapply Exists_impl; [exact Hunknown|].
    intros t Ht Hin. apply Ht. apply label_classes_from in Hin.
    apply list_elem_of_fmap in Hin as (s & Heq & Hs). injection Heq as ->. exact Hs. }
  unfold get, AdultDataset_get, AdultDataset_get_raw. py.
  rewrite (run_filenames_at AdultDataset 0 _ "adult.data") by reflexivity.
  py. rewrite Htrain_file. rewrite bool_decide_eq_true_2 by eauto. py.
  rewrite (run_read _ _ _ Htrain_file). py. rewrite Htrain_csv. py.
  rewrite (run_filenames_at AdultDataset 1 _ "adult.test") by reflexivity.
  py. rewrite (run_read _ _ _ Htest_file). py. rewrite Htest_csv. py.
  simpl fst; simpl snd. rewrite Htrain. py. rewrite Htest. py.
  simpl fst; simpl snd. rewrite Hl_train. fold classes. rewrite Hy_train. py.
  rewrite Hy_test. reflexivity.
Qed.

End AdultLabels.

Section MoreProviders.
Context `{Environment} `{Network} `{Parsers} `{Random}.

Ltac stable_tac :=
  repeat first
    [ apply stable_ret | apply stable_raise | apply stable_lift
    | apply stable_attr | apply stable_isfile | apply stable_read_file
    | apply stable_train_test_split | apply stable_filenames_at
    | apply stable_bind; [|intros] ].

(** What [get] leaves when the checked file was absent and the download
    went through. *)
Lemma get_after_download (p : provider) (w w1 : World) :
  files w !! checked_path p = None ->
  download (class_of p) w = (Ok tt, w1) ->
  files (snd (get p w)) = files w1 /\ trace (snd (get p w)) = trace w1.
Proof.
  intros Habsent Hdl.
  destruct p; unfold get; cbn [class_of] in Hdl.
  - unfold DefaultCreditCardDataset_get. cbv zeta.
    rewrite (after_known _ "default of credit card clients.xls") by reflexivity.
    apply (cache_check_absent _ _ (fun _ => _) w w1 Habsent Hdl). stable_tac.
  - unfold StatlogAustralianDataset_get, Statlog_get.
    rewrite (after_known _ "australian.dat") by reflexivity.
    apply (cache_check_absent _ _ (fun _ => _) w w1 Habsent Hdl). stable_tac.
  - unfold StatlogGermanDataset_get, Statlog_get.
    rewrite (after_known _ "german.data-numeric") by reflexivity.
    apply (cache_check_absent _ _ (fun _ => _) w w1 Habsent Hdl). stable_tac.
  - unfold AdultDataset_get, AdultDataset_get_raw. cbv zeta.
    apply (after_bind (files w1)); [| |intros; stable_tac].
    + rewrite (after_known _ "adult.data") by reflexivity.
      apply (cache_check_absent _ _ (fun _ => _) w w1 Habsent Hdl). stable_tac.
    + rewrite (after_known _ "adult.data") by reflexivity.
      apply (cache_check_absent _ _ (fun _ => _) w w1 Habsent Hdl). stable_tac.
  - unfold SteelPlatesFaultsDataset_get. cbv zeta.
    rewrite (after_known _ "Faults.NNA") by reflexivity.
    apply (cache_check_absent _ _ (fun _ => _) w w1 Habsent Hdl). stable_tac.
  - unfold SeismicBumps_get. cbv zeta.
    rewrite (after_known _ "seismic-bumps.arff") by reflexivity.
    apply (cache_check_absent _ _ (fun _ => _) w w1 Habsent Hdl). stable_tac.
Qed.

(** A download that goes through leaves every declared file in place. *)
Lemma download_stores (p : provider) (w : World)
    (Hnet : Forall (fun u => is_ok (url_content (replace_spaces u)) = true)
                   (declared_urls (class_of p))) :
  exists w1, download (class_of p) w = (Ok tt, w1) /\
             Forall (fun name => is_Some (files w1 !! joinpath workdir [name]))
                    (declared_files (class_of p)).
Proof.
  destruct p; cbn [class_of] in *;
    unfold download, download_file, urlretrieve;
    cbn [declared_urls declared_files url urls filename filenames
         DefaultCreditCardDataset StatlogAustralianDataset StatlogGermanDataset
         AdultDataset SteelPlatesFaultsDataset SeismicBumps] in *;
    repeat match goal with
    | Hf : Forall _ (_ :: _) |- _ =>
        let Hu := fresh "Hu" in
        apply Forall_cons in Hf as [Hu Hf];
        match type of Hu with
        | is_ok ?r = true => destruct r eqn:?; [clear Hu | discriminate Hu]
        end
    end.
  all: py; cbn [zip zip_with for_each fst snd]; py;
    repeat (match goal with
            | Heq : url_content _ = Ok _ |- _ => rewrite Heq; clear Heq
            end; py);
    eexists; (split; [reflexivity|]);
    world_simpl;
    repeat (constructor;
            [ first [ rewrite lookup_insert_eq; eauto
                    | apply lookup_insert_is_Some'; right;
                      rewrite lookup_insert_eq; eauto ] |]);
    constructor.
Qed.

(** X16.  A second [get] never fetches: after one [get] with the network
    answering, the file the cache check looks at is in place, and a
    second [get] leaves files and trace as it found them. *)
Theorem get_twice_fetches_once (p : provider) (w : World)
    (Hnet : Forall (fun u => is_ok (url_content (replace_spaces u)) = true)
                   (declared_urls (class_of p))) :
  is_Some (files (snd (get p w)) !! checked_path p) /\
  files (snd (get p (snd (get p w)))) = files (snd (get p w)) /\
  trace (snd (get p (snd (get p w)))) = trace (snd (get p w)).
Proof.
  assert (Hcached : is_Some (files (snd (get p w)) !! checked_path p)).
  { destruct (files w !! checked_path p) as [c|] eqn:Hfile.
    - destruct (cached_get_does_not_download p w) as [Hf _]; [eauto|].
      rewrite Hf, Hfile. eauto.
    - destruct (download_stores p w Hnet) as (w1 & Hdl & Hstored).
      destruct (get_after_download p w w1 Hfile Hdl) as [Hf _].
      rewrite Hf. destruct p; apply Forall_cons in Hstored as [Hfirst _];
        exact Hfirst. }
  split; [exact Hcached|].
  apply cached_get_does_not_download. exact Hcached.
Qed.



(** X18.  The three providers that split refuse a table of fewer than two
    rows: the file is read and parsed, and the split raises, since a
    quarter of one row, rounded up, leaves nothing to train on.  Nothing
    is drawn from the random generator. *)
Theorem get_needs_two_rows (p : provider) (w : World) (file : string)
    (X : DataFrame) (y : Series)
    (Hsplits : splits p = true)
    (Hfile : files w !! checked_path p = Some file)
    (Htable : table_of p file = Ok (X, y))
    (Hrows : (length (rows X) < 2)%nat) :
  get p w = (Raise ValueError, w).
Proof.
  assert (Hsplit : train_test_split X y w = (Raise ValueError, w)).
  { unfold train_test_split.
    rewrite (table_of_rows _ _ _ _ Htable), Nat.eqb_refl. simpl negb. cbv iota.
    destruct (rows X) as [|r [|r' rest]]; simpl in *; [reflexivity.. | lia]. }
  assert (Hb : bool_decide (is_Some (files w !! checked_path p)) = true)
    by (apply bool_decide_eq_true_2; eauto).
  destruct p; try discriminate Hsplits; unfold get.
  - unfold DefaultCreditCardDataset_get. simpl in Htable.
    cbn [filename DefaultCreditCardDataset]. py.
    change (checked_path DefaultCreditCard) with (joinpath workdir ["default of credit card clients.xls"]) in Hb, Hfile.
    rewrite Hb. py.
    rewrite (run_read _ _ _ Hfile). py. rewrite Htable. py.
    simpl fst; simpl snd. rewrite Hsplit. reflexivity.
  - unfold StatlogAustralianDataset_get, Statlog_get. simpl in Htable.
    cbn [filename StatlogAustralianDataset]. py.
    change (checked_path StatlogAustralian) with (joinpath workdir ["australian.dat"]) in Hb, Hfile.
    rewrite Hb. py.
    rewrite (run_read _ _ _ Hfile). py. rewrite Htable. py.
    simpl fst; simpl snd. rewrite Hsplit. reflexivity.
  - unfold StatlogGermanDataset_get, Statlog_get. simpl in Htable.
    cbn [filename StatlogGermanDataset]. py.
    change (checked_path StatlogGerman) with (joinpath workdir ["german.data-numeric"]) in Hb, Hfile.
    rewrite Hb. py.
    rewrite (run_read _ _ _ Hfile). py. rewrite Htable. py.
    simpl fst; simpl snd. rewrite Hsplit. reflexivity.
Qed.

End MoreProviders.

Lemma replace_spaces_no_space (u : string) :
  " "%char ∉ list_ascii_of_string (replace_spaces u).
Proof.
  induction u as [|c u IH]; simpl.
  - intros Hin. inversion Hin.
  - destruct (Ascii.eqb c " ") eqn:E.
    + intros Hin. simpl in Hin.
      repeat (apply elem_of_cons in Hin as [Hin|Hin]; [discriminate|]).
      exact (IH Hin).
    + intros Hin. simpl in Hin. apply elem_of_cons in Hin as [Hin|Hin].
      * subst c. rewrite Ascii.eqb_refl in E. discriminate.
      * exact (IH Hin).
Qed.

Lemma replace_spaces_plain (u : string) :
  " "%char ∉ list_ascii_of_string u -> replace_spaces u = u.
Proof.
  induction u as [|c u IH]; simpl; intros Hnot; [reflexivity|].
  destruct (Ascii.eqb c " ") eqn:E.
  - apply Ascii.eqb_eq in E. subst. exfalso. apply Hnot. left.
  - f_equal. apply IH. intros Hin. apply Hnot. right. exact Hin.
Qed.

Section Downloads.
Context `{Environment} `{Network} `{Parsers} `{Random}.

Lemma download_file_request (u name : string) (w : World) :
  exists events,
    trace (snd (download_file u name w)) = (trace w ++ events)%list /\
    Forall (escaped_request [u]) events.
Proof.
  unfold download_file, urlretrieve.
  destruct (url_content (replace_spaces u)).
  - exists [Fetched (replace_spaces u) (joinpath workdir [name])]. split; [reflexivity|].
    repeat constructor. exists u, name.
    split; [left|]. split; [reflexivity|].
    split; [apply replace_spaces_no_space | apply replace_spaces_plain].
  - exists []. split; [simpl; rewrite app_nil_r; reflexivity | constructor].
Qed.

Lemma escaped_request_weaken (l l' : list string) (ev : event) :
  l ⊆ l' -> escaped_request l ev -> escaped_request l' ev.
Proof.
  intros Hsub (u & name & Hu & Hrest). exists u, name. split; [apply Hsub, Hu | exact Hrest].
Qed.

Lemma download_pairs_requests (pairs : list (string * string)) (w : World) :
  exists events,
    trace (snd (for_each pairs (fun p => download_file (fst p) (snd p)) w))
      = (trace w ++ events)%list /\
    Forall (escaped_request (map fst pairs)) events.
Proof.
  revert w. induction pairs as [|[u name] pairs IH]; intros w.
  - exists []. split; [simpl; rewrite app_nil_r; reflexivity | constructor].
  - rewrite for_each_cons. cbn [fst snd].
    destruct (download_file_request u name w) as (ev1 & Ht1 & Hev1).
    destruct (download_file u name w) as [[[]|e] w1]; simpl in Ht1.
    + destruct (IH w1) as (ev2 & Ht2 & Hev2).
      exists (ev1 ++ ev2)%list. rewrite Ht2, Ht1, app_assoc. split; [reflexivity|].
      apply Forall_app. split.
      * eapply Forall_impl; [exact Hev1|]. intros ev. apply escaped_request_weaken.
        intros x Hx. apply list_elem_of_singleton in Hx. subst. simpl. left.
      * eapply Forall_impl; [exact Hev2|]. intros ev. apply escaped_request_weaken.
        intros x Hx. simpl. right. exact Hx.
    + exists ev1. split; [exact Ht1|].
      eapply Forall_impl; [exact Hev1|]. intros ev. apply escaped_request_weaken.
      intros x Hx. apply list_elem_of_singleton in Hx. subst. simpl. left.
Qed.

(** X19.  Whatever class [download] is run for and whatever the network
    answers, all it adds to the trace are requests for declared URLs with
    every space replaced by [%20]: no requested URL holds a space, and a
    declared URL without spaces is requested as it is. *)
Theorem download_requests_are_escaped (cls : DatasetClass) (w : World) :
  exists events,
    trace (snd (download cls w)) = (trace w ++ events)%list /\
    Forall (escaped_request (declared_urls cls)) events.
Proof.
  unfold download, declared_urls. py.
  destruct (url cls) as [u|].
  - destruct (filename cls) as [name|]; py.
    + apply download_file_request.
    + exists []. split; [simpl; rewrite app_nil_r; reflexivity | constructor].
  - destruct (urls cls) as [us|]; py.
    + destruct (filenames cls) as [names|]; py.
      * destruct (download_pairs_requests (zip us names) w) as (events & Ht & Hev).
        exists events. split; [exact Ht|].
        eapply Forall_impl; [exact Hev|]. intros ev. apply escaped_request_weaken.
        intros x Hx. apply list_elem_of_fmap in Hx as ([u n] & -> & Hin).
        apply elem_of_zip_l in Hin. exact Hin.
      * exists []. split; [simpl; rewrite app_nil_r; reflexivity | constructor].
    + exists []. split; [simpl; rewrite app_nil_r; reflexivity | constructor].
Qed.

End Downloads.

(** * Further properties of the ranking *)

(** ** The ranking returned *)

Local Close Scope string_scope.

Lemma dyadic_compare_antisym (m1 e1 m2 e2 : Z) :
  dyadic_compare m2 e2 m1 e1 = CompOpp (dyadic_compare m1 e1 m2 e2).
Proof.
  unfold dyadic_compare. rewrite (Z.min_comm e2 e1). apply Z.compare_antisym.
Qed.

Lemma num_ltb_asym (a b : number) : num_ltb a b = true -> num_ltb b a = false.
Proof.
  unfold num_ltb, num_compare.
  destruct (extended_of_number a) as [| | |m1 e1],
           (extended_of_number b) as [| | |m2 e2];
    simpl; try discriminate; try reflexivity.
  rewrite (dyadic_compare_antisym m1 e1 m2 e2).
  destruct (dyadic_compare m1 e1 m2 e2); simpl; (discriminate || reflexivity).
Qed.

Lemma value_leb_total (a b : spec_float) :
  value_leb a b = false -> value_leb b a = true.
Proof.
  unfold value_leb.
  destruct a, b; try discriminate; try reflexivity;
    intros Hab; apply negb_false_iff in Hab;
    rewrite (num_ltb_asym _ _ Hab); reflexivity.
Qed.

(** Insertion sort with a total test gives a list in which every element
    passes the test with the next one. *)
Lemma insert_sorted_Sorted {A} (leb : A -> A -> bool) (x : A) (l : list A) :
  (forall a b, leb a b = false -> leb b a = true) ->
  Sorted (fun a b => leb a b = true) l ->
  Sorted (fun a b => leb a b = true) (insert_sorted leb x l).
Proof.
  intros Htotal Hsorted. induction l as [|y l IH]; cbn [insert_sorted].
  - repeat constructor.
  - destruct (leb x y) eqn:E.
    + constructor; [exact Hsorted|]. constructor. exact E.
    + apply Sorted_inv in Hsorted as [Hsorted Hhd].
      constructor; [apply IH; exact Hsorted|].
      destruct l as [|z l]; cbn [insert_sorted].
      * constructor. apply Htotal. exact E.
      * destruct (leb x z); constructor; [apply Htotal; exact E|].
        inversion Hhd; assumption.
Qed.

Lemma sort_by_Sorted {A} (leb : A -> A -> bool) (l : list A) :
  (forall a b, leb a b = false -> leb b a = true) ->
  Sorted (fun a b => leb a b = true) (sort_by leb l).
Proof.
  intros Htotal. induction l as [|x l IH]; unfold sort_by; cbn [fold_right].
  - constructor.
  - apply insert_sorted_Sorted; [exact Htotal | exact IH].
Qed.

Lemma Sorted_adjacent {A} (R : A -> A -> Prop) (l : list A) (i : nat) (a b : A) :
  Sorted R l -> l !! i = Some a -> l !! S i = Some b -> R a b.
Proof.
  intros Hsorted. revert i. induction Hsorted as [|x l Hs IH Hhd]; intros i Ha Hb.
  - discriminate.
  - destruct i as [|i]; simpl in *.
    + injection Ha as ->. destruct l as [|y l]; [discriminate|].
      simpl in Hb. injection Hb as ->. inversion Hhd; assumption.
    + eapply IH; eassumption.
Qed.

Local Open Scope string_scope.

Lemma group_keys_from (keys : list json) (k : json) :
  k ∈ group_keys keys -> k ∈ keys /\ is_missing k = false.
Proof.
  unfold group_keys. rewrite sort_by_Permutation.
  assert (Hgen : forall acc,
            k ∈ fold_left (fun acc k => if is_missing k || existsb (py_eq k) acc
                                        then acc else (acc ++ [k])%list) keys acc ->
            k ∈ acc \/ (k ∈ keys /\ is_missing k = false)).
  { induction keys as [|x keys IH]; intros acc; simpl; [auto|].
    intros Hin. apply IH in Hin as [Hin|[Hin Hm]]; [|right; split; [right|]; assumption].
    destruct (is_missing x) eqn:Hx; simpl in Hin; [left; exact Hin|].
    destruct (existsb (py_eq x) acc); [left; exact Hin|].
    apply elem_of_app in Hin as [Hin|Hin]; [left; exact Hin|].
    apply list_elem_of_singleton in Hin. subst. right. split; [left | exact Hx]. }
  intros Hin. apply Hgen in Hin as [Hin|Hin]; [inversion Hin | exact Hin].
Qed.

Lemma group_keys_has (keys : list json) (s : string) :
  JStr s ∈ keys -> JStr s ∈ group_keys keys.
Proof.
  unfold group_keys. rewrite sort_by_Permutation.
  assert (Hkeep : forall ks acc (v : json), v ∈ acc ->
            v ∈ fold_left (fun acc k => if is_missing k || existsb (py_eq k) acc
                                        then acc else (acc ++ [k])%list) ks acc).
  { induction ks as [|x ks IH]; intros acc v Hin; simpl; [exact Hin|].
    apply IH. destruct (is_missing x || existsb (py_eq x) acc); [exact Hin|].
    apply elem_of_app. left. exact Hin. }
  assert (Hgen : forall acc, JStr s ∈ keys ->
            JStr s ∈ fold_left (fun acc k => if is_missing k || existsb (py_eq k) acc
                                             then acc else (acc ++ [k])%list) keys acc).
  { induction keys as [|x keys IH]; intros acc Hin; simpl; [inversion Hin|].
    apply elem_of_cons in Hin as [<-|Hin]; [|apply IH; exact Hin].
    apply Hkeep. cbn [is_missing orb].
    destruct (existsb (py_eq (JStr s)) acc) eqn:E.
    - apply existsb_py_eq_str. exact E.
    - apply elem_of_app. right. left. }
  apply Hgen.
Qed.

Lemma group_keys_NoDup (keys : list json) :
  Forall is_str keys -> NoDup (group_keys keys).
Proof.
  intros Hstr. unfold group_keys. rewrite sort_by_Permutation.
  assert (Hgen : forall acc, Forall is_str acc -> NoDup acc ->
            NoDup (fold_left (fun acc k => if is_missing k || existsb (py_eq k) acc
                                           then acc else (acc ++ [k])%list) keys acc)).
  { induction keys as [|x keys IH]; intros acc Hacc Hnd; simpl; [exact Hnd|].
    apply Forall_cons in Hstr as [[s ->] Hstr]. cbn [is_missing orb].
    destruct (existsb (py_eq (JStr s)) acc) eqn:E.
    - apply IH; assumption.
    - apply IH; [exact Hstr | |].
      + apply Forall_app. split; [exact Hacc | repeat constructor; eexists; reflexivity].
      + apply NoDup_app. split; [exact Hnd|]. split; [|apply NoDup_singleton].
        intros v Hin Hv. apply list_elem_of_singleton in Hv. subst.
        apply existsb_py_eq_str in Hin. congruence. }
  apply Hgen; constructor.
Qed.

Lemma group_mean_sorted_keys (keys values : list json) :
  map fst (group_mean_sorted keys values) ≡ₚ group_keys keys.
Proof.
  unfold group_mean_sorted. rewrite sort_by_Permutation, map_map. simpl.
  rewrite map_id. reflexivity.
Qed.

Section RankingReturned.

(** X12.  The ranking [get_model_ranking] returns, when it returns one: the
    entries come by increasing average rank (every entry is at most the
    next one, an average that is missing coming last); every entry is a
    model of the [model] column of the table now stored, none of them
    missing; and when that column holds strings, each model of the column
    is listed exactly once. *)
Theorem get_model_ranking_is_sorted
    (results : nat) (w : World) (ranking : list (json * spec_float)) (w' : World)
    (Hrun : get_model_ranking results w = (Ok ranking, w')) :
  (forall (i : nat) (a b : json * spec_float),
     ranking !! i = Some a -> ranking !! S i = Some b ->
     value_leb (snd a) (snd b) = true) /\
  exists (df : DataFrame) (models : list json),
    store w' !! results = Some df /\
    get_column "model" df = Ok models /\
    Forall (fun a => fst a ∈ models /\ is_missing (fst a) = false) ranking /\
    (Forall is_str models ->
     NoDup (map fst ranking) /\
     forall s, JStr s ∈ models <-> JStr s ∈ map fst ranking).
Proof.
  unfold get_model_ranking in Hrun.
  do 9 bind_inv Hrun. apply ret_Ok_inv in Hrun as [<- <-].
  unfold lift in Hstep5, Hstep6, Hstep7.
  injection Hstep5 as _ <-. injection Hstep6 as Hmodels <-.
  injection Hstep7 as _ <-.
  unfold deref in Hstep4.
  destruct (store w4 !! results) as [df|] eqn:Hdf; [|discriminate].
  injection Hstep4 as <- <-.
  split.
  - intros i x y Hx Hy.
    apply (Sorted_adjacent (fun x y => value_leb (snd x) (snd y) = true)
             (group_mean_sorted a6 a7) i x y);
      [|exact Hx|exact Hy].
    unfold group_mean_sorted.
    apply (sort_by_Sorted (fun x y => value_leb (snd x) (snd y))).
    intros x' y'. apply value_leb_total.
  - exists df, a6. split; [exact Hdf|]. split; [exact Hmodels|]. split.
    + apply Forall_forall. intros x Hx.
      apply group_keys_from. rewrite <- group_mean_sorted_keys.
      apply list_elem_of_fmap. eauto.
    + intros Hstr. split.
      * rewrite group_mean_sorted_keys. apply group_keys_NoDup. exact Hstr.
      * intros s. rewrite group_mean_sorted_keys. split.
        -- apply group_keys_has.
        -- intros Hin. apply group_keys_from in Hin as [Hin _]. exact Hin.
Qed.

End RankingReturned.

(** ** Ranking twice *)

Lemma find_index_app_none {A} (p : A -> bool) (l : list A) (x : A) :
  find_index p l = None -> p x = false -> find_index p (l ++ [x]) = None.
Proof.
  induction l as [|y l IH]; simpl; intros Hl Hx.
  - rewrite Hx. reflexivity.
  - destruct (p y); [discriminate|].
    destruct (find_index p l); [discriminate|]. rewrite IH; auto.
Qed.

Lemma py_eq_str_ne (s t : string) : s <> t -> py_eq (JStr s) (JStr t) = false.
Proof. intros Hne. simpl. apply String.eqb_neq. exact Hne. Qed.

Lemma find_index_lookup {A} (p : A -> bool) (l : list A) (i : nat) :
  find_index p l = Some i -> exists c, l !! i = Some c /\ p c = true.
Proof.
  revert i. induction l as [|x l IH]; intros i; cbn [find_index]; [discriminate|].
  destruct (p x) eqn:E.
  - intros [= <-]. eauto.
  - destruct (find_index p l) as [j|]; [|discriminate].
    intros [= <-]. apply (IH j). reflexivity.
Qed.

(** Setting one column leaves the others as they were. *)
Lemma get_column_set_column_ne (label other : string) (values : list json)
    (df : DataFrame) :
  label <> other -> well_formed df -> length values = length (rows df) ->
  get_column label (set_column other values df) = get_column label df.
Proof.
  intros Hne Hwf Hlen. unfold set_column, get_column, column_position, column_index.
  destruct (find_index (py_eq (JStr other)) (columns df)) as [i|] eqn:Hi;
    cbn [columns rows].
  - destruct (find_index (py_eq (JStr label)) (columns df)) as [j|] eqn:Hj;
      [|reflexivity].
    f_equal.
    assert (Hij : j <> i).
    { intros ->.
      destruct (find_index_lookup _ _ _ Hi) as (c & Hc & Hother).
      destruct (find_index_lookup _ _ _ Hj) as (c' & Hc' & Hlabel).
      rewrite Hc in Hc'. injection Hc' as <-.
      apply py_eq_str_inv in Hother, Hlabel. congruence. }
    clear Hi Hj. revert values Hlen.
    induction Hwf as [|r rs Hr _ IH]; intros [|v vs] Hlen;
      simpl in *; try discriminate; [reflexivity|].
    f_equal; [|apply IH; lia].
    rewrite !nth_lookup, list_lookup_insert_ne by done. reflexivity.
  - destruct (find_index (py_eq (JStr label)) (columns df)) as [j|] eqn:Hj.
    + rewrite (find_index_app_old _ _ _ _ Hj). f_equal.
      apply find_index_Some in Hj.
      clear Hi. revert values Hlen.
      induction Hwf as [|r rs Hr _ IH]; intros [|v vs] Hlen;
        simpl in *; try discriminate; [reflexivity|].
      f_equal; [|apply IH; lia].
      rewrite !nth_lookup, lookup_app_l by lia. reflexivity.
    + rewrite (find_index_app_none _ _ _ Hj (py_eq_str_ne _ _ Hne)). reflexivity.
Qed.

Lemma set_column_well_formed (label : string) (values : list json) (df : DataFrame) :
  well_formed df -> well_formed (set_column label values df).
Proof.
  intros Hwf. unfold set_column, well_formed.
  destruct (column_index label df) as [i|]; cbn [columns rows].
  - revert values. induction Hwf as [|r rs Hr _ IH]; intros [|v vs]; simpl;
      try constructor; [|apply IH].
    simpl. rewrite length_insert. exact Hr.
  - revert values. induction Hwf as [|r rs Hr _ IH]; intros [|v vs]; simpl;
      try constructor; [|apply IH].
    simpl. rewrite !length_app. simpl. lia.
Qed.

Lemma set_column_rows (label : string) (values : list json) (df : DataFrame) :
  length values = length (rows df) ->
  length (rows (set_column label values df)) = length (rows df).
Proof.
  intros Hlen. unfold set_column.
  destruct (column_index label df); cbn [rows]; rewrite length_zip_with; lia.
Qed.

(** Setting a column to the values it has changes nothing. *)
Lemma set_column_twice (label : string) (values : list json) (df : DataFrame) :
  well_formed df -> length values = length (rows df) ->
  set_column label values (set_column label values df)
  = set_column label values df.
Proof.
  intros Hwf Hlen. unfold set_column at 1 3. unfold column_index.
  destruct (find_index (py_eq (JStr label)) (columns df)) as [i|] eqn:Hi.
  - unfold set_column, column_index. rewrite Hi. cbn [columns rows]. rewrite Hi.
    f_equal. clear Hi. revert values Hlen.
    induction Hwf as [|r rs Hr _ IH]; intros [|v vs] Hlen;
      simpl in *; try discriminate; [reflexivity|].
    f_equal; [|apply IH; lia].
    rewrite list_insert_insert_eq. reflexivity.
  - unfold set_column, column_index. rewrite Hi. cbn [columns rows].
    rewrite (find_index_app_new _ _ _ Hi (py_eq_str label)).
    f_equal. clear Hi. revert values Hlen.
    induction Hwf as [|r rs Hr _ IH]; intros [|v vs] Hlen;
      simpl in *; try discriminate; [reflexivity|].
    f_equal; [|apply IH; lia].
    f_equal. rewrite <- Hr.
    rewrite insert_app_r_alt by lia. rewrite Nat.sub_diag. reflexivity.
Qed.

Lemma set_store_same (w : World) (r : nat) (df : DataFrame) :
  store w !! r = Some df -> set_store (<[r := df]> (store w)) w = w.
Proof.
  intros Hdf. rewrite insert_id by exact Hdf. destruct w; reflexivity.
Qed.

Section RankingTwice.

(** X13.  Ranking is idempotent: after a call that returned a ranking for a
    well-formed table, a second call on the same reference returns the
    same ranking and leaves the table, which already has its
    [model_rank] column, exactly as it is. *)
Theorem get_model_ranking_twice
    (results : nat) (df : DataFrame) (w : World)
    (ranking : list (json * spec_float)) (w1 : World)
    (Hdf : store w !! results = Some df)
    (Hwf : well_formed df)
    (Hfirst : get_model_ranking results w = (Ok ranking, w1)) :
  get_model_ranking results w1 = (Ok ranking, w1).
Proof.
  unfold get_model_ranking in Hfirst.
  do 9 bind_inv Hfirst. apply ret_Ok_inv in Hfirst as [<- <-].
  unfold deref in Hstep. rewrite Hdf in Hstep. injection Hstep as <- <-.
  unfold lift in *.
  injection Hstep0 as Hdatasets <-. injection Hstep1 as Hscores <-.
  injection Hstep2 as Hranks <-.
  unfold assign in Hstep3. apply pair_equal_spec in Hstep3 as [_ <-].
  unfold deref in Hstep4. cbn [store set_store] in Hstep4.
  rewrite lookup_insert_eq in Hstep4. injection Hstep4 as <- <-.
  injection Hstep5 as Hsel <-. injection Hstep6 as Hmodels <-.
  injection Hstep7 as Hmr <-.
  assert (Hlen : length a2 = length (rows df)).
  { unfold group_rank in Hranks.
    destruct (forallb numeric_cell a1); [|discriminate].
    injection Hranks as <-. rewrite length_zip_with.
    apply get_column_length in Hdatasets, Hscores. lia. }
  set (ranked := set_column "model_rank" a2 df) in *.
  set (w1 := set_store (<[results := ranked]> (store w)) w).
  assert (Hstored : store w1 !! results = Some ranked)
    by (subst w1; world_simpl; apply lookup_insert_eq).
  assert (Hdatasets' : get_column "dataset" ranked = Ok a0).
  { unfold ranked.
    rewrite (get_column_set_column_ne "dataset" "model_rank") by (done || assumption).
    exact Hdatasets. }
  assert (Hscores' : get_column "score" ranked = Ok a1).
  { unfold ranked.
    rewrite (get_column_set_column_ne "score" "model_rank") by (done || assumption).
    exact Hscores. }
  assert (Hagain : set_column "model_rank" a2 ranked = ranked)
    by (apply set_column_twice; assumption).
  unfold get_model_ranking, deref, assign. py. rewrite Hstored. py.
  rewrite Hdatasets'. py. rewrite Hscores'. py. rewrite Hranks. py.
  rewrite Hagain. rewrite (set_store_same w1 results ranked Hstored).
  rewrite Hstored. py. rewrite Hsel. py. rewrite Hmodels. py. rewrite Hmr. py.
  reflexivity.
Qed.

End RankingTwice.

(** ** Ties and the range of the ranks *)

Local Close Scope string_scope.

Lemma dyadic_compare_eq_r (m1 e1 m2 e2 m3 e3 : Z) :
  dyadic_compare m2 e2 m3 e3 = Eq ->
  dyadic_compare m1 e1 m2 e2 = dyadic_compare m1 e1 m3 e3.
Proof.
  pose (E := Z.min (Z.min e1 e2) e3).
  assert (HE : E <= e1 /\ E <= e2 /\ E <= e3) by (unfold E; lia).
  rewrite (dyadic_compare_scale m2 e2 m3 e3 E) by tauto.
  rewrite (dyadic_compare_scale m1 e1 m2 e2 E) by tauto.
  rewrite (dyadic_compare_scale m1 e1 m3 e3 E) by tauto.
  intros H23. apply Z.compare_eq_iff in H23. rewrite H23. reflexivity.
Qed.

(** Numbers that compare equal compare alike with every number. *)
Lemma num_compare_eq_r (x s t : number) :
  num_eqb s t = true -> num_compare x s = num_compare x t.
Proof.
  unfold num_eqb, num_compare.
  destruct (extended_of_number x) as [| | |m1 e1],
           (extended_of_number s) as [| | |m2 e2],
           (extended_of_number t) as [| | |m3 e3];
    simpl; try discriminate; try reflexivity.
  destruct (dyadic_compare m2 e2 m3 e3) eqn:H23; try discriminate.
  intros _. f_equal. apply dyadic_compare_eq_r. exact H23.
Qed.

Lemma count_if_ext {A} (p q : A -> bool) (l : list A) :
  (forall x, p x = q x) -> count_if p l = count_if q l.
Proof.
  intros Hpq. induction l as [|x l IH]; [reflexivity|].
  rewrite !count_if_cons, Hpq, IH. reflexivity.
Qed.

Lemma rank2_tie (group : list number) (s t : number) :
  num_eqb s t = true -> rank2 group s = rank2 group t.
Proof.
  intros Heq. unfold rank2.
  rewrite (count_if_ext (fun x => num_gtb x s) (fun x => num_gtb x t))
    by (intros x; unfold num_gtb; rewrite (num_compare_eq_r x s t Heq); reflexivity).
  rewrite (count_if_ext (fun x => num_eqb x s) (fun x => num_eqb x t))
    by (intros x; unfold num_eqb; rewrite (num_compare_eq_r x s t Heq); reflexivity).
  reflexivity.
Qed.

Lemma num_eqb_present (s t : number) :
  num_eqb s t = true ->
  is_missing (JNum s) = false /\ is_missing (JNum t) = false /\ num_eqb s s = true.
Proof.
  intros Heq.
  assert (Hs : extended_of_number s <> XNan).
  { intros Hnan. unfold num_eqb, num_compare in Heq. rewrite Hnan in Heq.
    discriminate. }
  assert (Ht : extended_of_number t <> XNan).
  { intros Hnan. unfold num_eqb, num_compare in Heq. rewrite Hnan in Heq.
    destruct (extended_of_number s); discriminate. }
  split; [|split].
  - destruct s as [z|[]]; try reflexivity. exfalso. apply Hs. reflexivity.
  - destruct t as [z|[]]; try reflexivity. exfalso. apply Ht. reflexivity.
  - unfold num_eqb, num_compare.
    destruct (extended_of_number s) as [| | |m e]; simpl; try reflexivity.
    + contradiction.
    + rewrite dyadic_compare_refl. reflexivity.
Qed.

Local Open Scope string_scope.

Lemma rank_cell_at (datasets scores : list json) (i : nat) (d : string) (s : number) :
  datasets !! i = Some (JStr d) -> scores !! i = Some (JNum s) ->
  is_missing (JNum s) = false ->
  zip_with (rank_cell datasets scores) datasets scores !! i
  = Some (JNum (NFloat (half (rank2 (group_scores (JStr d) datasets scores) s)))).
Proof.
  intros Hd Hs Hpresent. rewrite lookup_zip_with, Hd.
  cbn [mbind option_bind]. rewrite Hs. cbn [mbind option_bind fmap option_fmap option_map].
  unfold rank_cell. change (is_missing (JStr d)) with false. cbn [orb].
  rewrite Hpresent. reflexivity.
Qed.

Section RankingTies.

(** X14.  The ranks [get_model_ranking] stores, for a well-formed table
    (of fewer than [2^52] rows) with a [dataset] column and a numeric
    [score] column: two rows of one dataset whose scores compare equal (as
    [1] and [1.0] do) have the same rank; and the rank of a row lies
    between 1 and the number of scored rows of its dataset: the cell
    stored is the float [m * 2^e], whose value is [r / 2] for an integer
    [r] between 2 and twice that number. *)
Theorem model_ranks_tie_and_stay_in_range
    (results : nat) (df : DataFrame) (datasets scores : list json) (w : World)
    (Hdf : store w !! results = Some df)
    (Hwf : well_formed df)
    (Hsmall : (Z.of_nat (length (rows df)) < 2 ^ 52)%Z)
    (Hdatasets : get_column "dataset" df = Ok datasets)
    (Hscores : get_column "score" df = Ok scores)
    (Hnumeric : forallb numeric_cell scores = true) :
  exists (ranked : DataFrame) (ranks : list json),
    store (snd (get_model_ranking results w)) !! results = Some ranked /\
    get_column "model_rank" ranked = Ok ranks /\
    (forall (i j : nat) (d : string) (s_i s_j : number),
       datasets !! i = Some (JStr d) -> datasets !! j = Some (JStr d) ->
       scores !! i = Some (JNum s_i) -> scores !! j = Some (JNum s_j) ->
       num_eqb s_i s_j = true ->
       ranks !! i = ranks !! j) /\
    (forall (i : nat) (d : string) (s : number),
       datasets !! i = Some (JStr d) -> scores !! i = Some (JNum s) ->
       num_eqb s s = true ->
       exists (m : positive) (e r : Z),
         ranks !! i = Some (JNum (NFloat (S754_finite false m e))) /\
         (e <= -1 /\ Z.pos m = r * 2 ^ (- e - 1))%Z /\
         (2 <= r <= 2 * Z.of_nat (length (group_scores (JStr d) datasets scores)))%Z).
Proof.
  set (ranks := zip_with (rank_cell datasets scores) datasets scores).
  set (ranked := set_column "model_rank" ranks df).
  assert (Hlen : length ranks = length (rows df)).
  { unfold ranks. rewrite length_zip_with.
    apply get_column_length in Hdatasets, Hscores. lia. }
  exists ranked, ranks. split; [|split; [|split]].
  - unfold get_model_ranking, deref, assign, group_rank. py.
    rewrite Hdf. py. rewrite Hdatasets. py. rewrite Hscores. py.
    rewrite Hnumeric. py. fold ranks. fold ranked. world_simpl.
    rewrite lookup_insert_eq.
    destruct (select_columns _ ranked); py; [|apply lookup_insert_eq].
    destruct (get_column "model" ranked); py; [|apply lookup_insert_eq].
    destruct (get_column "model_rank" ranked); py; apply lookup_insert_eq.
  - apply set_column_read; assumption.
  - intros i j d s_i s_j Hdi Hdj Hsi Hsj Heq.
    destruct (num_eqb_present _ _ Heq) as (Hpi & Hpj & _).
    unfold ranks. rewrite (rank_cell_at _ _ i d s_i), (rank_cell_at _ _ j d s_j)
      by assumption.
    rewrite (rank2_tie _ s_i s_j Heq). reflexivity.
  - intros i d s Hd Hs Hrefl.
    destruct (num_eqb_present _ _ Hrefl) as (Hp & _ & _).
    assert (Hsmall' : (Z.of_nat (length datasets) < 2 ^ 52)%Z).
    { apply get_column_length in Hdatasets. rewrite Hdatasets. exact Hsmall. }
    destruct (rank_cell_exact datasets scores i d s Hsmall' Hd Hs Hp Hrefl)
      as (m & e & Hcell & He & Hv & Hbounds).
    exists m, e, (rank2 (group_scores (JStr d) datasets scores) s).
    split; [exact Hcell|]. split; [split; [exact He|exact Hv]|].
    exact Hbounds.
Qed.

(** X15.  A table without a [dataset] column or without a [score] column
    is not touched: [get_model_ranking] raises the key error before it
    assigns anything, and the world is left as it was. *)
Theorem get_model_ranking_needs_its_columns
    (results : nat) (df : DataFrame) (w : World)
    (Hdf : store w !! results = Some df)
    (Hmissing : column_index "dataset" df = None \/
                column_index "score" df = None) :
  exists k, get_model_ranking results w = (Raise (KeyError k), w).
Proof.
  unfold get_model_ranking, deref. py. rewrite Hdf. py.
  unfold get_column, column_position.
  destruct (column_index "dataset" df) as [i|] eqn:Hd.
  - destruct Hmissing as [Hm|Hm]; [discriminate|]. py. rewrite Hm. py. eauto.
  - py. eauto.
Qed.

End RankingTies.

(** * The stored score, and the files of the providers *)

Local Close Scope string_scope.

Lemma num_gtb_asym (a b : number) : num_gtb a b = true -> num_gtb b a = false.
Proof.
  unfold num_gtb, num_compare.
  destruct (extended_of_number a) as [| | |m1 e1],
           (extended_of_number b) as [| | |m2 e2];
    simpl; try discriminate; try reflexivity.
  rewrite (dyadic_compare_antisym m1 e1 m2 e2).
  destruct (dyadic_compare m1 e1 m2 e2); simpl; (discriminate || reflexivity).
Qed.

Lemma strictly_better_irrefl (maximized : bool) (v : number) :
  strictly_better maximized v v = false.
Proof. destruct maximized; [apply num_gtb_irrefl | apply num_ltb_irrefl]. Qed.

Lemma strictly_better_asym (maximized : bool) (a b : number) :
  strictly_better maximized a b = true -> strictly_better maximized b a = false.
Proof. destruct maximized; [apply num_gtb_asym | apply num_ltb_asym]. Qed.

Local Open Scope string_scope.

Section StoredScore.
Context `{Config} `{JsonCodec} `{Learning}.

(** X24.  The stored validation score never gets worse.  With a stored
    record of validation score [V1] and a candidate of score [V2],
    [save_evaluation_results] leaves in the file the record of the score
    that is kept, [V2] if it is strictly better than [V1] and [V1]
    otherwise, and neither [V1] nor [V2] is strictly better than the
    score kept.  A score that is not a number (NaN) never replaces a
    stored one, and is never replaced once it is stored. *)
Theorem stored_score_never_gets_worse
    (dataset : Dataset) (model : Model) (tuning_results hp n_trials : json)
    (V1 V2 score train_time evaluation_time : number) (metric : string)
    (maximized : bool) (old : string) (prev : json) (w : World)
    (Hhp : getitem tuning_results "hp" = Ok hp)
    (Hn : getitem tuning_results "n_trials" = Ok n_trials)
    (Hscore : getitem tuning_results "score" = Ok (JNum V2))
    (Hmetric : ds_metric dataset = Some metric)
    (Hmax : ds_is_metric_maximized dataset = Some maximized)
    (Hold : files w !! evaluation_path dataset model = Some old)
    (Hprev : json_loads old = Ok prev)
    (Hval : getitem prev "val_score" = Ok (JNum V1)) :
  let replaced := strictly_better maximized V2 V1 in
  let kept := if replaced then V2 else V1 in
  let w' := snd (save_evaluation_results dataset model tuning_results
                   score train_time evaluation_time w) in
  files w' !! evaluation_path dataset model =
    Some (if replaced
          then json_dumps (evaluation_record hp n_trials (JNum V2)
                             score train_time evaluation_time metric)
          else old) /\
  strictly_better maximized V1 kept = false /\
  strictly_better maximized V2 kept = false /\
  (V1 = NFloat S754_nan \/ V2 = NFloat S754_nan -> replaced = false /\ w' = w).
Proof.
  intros replaced kept w'.
  assert (Hrun :
    save_evaluation_results dataset model tuning_results
      score train_time evaluation_time w =
    (Ok tt,
     if replaced
     then emit (Wrote (evaluation_path dataset model))
            (set_files
               (<[evaluation_path dataset model :=
                    json_dumps (evaluation_record hp n_trials (JNum V2)
                                  score train_time evaluation_time metric)]>
                  (files w)) w)
     else w)).
  { unfold save_evaluation_results. py.
    rewrite (run_read _ _ _ Hold). py.
    rewrite Hprev, Hmax. py. rewrite Hscore. py. rewrite Hval. py.
    subst replaced. unfold strictly_better.
    destruct maximized; py; [rewrite py_gt_num | rewrite py_lt_num];
      (match goal with
       | |- context [num_gtb ?a ?b] => destruct (num_gtb a b)
       | |- context [num_ltb ?a ?b] => destruct (num_ltb a b)
       end);
      py; rewrite ?Hhp, ?Hn, ?Hscore, ?Hmetric; py; reflexivity. }
  subst w'. rewrite Hrun. cbn [snd].
  split; [|split; [|split]].
  - destruct replaced; [world_simpl; apply lookup_insert_eq | exact Hold].
  - subst kept. destruct replaced eqn:E.
    + apply strictly_better_asym. exact E.
    + apply strictly_better_irrefl.
  - subst kept. destruct replaced eqn:E.
    + apply strictly_better_irrefl.
    + exact E.
  - intros Hnan.
    assert (E : replaced = false).
    { subst replaced. destruct Hnan as [-> | ->]; apply strictly_better_nan. }
    rewrite E. split; reflexivity.
Qed.

End StoredScore.

Section MoreProviders2.
Context `{Environment} `{Network} `{Parsers} `{Random}.

(** X25.  [SteelPlatesFaultsDataset] checks its first file only, as
    [AdultDataset] does: with [Faults.NNA] cached and readable and
    [Faults27x7_var] absent, [get] downloads nothing and fails with "file
    not found", the world unchanged. *)
Theorem steel_second_file_missing (w : World) (file : string) (df : DataFrame)
    (Hfirst : files w !! joinpath workdir ["Faults.NNA"] = Some file)
    (Hparse : read_csv "\t" 0 file = Ok df)
    (Hsecond : files w !! joinpath workdir ["Faults27x7_var"] = None) :
  get SteelPlatesFaults w = (Raise FileNotFoundError, w).
Proof.
  unfold get, SteelPlatesFaultsDataset_get. py.
  rewrite (run_filenames_at SteelPlatesFaultsDataset 0 _ "Faults.NNA") by reflexivity.
  py. rewrite Hfirst. rewrite bool_decide_eq_true_2 by eauto. py.
  rewrite (run_read _ _ _ Hfirst). py. rewrite Hparse. py.
  rewrite (run_filenames_at SteelPlatesFaultsDataset 1 _ "Faults27x7_var")
    by reflexivity.
  py. rewrite (run_read_none _ _ Hsecond). reflexivity.
Qed.

Lemma writes_within_urlretrieve allowed (u path : string) :
  allowed path -> writes_within allowed (urlretrieve u path).
Proof.
  intros Hpath w. unfold urlretrieve. destruct (url_content u); [|split; auto].
  simpl. split.
  - intros p Hp. apply lookup_insert_ne. intros ->. contradiction.
  - intros p Hp. destruct (decide (path = p)) as [->|Hne].
    + rewrite lookup_insert_eq. eauto.
    + rewrite lookup_insert_ne by done. exact Hp.
Qed.

Lemma writes_within_download_file allowed (u name : string) :
  allowed (joinpath workdir [name]) ->
  writes_within allowed (download_file u name).
Proof. intros Hname. unfold download_file. apply writes_within_urlretrieve, Hname. Qed.

Lemma writes_within_bind_ret {A B} allowed (a : A) (k : A -> M B) :
  writes_within allowed (k a) -> writes_within allowed (bind (ret a) k).
Proof. intros Hk w. exact (Hk w). Qed.

Lemma writes_within_download (p : provider) :
  writes_within
    (fun path => exists name, name ∈ declared_files (class_of p) /\
                              path = joinpath workdir [name])
    (download (class_of p)).
Proof.
  assert (Hfile : forall u name,
            name ∈ declared_files (class_of p) ->
            writes_within
              (fun path => exists name, name ∈ declared_files (class_of p) /\
                                        path = joinpath workdir [name])
              (download_file u name)).
  { intros u name Hname. apply writes_within_download_file. eauto. }
  unfold download. apply writes_within_bind; [same_files|]. intros _.
  destruct p; cbn [class_of url urls filename filenames attr
         DefaultCreditCardDataset StatlogAustralianDataset StatlogGermanDataset
         AdultDataset SteelPlatesFaultsDataset SeismicBumps];
    apply writes_within_bind_ret;
    try (apply Hfile; apply list_elem_of_singleton; reflexivity);
    apply writes_within_for_each; intros [u name] Hin; apply Hfile;
    apply elem_of_zip_r in Hin; exact Hin.
Qed.

Lemma writes_within_train_test_split allowed (X : DataFrame) (y : Series) :
  writes_within allowed (train_test_split X y).
Proof.
  apply writes_within_same. intros w. unfold train_test_split.
  destruct (negb _); [reflexivity|]. destruct (Nat.eqb _ 0); reflexivity.
Qed.

Lemma writes_within_filenames_at allowed (cls : DatasetClass) (i : nat) :
  writes_within allowed (filenames_at cls i).
Proof.
  unfold filenames_at. apply writes_within_bind; [apply writes_within_attr|].
  intros names. destruct (names !! i); same_files.
Qed.

Ltac provider_step p :=
  lazymatch goal with
  | |- writes_within _ (download _) => apply (writes_within_download p)
  | |- writes_within _ (train_test_split _ _) => apply writes_within_train_test_split
  | |- writes_within _ (filenames_at _ _) => apply writes_within_filenames_at
  | |- _ => writes_step
  end.

(** X26.  A provider writes nothing but its declared files, in the working
    directory: whatever [get] does (download, parse, split, fail), every
    other file is left as it was, and no file is removed. *)
Theorem get_writes_only_declared_files (p : provider) (w : World) :
  (forall path,
     (forall name, name ∈ declared_files (class_of p) ->
                   path <> joinpath workdir [name]) ->
     files (snd (get p w)) !! path = files w !! path) /\
  (forall path, is_Some (files w !! path) ->
                is_Some (files (snd (get p w)) !! path)).
Proof.
  assert (Hget : writes_within
            (fun path => exists name, name ∈ declared_files (class_of p) /\
                                      path = joinpath workdir [name])
            (get p)).
  { destruct p; unfold get;
      unfold DefaultCreditCardDataset_get, StatlogAustralianDataset_get,
             StatlogGermanDataset_get, Statlog_get, AdultDataset_get,
             AdultDataset_get_raw, SteelPlatesFaultsDataset_get, SeismicBumps_get;
      cbv zeta.
    - repeat (provider_step DefaultCreditCard; cbv zeta).
    - repeat (provider_step StatlogAustralian; cbv zeta).
    - repeat (provider_step StatlogGerman; cbv zeta).
    - repeat (provider_step Adult; cbv zeta).
    - repeat (provider_step SteelPlatesFaults; cbv zeta).
    - repeat (provider_step Seismic; cbv zeta). }
  destruct (Hget w) as [Hout Hkeep]. split; [|exact Hkeep].
  intros path Hpath. apply Hout. intros (name & Hname & ->).
  exact (Hpath name Hname eq_refl).
Qed.

End MoreProviders2.

(** * The further properties on the concrete instance *)

Lemma evaluated_pair_is_saved_then_reported_witness :
  exists w',
    @train_model demo_config demo_codec (demo_learning 1) 180
      demo_dataset demo_train demo_test (demo_model 1 "DemoModel")
      (demo_world [("results/DemoData/DemoModel/tuning.json", "tuning")])
    = (Ok tt, w') /\
    trace w' =
    [Printed "Model: DemoModel";
     Wrote "results/DemoData/DemoModel/evaluation.json";
     Printed "Results on test set: accuracy=1.00 (3.00 during validation)";
     Printed "Training time: 1.0s";
     Printed "Evaluation time: 0.0s"].
Proof.
  eexists. split.
  - eapply (@evaluated_pair_is_saved_then_reported demo_config demo_codec
              (demo_learning 1) 180 demo_dataset (demo_model 1 "DemoModel")
              demo_train demo_test "tuning" demo_tuning
              (JObj [("n_estimators", JNum (NInt 50))]) (JNum (NInt 10))
              (NInt 3) _ _ _ "accuracy" None true).
    + reflexivity.
    + reflexivity.
    + reflexivity.
    + reflexivity.
    + reflexivity.
    + reflexivity.
    + vm_compute. reflexivity.
    + vm_compute. reflexivity.
    + vm_compute. reflexivity.
    + vm_compute. reflexivity.
    + vm_compute. reflexivity.
    + vm_compute. reflexivity.
  - vm_compute. reflexivity.
Defined.

Lemma save_evaluation_results_twice_witness :
  @save_evaluation_results demo_config demo_codec (demo_learning 1)
    demo_dataset (demo_model 1 "DemoModel") demo_tuning_2
    (NInt 1) (NInt 1) (NInt 1)
    (snd (@save_evaluation_results demo_config demo_codec (demo_learning 1)
            demo_dataset (demo_model 1 "DemoModel") demo_tuning_2
            (NInt 1) (NInt 1) (NInt 1) (demo_world [])))
  = (Ok tt,
     snd (@save_evaluation_results demo_config demo_codec (demo_learning 1)
            demo_dataset (demo_model 1 "DemoModel") demo_tuning_2
            (NInt 1) (NInt 1) (NInt 1) (demo_world []))).
Proof.
  apply (@save_evaluation_results_twice demo_config demo_codec (demo_learning 1)
           demo_dataset (demo_model 1 "DemoModel") demo_tuning_2
           (JObj [("n_estimators", JNum (NInt 20))]) (JNum (NInt 10))
           (NInt 2) (NInt 1) (NInt 1) (NInt 1) "accuracy" true (demo_world []));
    reflexivity.
Defined.

Lemma cifar_weights_are_reused_witness :
  exists score evaluation_time w3,
    @evaluate_model demo_config (demo_learning 5)
      (demo_model 5 "Cifar10CustomModel") demo_dataset demo_train demo_test JNull
      (snd (@evaluate_model demo_config (demo_learning 5)
              (demo_model 5 "Cifar10CustomModel") demo_dataset
              demo_train demo_test JNull (demo_world [])))
    = (Ok (score, NInt (-1), evaluation_time), w3).
Proof.
  destruct (@evaluate_model demo_config (demo_learning 5)
              (demo_model 5 "Cifar10CustomModel") demo_dataset
              demo_train demo_test JNull (demo_world []))
    as [[r|e] w1] eqn:Hfirst; [|vm_compute in Hfirst; discriminate].
  cbn [snd].
  destruct (@evaluate_model demo_config (demo_learning 5)
              (demo_model 5 "Cifar10CustomModel") demo_dataset
              demo_train demo_test JNull w1)
    as [[[[score train_time] evaluation_time]|e] w3] eqn:Hsecond.
  - exists score, evaluation_time, w3.
    destruct (@cifar_weights_are_reused demo_config (demo_learning 5)
                (demo_model 5 "Cifar10CustomModel") demo_dataset demo_dataset
                demo_train demo_test demo_train demo_test JNull JNull
                r score train_time evaluation_time (demo_world []) w1 w1 w3
                eq_refl Hfirst eq_refl Hsecond) as [_ ->].
    reflexivity.
  - exfalso. vm_compute in Hfirst. injection Hfirst as _ <-.
    vm_compute in Hsecond. discriminate.
Defined.

Lemma dataset_errors_end_the_run_witness :
  @train_all_models_on_all_datasets demo_config demo_codec (demo_learning 1)
    [demo_failing_dataset; demo_dataset] [demo_model 1 "DemoModel"] 180
    (demo_world [])
  = (Raise MemoryError, emit (Printed "Dataset: Broken") (demo_world [])).
Proof.
  apply (@dataset_errors_end_the_run demo_config demo_codec (demo_learning 1)
           180 [] [demo_dataset] demo_failing_dataset
           [demo_model 1 "DemoModel"] (demo_world []) (demo_world [])).
  - reflexivity.
  - reflexivity.
Defined.

Lemma unsplit_providers_end_the_run_witness :
  @train_all_models_on_all_datasets demo_config demo_codec (demo_learning 1)
    [@as_dataset demo_env demo_network demo_parsers demo_random Seismic]
    [demo_model 1 "DemoModel"] 180 demo_data_world
  = (Raise ValueError, emit (Printed "Dataset: SeismicBumps") demo_data_world).
Proof.
  destruct (@unsplit_providers_end_the_run demo_config demo_codec
              (demo_learning 1) demo_env demo_network demo_parsers demo_random
              180 Seismic [] [demo_model 1 "DemoModel"]
              (PFrame (demo_table ["0"; "1"]))
              demo_data_world
              (emit (Printed "Dataset: SeismicBumps") demo_data_world)
              (or_intror eq_refl) eq_refl)
    as (df & Hdf & Hrun).
  apply Hrun. injection Hdf as <-. simpl. lia.
Defined.


Lemma saved_result_is_listed_witness :
  exists w1,
    @save_evaluation_results demo_config demo_codec (demo_learning 1)
      demo_dataset (demo_model 1 "DemoModel") demo_tuning_2
      (NInt 1) (NInt 1) (NInt 1) (demo_world []) = (Ok tt, w1) /\
    @get_results_table demo_config demo_codec demo_builtins w1 =
    (Ok (mkFrame (map JStr result_columns)
           [(0, [JStr "DemoData"; JStr "DemoModel"; JNum (NInt 1); JNum (NInt 2);
                 JNum (NInt 1); JNum (NInt 1); JNum (NInt 10);
                 JStr "n_estimators=20.00"])]), w1).
Proof.
  apply (@saved_result_is_listed demo_config demo_codec (demo_learning 1)
           demo_builtins demo_dataset (demo_model 1 "DemoModel") demo_tuning_2
           (JNum (NInt 10)) [("n_estimators", JNum (NInt 20))] ["20.00"]
           (NInt 2) (NInt 1) (NInt 1) (NInt 1) "accuracy" (demo_world []));
    reflexivity.
Defined.

Lemma get_model_ranking_is_sorted_witness :
  exists ranking w',
    get_model_ranking 0 demo_store_world = (Ok ranking, w') /\
    forall (i : nat) (a b : json * spec_float),
      ranking !! i = Some a -> ranking !! S i = Some b ->
      value_leb (snd a) (snd b) = true.
Proof.
  destruct (get_model_ranking 0 demo_store_world) as [[ranking|e] w'] eqn:Hrun;
    [|vm_compute in Hrun; discriminate].
  exists ranking, w'. split; [reflexivity|].
  exact (proj1 (get_model_ranking_is_sorted 0 demo_store_world ranking w' Hrun)).
Defined.

Lemma get_model_ranking_twice_witness :
  exists ranking w1,
    get_model_ranking 0 demo_store_world = (Ok ranking, w1) /\
    get_model_ranking 0 w1 = (Ok ranking, w1).
Proof.
  destruct (get_model_ranking 0 demo_store_world) as [[ranking|e] w1] eqn:Hrun;
    [|vm_compute in Hrun; discriminate].
  exists ranking, w1. split; [reflexivity|].
  apply (get_model_ranking_twice 0 demo_results demo_store_world ranking w1);
    [reflexivity | repeat constructor | exact Hrun].
Defined.

Lemma model_ranks_tie_and_stay_in_range_witness :
  exists ranked ranks,
    store (snd (get_model_ranking 0 demo_store_world)) !! 0%nat = Some ranked /\
    get_column "model_rank" ranked = Ok ranks /\
    exists (m : positive) (e r : Z),
      ranks !! 0%nat = Some (JNum (NFloat (S754_finite false m e))) /\
      (e <= -1 /\ Z.pos m = r * 2 ^ (- e - 1))%Z /\
      (2 <= r <= 4)%Z.
Proof.
  assert (Hwf : well_formed demo_results) by (repeat constructor).
  destruct (model_ranks_tie_and_stay_in_range 0 demo_results
              [JStr "D1"; JStr "D1"; JStr "D2"]
              [JNum (NInt 3); JNum (NInt 5); JNum (NInt 1)]
              demo_store_world eq_refl Hwf eq_refl eq_refl eq_refl eq_refl)
    as (ranked & ranks & Hstored & Hcolumn & _ & Hrange).
  exists ranked, ranks. split; [exact Hstored|]. split; [exact Hcolumn|].
  exact (Hrange 0%nat "D1" (NInt 3) eq_refl eq_refl eq_refl).
Defined.

Lemma get_model_ranking_needs_its_columns_witness :
  exists k,
    get_model_ranking 0
      (mkWorld ∅ (S754_zero false) None [] {[ 0%nat := mkFrame [] [] ]} 0)
    = (Raise (KeyError k),
       mkWorld ∅ (S754_zero false) None [] {[ 0%nat := mkFrame [] [] ]} 0).
Proof.
  apply (get_model_ranking_needs_its_columns 0 (mkFrame [] [])).
  - reflexivity.
  - left. reflexivity.
Defined.

Lemma get_twice_fetches_once_witness :
  is_Some (files (snd (@get demo_env demo_network demo_parsers demo_random
                         Seismic (demo_world [])))
             !! @checked_path demo_env Seismic) /\
  files (snd (@get demo_env demo_network demo_parsers demo_random Seismic
                (snd (@get demo_env demo_network demo_parsers demo_random
                        Seismic (demo_world [])))))
  = files (snd (@get demo_env demo_network demo_parsers demo_random
                  Seismic (demo_world []))) /\
  trace (snd (@get demo_env demo_network demo_parsers demo_random Seismic
                (snd (@get demo_env demo_network demo_parsers demo_random
                        Seismic (demo_world [])))))
  = trace (snd (@get demo_env demo_network demo_parsers demo_random
                  Seismic (demo_world []))).
Proof.
  apply (@get_twice_fetches_once demo_env demo_network demo_parsers demo_random
           Seismic (demo_world [])).
  repeat constructor.
Defined.


Lemma get_needs_two_rows_witness :
  @get demo_env demo_network demo_parsers demo_random StatlogAustralian
    (demo_world [("/home/user/data/australian.dat", "adult train")])
  = (Raise ValueError,
     demo_world [("/home/user/data/australian.dat", "adult train")]).
Proof.
  eapply (@get_needs_two_rows demo_env demo_network demo_parsers demo_random
            StatlogAustralian _ "adult train").
  - reflexivity.
  - reflexivity.
  - reflexivity.
  - simpl. lia.
Defined.

Lemma adult_labels_are_encoded_witness :
  let w := demo_world [("/home/user/data/adult.data", "adult train");
                       ("/home/user/data/adult.test", "adult test, accented")] in
  let classes := label_classes [JStr "<=50K"] in
  exists y_train y_test,
    @get demo_env demo_network demo_parsers demo_random Adult w
    = (Ok (PTuple
             [PTuple [PFrame (mkFrame (map JStr feature_names)
                                [(0, demo_features 0)]);
                      PArray y_train];
              PTuple [PFrame (mkFrame (map JStr feature_names)
                                [(0, demo_features 0); (1, demo_features 1)]);
                      PArray y_test]]), w) /\
    Forall2 (decodes classes) ["<=50K"] y_train /\
    Forall2 (decodes classes) ["<=50K"; "<=50K"] y_test.
Proof.
  intros w classes.
  destruct (@adult_labels_are_encoded demo_env demo_network demo_parsers
              demo_random w "adult train" "adult test, accented"
              (demo_table ["<=50K"])
              (demo_table ["<=50K" +:+ e_acute; "<=50K."])
              (mkFrame (map JStr feature_names) [(0, demo_features 0)])
              (mkFrame (map JStr feature_names)
                 [(0, demo_features 0); (1, demo_features 1)])
              (mkSeries (JNum (NInt 14)) [(0, JStr "<=50K")])
              (mkSeries (JNum (NInt 14))
                 [(0, JStr ("<=50K" +:+ e_acute)); (1, JStr "<=50K.")])
              ["<=50K"] ["<=50K"; "<=50K"])
    as (y_train & y_test & Hget & Htrain & Htest & _).
  - reflexivity.
  - reflexivity.
  - reflexivity.
  - reflexivity.
  - reflexivity.
  - reflexivity.
  - reflexivity.
  - constructor; [exists e_acute; split; reflexivity|].
    constructor; [exists "."; split; reflexivity|]. constructor.
  - repeat (constructor; [left|]). constructor.
  - exists y_train, y_test. split; [exact Hget|]. split; [exact Htrain|exact Htest].
Defined.

Lemma adult_unknown_test_label_witness :
  @get demo_env demo_network demo_parsers demo_random Adult
    (demo_world [("/home/user/data/adult.data", "adult train");
                 ("/home/user/data/adult.test", "adult train")])
  = (Raise ValueError,
     demo_world [("/home/user/data/adult.data", "adult train");
                 ("/home/user/data/adult.test", "adult train")]).
Proof.
  eapply (@adult_unknown_test_label demo_env demo_network demo_parsers
            demo_random _ "adult train" "adult train"
            (demo_table ["<=50K"]) (demo_table ["<=50K"])
            _ _ _ _ ["<=50K"] ["<=50K"]).
  - reflexivity.
  - reflexivity.
  - reflexivity.
  - reflexivity.
  - reflexivity.
  - reflexivity.
  - reflexivity.
  - reflexivity.
  - constructor. intros Hin. apply list_elem_of_singleton in Hin.
    vm_compute in Hin. discriminate Hin.
Defined.

Lemma adaboost_is_called_with_two_arguments_witness :
  fst (@evaluate_model demo_config (demo_learning 1)
         (@AdaBoostModel (demo_learning 1) demo_ensemble
            (fun train test _ => after 0 (PTuple [train; test])))
         demo_dataset demo_train demo_test JNull (demo_world []))
  = Raise TypeError.
Proof.
  rewrite (proj1 (@adaboost_is_called_with_two_arguments demo_config
                    (demo_learning 1) demo_ensemble
                    (fun train test _ => after 0 (PTuple [train; test]))
                    demo_dataset demo_train demo_test JNull []
                    (PTuple [demo_train; demo_test]) demo_train demo_test
                    (f_of_Z 0) (demo_world []) eq_refl eq_refl eq_refl eq_refl)).
  reflexivity.
Defined.

Lemma stored_score_never_gets_worse_witness :
  files (snd (@save_evaluation_results demo_config demo_codec (demo_learning 1)
                demo_dataset (demo_model 1 "DemoModel") demo_tuning
                (NInt 1) (NInt 1) (NInt 1)
                (demo_world [("results/DemoData/DemoModel/evaluation.json",
                              "stored 2")])))
    !! "results/DemoData/DemoModel/evaluation.json" = Some "stored 3".
Proof.
  apply (@stored_score_never_gets_worse demo_config demo_codec (demo_learning 1)
           demo_dataset (demo_model 1 "DemoModel") demo_tuning
           (JObj [("n_estimators", JNum (NInt 50))]) (JNum (NInt 10))
           (NInt 2) (NInt 3) (NInt 1) (NInt 1) (NInt 1) "accuracy" true
           "stored 2" (demo_stored 2)
           (demo_world [("results/DemoData/DemoModel/evaluation.json",
                         "stored 2")]));
    reflexivity.
Defined.

Lemma steel_second_file_missing_witness :
  @get demo_env demo_network demo_parsers demo_random SteelPlatesFaults
    (demo_world [("/home/user/data/Faults.NNA", "faults")]) =
  (Raise FileNotFoundError,
   demo_world [("/home/user/data/Faults.NNA", "faults")]).
Proof.
  apply (@steel_second_file_missing demo_env demo_network demo_parsers
           demo_random
           (demo_world [("/home/user/data/Faults.NNA", "faults")])
           "faults" (demo_table ["a"; "b"])).
  - reflexivity.
  - reflexivity.
  - reflexivity.
Defined.

Lemma adaboost_accepts_its_search_space_witness :
  @AdaBoostModel_build_estimator (demo_learning 1) demo_ensemble
    [PValue (JObj [("loss", JStr "linear"); ("n_estimators", JNum (NInt 50))])]
  = @AdaBoostRegressor (demo_learning 1) demo_ensemble
      [("random_state", PValue (JNum (NInt 0)));
       ("loss", PValue (JStr "linear"));
       ("n_estimators", PValue (JNum (NInt 50)))].
Proof.
  apply (proj1 (@adaboost_accepts_its_search_space (demo_learning 1) demo_ensemble
                  [("loss", JStr "linear"); ("n_estimators", JNum (NInt 50))])).
  repeat constructor.
Defined.
